(** * JD-Agent tool servers: a shallow embedding and its properties

    The development embeds the three tool servers of the repository,
    - [local_mcp_analyzer/server.py]      (module [Analyzer]),
    - [local_mcp_resume_agent/server.py]  (module [ResumeAgent]),
    - [jd_agent_test/sub_agents/server.py] (module [JdTools]),
    over a model of the Python values they exchange (module [Py]) and of
    the SQLite store they share (module [Sqlite]).

    Scope of the model.  A text is the string of the bytes of its UTF-8
    encoding, which is what a string literal of this file holds.  Python
    values are [None], booleans, integers, strings, lists and dictionaries;
    floating point numbers are left out.  The language model and the CSV
    reader of the standard library are parameters ([env]).  The store is
    modelled at the level of the statements the servers issue, for the
    tables of the user; the names of tables and columns are compared as
    SQLite compares them, without regard to the case of ASCII letters. *)

From Stdlib Require Import ZArith Ascii String List Bool Lia.
From stdpp Require Import base option list gmap strings pretty.

Set Warnings "-register-all".
Local Open Scope Z_scope.

(* ================================================================== *)
(** * Python values                                                     *)
(* ================================================================== *)

Module Py.

(** A Python value as the tools receive it from JSON and hand it back. *)
Inductive pyval : Type :=
| PNone
| PBool (b : bool)
| PInt (z : Z)
| PStr (s : string)
| PList (l : list pyval)
| PDict (d : list (string * pyval)).

(** A [dict] with string keys: insertion ordered, as Python keeps it. *)
Definition dict (V : Type) : Type := list (string * V).

Fixpoint dict_get {V : Type} (k : string) (d : dict V) : option V :=
  match d with
  | [] => None
  | (k', v) :: d' => if String.eqb k k' then Some v else dict_get k d'
  end.

(** [d[k] = v]: overwrite in place when the key is present, append otherwise. *)
Fixpoint dict_set {V : Type} (k : string) (v : V) (d : dict V) : dict V :=
  match d with
  | [] => [(k, v)]
  | (k', v') :: d' =>
      if String.eqb k k' then (k', v) :: d' else (k', v') :: dict_set k v d'
  end.

Definition dict_keys {V : Type} (d : dict V) : list string := map fst d.
Definition dict_values {V : Type} (d : dict V) : list V := map snd d.

(** [x in l] for a list of strings. *)
Definition str_in (x : string) (l : list string) : bool :=
  existsb (String.eqb x) l.

(** Truth value of an object ([if not x]). *)
Definition truthy (v : pyval) : bool :=
  match v with
  | PNone => false
  | PBool b => b
  | PInt z => negb (z =? 0)
  | PStr s => negb (String.eqb s EmptyString)
  | PList l => match l with [] => false | _ => true end
  | PDict d => match d with [] => false | _ => true end
  end.

(** [type(v).__name__], as it shows in an [AttributeError]. *)
Definition type_name (v : pyval) : string :=
  match v with
  | PNone => "NoneType"
  | PBool _ => "bool"
  | PInt _ => "int"
  | PStr _ => "str"
  | PList _ => "list"
  | PDict _ => "dict"
  end.

(** White space as [str.strip()] and [str.isspace()] know it.  In one
    byte: tab, line feed, vertical tab, form feed, carriage return, the
    four separators 0x1c-0x1f and the space. *)
Definition is_space (a : ascii) : bool :=
  let n := nat_of_ascii a in
  (Nat.leb 9 n && Nat.leb n 13) || (Nat.leb 28 n && Nat.leb n 32).

Definition byte_is (n : nat) (a : ascii) : bool := Nat.eqb (nat_of_ascii a) n.

(** In two bytes: U+0085 (next line) and U+00A0 (no-break space). *)
Definition is_space2 (a b : ascii) : bool :=
  byte_is 194 a && (byte_is 133 b || byte_is 160 b).

(** In three bytes: U+1680, U+2000 to U+200A, U+2028, U+2029, U+202F,
    U+205F and U+3000. *)
Definition is_space3 (a b c : ascii) : bool :=
  let n := nat_of_ascii c in
  (byte_is 225 a && byte_is 154 b && byte_is 128 c)
  || (byte_is 226 a && byte_is 128 b
      && ((Nat.leb 128 n && Nat.leb n 138) || byte_is 168 c || byte_is 169 c
          || byte_is 175 c))
  || (byte_is 226 a && byte_is 129 b && byte_is 159 c)
  || (byte_is 227 a && byte_is 128 b && byte_is 128 c).

(** The text after its first character, when that is white space. *)
Definition drop_space (s : string) : option string :=
  match s with
  | String a r =>
      if is_space a then Some r
      else
        match r with
        | String b r2 =>
            if is_space2 a b then Some r2
            else
              match r2 with
              | String c r3 => if is_space3 a b c then Some r3 else None
              | EmptyString => None
              end
        | EmptyString => None
        end
  | EmptyString => None
  end.

Fixpoint lstrip (s : string) : string :=
  match s with
  | EmptyString => EmptyString
  | String a r =>
      if is_space a then lstrip r
      else
        match r with
        | String b r2 =>
            if is_space2 a b then lstrip r2
            else
              match r2 with
              | String c r3 => if is_space3 a b c then lstrip r3 else s
              | EmptyString => s
              end
        | EmptyString => s
        end
  end.

(** The string is empty or holds whitespace only. *)
Definition all_space (s : string) : bool :=
  match lstrip s with EmptyString => true | _ => false end.

(** The text without the white space it ends with.  (A suffix that
    starts inside a character starts with a continuation byte, which
    starts no white space.) *)
Fixpoint rstrip (s : string) : string :=
  match s with
  | EmptyString => EmptyString
  | String a r => if all_space s then EmptyString else String a (rstrip r)
  end.

Definition strip (s : string) : string := rstrip (lstrip s).

Definition is_empty (s : string) : bool :=
  match s with EmptyString => true | _ => false end.

(** [s.startswith(p)]. *)
Fixpoint startswith (p s : string) : bool :=
  match p, s with
  | EmptyString, _ => true
  | String a p', String b s' => Ascii.eqb a b && startswith p' s'
  | String _ _, EmptyString => false
  end.

(** [s.replace(" ", "_")] for single characters. *)
Fixpoint replace_char (old new : ascii) (s : string) : string :=
  match s with
  | EmptyString => EmptyString
  | String a r =>
      String (if Ascii.eqb a old then new else a) (replace_char old new r)
  end.

Definition lower_char (a : ascii) : ascii :=
  let n := nat_of_ascii a in
  if Nat.leb 65 n && Nat.leb n 90 then ascii_of_nat (n + 32) else a.

Definition upper_char (a : ascii) : ascii :=
  let n := nat_of_ascii a in
  if Nat.leb 97 n && Nat.leb n 122 then ascii_of_nat (n - 32) else a.

Fixpoint map_chars (f : ascii -> ascii) (s : string) : string :=
  match s with
  | EmptyString => EmptyString
  | String a r => String (f a) (map_chars f r)
  end.

Definition lower : string -> string := map_chars lower_char.
Definition upper : string -> string := map_chars upper_char.

(** [sep.join(l)]. *)
Fixpoint join (sep : string) (l : list string) : string :=
  match l with
  | [] => EmptyString
  | [x] => x
  | x :: r => x +:+ sep +:+ join sep r
  end.

(** Exceptions the servers raise or meet; each carries [str(e)]. *)
Inductive exn : Type :=
| SqliteError (msg : string)     (* sqlite3.Error and its subclasses *)
| ValueError (msg : string)
| AttributeError (msg : string)
| TypeError (msg : string)
| OverflowError (msg : string)
| CsvError (msg : string)        (* csv.Error *)
| RuntimeError (msg : string).   (* any other Exception, e.g. from the LLM client *)

Definition exn_msg (e : exn) : string :=
  match e with
  | SqliteError m | ValueError m | AttributeError m | TypeError m
  | OverflowError m | CsvError m | RuntimeError m => m
  end.

Definition is_sqlite_error (e : exn) : bool :=
  match e with SqliteError _ => true | _ => false end.

Definition is_value_error (e : exn) : bool :=
  match e with ValueError _ => true | _ => false end.

(** A call either returns or raises. *)
Inductive outcome (A : Type) : Type :=
| Ret (a : A)
| Raise (e : exn).
Arguments Ret {A} a.
Arguments Raise {A} e.

Definition obind {A B : Type} (o : outcome A) (k : A -> outcome B) : outcome B :=
  match o with
  | Ret a => k a
  | Raise e => Raise e
  end.

Notation "'let!' x ':=' e 'in' k" := (obind e (fun x => k))
  (at level 10, x pattern, e at level 100, k at level 200).

(** [[f(x) for x in l]] where [f] may raise: the first exception wins. *)
Fixpoint omap {A B : Type} (f : A -> outcome B) (l : list A) : outcome (list B) :=
  match l with
  | [] => Ret []
  | x :: r =>
      match f x with
      | Raise e => Raise e
      | Ret y => match omap f r with
                 | Raise e => Raise e
                 | Ret ys => Ret (y :: ys)
                 end
      end
  end.

End Py.

(* ================================================================== *)
(** * The SQLite store                                                  *)
(* ================================================================== *)

(** The store is modelled through the statements the servers send:
    [PRAGMA table_info], [SELECT], [INSERT], [UPDATE], [DELETE] and
    [CREATE TABLE IF NOT EXISTS].  A table has typed columns with their
    [NOT NULL], [UNIQUE] and [DEFAULT] clauses, may declare one column
    [INTEGER PRIMARY KEY] (an alias of the rowid) and may be
    [AUTOINCREMENT].  Values are NULL, 64-bit integers and text, stored
    under the column's type affinity.  A failing statement leaves the
    table as it was.

    What the model leaves out.  There are no REAL numbers: text that
    reads as a number with a fraction or an exponent, which a numeric
    column would store as a number, is kept as text.  The store holds
    the tables of the user: of the engine's own tables, the schema table
    answers [PRAGMA table_info] only, and [sqlite_sequence] is kept as
    the counter [tbl_seq] of each AUTOINCREMENT table.  Text the caller
    supplies is read in a small fragment: a table name is a plain
    identifier, a select list is [*] or column names separated by
    commas, a condition is [1=1] or [column = literal]; other text
    (expressions, quoted names, the names [rowid], [oid] and [_rowid_])
    is answered with an error of the engine, where the engine may well
    run it, and a key word of SQL is taken for a name.  The properties
    below are stated for calls inside the fragment, or for what a call
    itself reports. *)

Module Sqlite.
Import Py.

Inductive sqlval : Type :=
| SNull
| SInt (z : Z)
| SText (s : string).

Definition sqlval_eqb (a b : sqlval) : bool :=
  match a, b with
  | SNull, SNull => true
  | SInt x, SInt y => x =? y
  | SText x, SText y => String.eqb x y
  | _, _ => false
  end.

Definition is_null (v : sqlval) : bool :=
  match v with SNull => true | _ => false end.

Record column : Type := {
  col_name : string;
  col_type : string;       (* the declared type, as PRAGMA table_info shows it *)
  col_notnull : bool;
  col_unique : bool;
  col_default : sqlval
}.

(** A stored row: its rowid and one cell per column. *)
Definition stored_row : Type := Z * list sqlval.

Record table : Type := {
  tbl_columns : list column;
  tbl_pk : option string;  (* the INTEGER PRIMARY KEY column, if any *)
  tbl_autoinc : bool;
  tbl_seq : Z;             (* largest rowid ever used (sqlite_sequence) *)
  tbl_rows : list stored_row
}.

Abbreviation db := (gmap string table).

Definition sql_error {A : Type} (msg : string) : outcome A :=
  Raise (SqliteError msg).

(** ** Parameter binding and result conversion (the [sqlite3] module) *)

Definition int64_ok (z : Z) : bool :=
  (- 9223372036854775808 <=? z) && (z <=? 9223372036854775807).

Definition bind_param (v : pyval) : outcome sqlval :=
  match v with
  | PNone => Ret SNull
  | PBool b => Ret (SInt (if b then 1 else 0))
  | PInt z =>
      if int64_ok z then Ret (SInt z)
      else Raise (OverflowError "Python int too large to convert to SQLite INTEGER")
  | PStr s => Ret (SText s)
  | PList _ => sql_error "Error binding parameter: type 'list' is not supported"
  | PDict _ => sql_error "Error binding parameter: type 'dict' is not supported"
  end.

Definition py_of_sql (v : sqlval) : pyval :=
  match v with
  | SNull => PNone
  | SInt z => PInt z
  | SText s => PStr s
  end.

(** ** Identifiers and literals in statement text *)

Definition is_letter (a : ascii) : bool :=
  let n := nat_of_ascii a in
  (Nat.leb 65 n && Nat.leb n 90) || (Nat.leb 97 n && Nat.leb n 122).

Definition is_digit (a : ascii) : bool :=
  let n := nat_of_ascii a in Nat.leb 48 n && Nat.leb n 57.

Definition is_underscore (a : ascii) : bool := Nat.eqb (nat_of_ascii a) 95.

Definition ident_char (a : ascii) : bool :=
  is_letter a || is_digit a || is_underscore a.

Fixpoint all_chars (p : ascii -> bool) (s : string) : bool :=
  match s with
  | EmptyString => true
  | String a r => p a && all_chars p r
  end.

(** An identifier that can stand unquoted in a statement. *)
Definition plain_ident (s : string) : bool :=
  match s with
  | EmptyString => false
  | String a r => (is_letter a || is_underscore a) && all_chars ident_char r
  end.

Fixpoint has_char (c : ascii) (s : string) : bool :=
  match s with
  | EmptyString => false
  | String a r => Ascii.eqb a c || has_char c r
  end.

(** Text that can stand between two quote characters [q] in a
    statement: it holds neither the quote character nor the character
    NUL, with which no statement is accepted. *)
Definition quotable (q : ascii) (s : string) : bool :=
  negb (has_char q s) && negb (has_char (ascii_of_nat 0) s).

Fixpoint contains (needle s : string) : bool :=
  startswith needle s
  || match s with
     | EmptyString => false
     | String _ r => contains needle r
     end.

(** White space between the tokens of a statement: tab, line feed, form
    feed, carriage return and space; any other control character is an
    unrecognized token. *)
Definition sql_space (a : ascii) : bool :=
  let n := nat_of_ascii a in
  Nat.eqb n 9 || Nat.eqb n 10 || Nat.eqb n 12 || Nat.eqb n 13 || Nat.eqb n 32.

(** White space around the text of a number, which may be a vertical
    tab as well. *)
Definition num_space (a : ascii) : bool :=
  let n := nat_of_ascii a in
  (Nat.leb 9 n && Nat.leb n 13) || Nat.eqb n 32.

Fixpoint trim_left (p : ascii -> bool) (s : string) : string :=
  match s with
  | EmptyString => EmptyString
  | String a r => if p a then trim_left p r else s
  end.

Fixpoint trim_right (p : ascii -> bool) (s : string) : string :=
  match s with
  | EmptyString => EmptyString
  | String a r =>
      match trim_right p r with
      | EmptyString => if p a then EmptyString else String a EmptyString
      | r' => String a r'
      end
  end.

Definition trim (p : ascii -> bool) (s : string) : string :=
  trim_right p (trim_left p s).

Definition apostrophe : ascii := ascii_of_nat 39.
Definition double_quote : ascii := ascii_of_nat 34.
Definition equals_sign : ascii := ascii_of_nat 61.

Definition digit_of (a : ascii) : option Z :=
  if is_digit a then Some (Z.of_nat (nat_of_ascii a - 48)) else None.

Fixpoint parse_digits (acc : Z) (s : string) : option Z :=
  match s with
  | EmptyString => Some acc
  | String a r =>
      match digit_of a with
      | Some d => parse_digits (10 * acc + d) r
      | None => None
      end
  end.

(** A decimal integer: an optional sign and at least one digit. *)
Definition parse_int (s : string) : option Z :=
  match s with
  | EmptyString => None
  | String a r =>
      if Nat.eqb (nat_of_ascii a) 45 then
        (if is_empty r then None else Z.opp <$> parse_digits 0 r)
      else if Nat.eqb (nat_of_ascii a) 43 then
        (if is_empty r then None else parse_digits 0 r)
      else parse_digits 0 s
  end.

(** ** Type affinity *)

Inductive affinity : Type :=
| AffInteger | AffText | AffBlob | AffReal | AffNumeric.

Definition affinity_of (declared : string) : affinity :=
  let u := upper declared in
  if contains "INT" u then AffInteger
  else if contains "CHAR" u || contains "CLOB" u || contains "TEXT" u then AffText
  else if contains "BLOB" u || is_empty u then AffBlob
  else if contains "REAL" u || contains "FLOA" u || contains "DOUB" u then AffReal
  else AffNumeric.

(** The value as the column keeps it.  Text columns keep integers as
    their decimal text; numeric columns keep text that reads as a 64-bit
    decimal integer as that integer. *)
Definition apply_affinity (a : affinity) (v : sqlval) : sqlval :=
  match a, v with
  | AffText, SInt z => SText (pretty z)
  | (AffInteger | AffNumeric | AffReal), SText s =>
      match parse_int (trim num_space s) with
      | Some z => if int64_ok z then SInt z else SText s
      | None => SText s
      end
  | _, _ => v
  end.

Definition column_affinity (c : column) : affinity := affinity_of (col_type c).

(** ** Tables *)

(** The names of tables and columns are compared without regard to the
    case of the ASCII letters. *)
Definition nocase (s : string) : string := lower s.

Definition find_column (columns : list column) (name : string) : option column :=
  find (fun c => String.eqb (nocase name) (nocase (col_name c))) columns.

(** The value a statement's column list gives the column [name]; of two
    entries for one column the first counts. *)
Definition column_value (name : string) (cols : list string) (vals : list sqlval)
    : option sqlval :=
  dict_get (nocase name) (combine (map nocase cols) vals).

Definition is_pk (t : table) (c : column) : bool :=
  match tbl_pk t with
  | Some p => String.eqb p (col_name c)
  | None => false
  end.

(** The store keeps a table under its name in lower case. *)
Definition lookup_table (d : db) (name : string) : option table := d !! nocase name.

Definition store_table (name : string) (t : table) (d : db) : db :=
  <[nocase name := t]> d.

(** Names that start with [sqlite_] belong to the engine: the schema
    table under its four names, and [sqlite_sequence], which holds the
    counters of the AUTOINCREMENT tables ([tbl_seq] here).  The store of
    the model holds the other tables. *)
Definition reserved_name (name : string) : bool := startswith "sqlite_" (nocase name).

Definition schema_table_names : list string :=
  [ "sqlite_master"; "sqlite_schema"; "sqlite_temp_master"; "sqlite_temp_schema" ].

Definition schema_table_columns : list (string * string) :=
  [ ("type", "TEXT"); ("name", "TEXT"); ("tbl_name", "TEXT"); ("rootpage", "INT");
    ("sql", "TEXT") ].

Definition sequence_table_columns : list (string * string) :=
  [ ("name", EmptyString); ("seq", EmptyString) ].

(** A statement that names its table unquoted. *)
Definition find_table (d : db) (name : string) : outcome table :=
  if plain_ident name then
    match lookup_table d name with
    | Some t => Ret t
    | None => sql_error ("no such table: " +:+ name)
    end
  else sql_error ("near '" +:+ name +:+ "': syntax error").

(** [PRAGMA table_info('name')]: one (name, type) pair per column, and
    no row at all when there is no such table.  [sqlite_sequence] is
    there once a table is AUTOINCREMENT. *)
Definition pragma_table_info (d : db) (name : string) : outcome (list (string * string)) :=
  if negb (quotable apostrophe name) then sql_error "unrecognized token"
  else if str_in (nocase name) schema_table_names then Ret schema_table_columns
  else if String.eqb (nocase name) "sqlite_sequence" then
    Ret (if existsb (fun kt => tbl_autoinc (snd kt)) (map_to_list d)
         then sequence_table_columns else [])
  else
    match lookup_table d name with
    | Some t => Ret (map (fun c => (col_name c, col_type c)) (tbl_columns t))
    | None => Ret []
    end.

(** [SELECT name FROM sqlite_master WHERE type='table'] (the order of
    the names is the map's). *)
Definition table_names (d : db) : list string := (map_to_list d).*1.

(** ** INSERT *)

(** The first column of the statement's column list the table lacks. *)
Fixpoint unknown_column (columns : list column) (cols : list string) : option string :=
  match cols with
  | [] => None
  | c :: r =>
      if str_in (nocase c) (map (fun col => nocase (col_name col)) columns)
      then unknown_column columns r else Some c
  end.

(** The cell a column receives: the bound value under the column's
    affinity, or the column's default when the statement leaves it out. *)
Definition cell_for (cols : list string) (vals : list sqlval) (c : column) : sqlval :=
  match column_value (col_name c) cols vals with
  | Some v => apply_affinity (column_affinity c) v
  | None => col_default c
  end.

Definition rowids (t : table) : list Z := map fst (tbl_rows t).

Definition largest_rowid (t : table) : Z :=
  match rowids t with
  | [] => 0
  | r :: rs => fold_right Z.max r rs
  end.

(** The rowid the engine picks: one more than the largest in the table
    (and than the largest ever used, for an AUTOINCREMENT table). *)
Definition next_rowid (t : table) : Z :=
  if tbl_autoinc t then 1 + Z.max (largest_rowid t) (tbl_seq t)
  else 1 + largest_rowid t.

Definition choose_rowid (name : string) (t : table)
    (cols : list string) (vals : list sqlval) : outcome Z :=
  match tbl_pk t with
  | None => Ret (next_rowid t)
  | Some pk =>
      match apply_affinity AffInteger <$> column_value pk cols vals with
      | None | Some SNull => Ret (next_rowid t)
      | Some (SInt z) =>
          if existsb (Z.eqb z) (rowids t)
          then sql_error ("UNIQUE constraint failed: " +:+ name +:+ "." +:+ pk)
          else Ret z
      | Some (SText _) => sql_error "datatype mismatch"
      end
  end.

Fixpoint null_violation (t : table) (columns : list column) (cells : list sqlval)
    : option string :=
  match columns, cells with
  | c :: cs, v :: vs =>
      if col_notnull c && is_null v && negb (is_pk t c) then Some (col_name c)
      else null_violation t cs vs
  | _, _ => None
  end.

Definition head_is (v : sqlval) (cells : list sqlval) : bool :=
  match cells with
  | c :: _ => sqlval_eqb c v
  | [] => false
  end.

(** The first UNIQUE column whose new cell some other row already holds. *)
Fixpoint unique_violation (t : table) (columns : list column) (cells : list sqlval)
    (others : list (list sqlval)) : option string :=
  match columns, cells with
  | c :: cs, v :: vs =>
      if col_unique c && negb (is_null v) && negb (is_pk t c)
         && existsb (head_is v) others
      then Some (col_name c)
      else unique_violation t cs vs (map (@tail sqlval) others)
  | _, _ => None
  end.

Definition check_constraints (name : string) (t : table) (cells : list sqlval)
    (others : list stored_row) : outcome unit :=
  match null_violation t (tbl_columns t) cells with
  | Some c => sql_error ("NOT NULL constraint failed: " +:+ name +:+ "." +:+ c)
  | None =>
      match unique_violation t (tbl_columns t) cells (map snd others) with
      | Some c => sql_error ("UNIQUE constraint failed: " +:+ name +:+ "." +:+ c)
      | None => Ret tt
      end
  end.

(** Rows are kept in rowid order, the order a scan returns them in. *)
Fixpoint insert_sorted (r : stored_row) (rows : list stored_row) : list stored_row :=
  match rows with
  | [] => [r]
  | r' :: rs => if fst r <? fst r' then r :: rows else r' :: insert_sorted r rs
  end.

Definition with_rows (t : table) (rows : list stored_row) (seq : Z) : table :=
  {| tbl_columns := tbl_columns t; tbl_pk := tbl_pk t;
     tbl_autoinc := tbl_autoinc t; tbl_seq := seq; tbl_rows := rows |}.

(** [cursor.execute("INSERT INTO name (cols) VALUES (?, ...)", params)]:
    the statement is prepared, the parameters are bound, the row is
    written.  The table after the statement and the rowid of the new row. *)
Definition sql_insert (name : string) (t : table)
    (cols : list string) (params : list pyval) : outcome (table * Z) :=
  match unknown_column (tbl_columns t) cols with
  | Some c => sql_error ("table " +:+ name +:+ " has no column named " +:+ c)
  | None =>
      let! vals := omap bind_param params in
      let cells := map (cell_for cols vals) (tbl_columns t) in
      let! rowid := choose_rowid name t cols vals in
      let! _ := check_constraints name t cells (tbl_rows t) in
      Ret (with_rows t (insert_sorted (rowid, cells) (tbl_rows t))
                     (Z.max (tbl_seq t) rowid), rowid)
  end.

(** ** SELECT *)

(** A row as [dict(row)] shows it: the INTEGER PRIMARY KEY column reads
    the rowid. *)
Definition read_cell (t : table) (r : stored_row) (c : column) (v : sqlval) : sqlval :=
  if is_pk t c then SInt (fst r) else v.

Definition read_row (t : table) (r : stored_row) : dict sqlval :=
  map (fun cv => (col_name (fst cv), read_cell t r (fst cv) (snd cv)))
      (combine (tbl_columns t) (snd r)).

Inductive cond : Type :=
| CTrue
| CEq (col : string) (lit : sqlval).

(** Split at the first [=]. *)
Fixpoint split_eq (s : string) : option (string * string) :=
  match s with
  | EmptyString => None
  | String a r =>
      if Nat.eqb (nat_of_ascii a) 61 then Some (EmptyString, r)
      else match split_eq r with
           | Some (l, r') => Some (String a l, r')
           | None => None
           end
  end.

(** ['text'] without an apostrophe inside. *)
Definition parse_text_literal (s : string) : option string :=
  match s with
  | String a r =>
      if Ascii.eqb a apostrophe then
        match String.rev r with
        | String b body =>
            if Ascii.eqb b apostrophe && quotable apostrophe body
            then Some (String.rev body) else None
        | EmptyString => None
        end
      else None
  | EmptyString => None
  end.

Definition parse_literal (s : string) : option sqlval :=
  match parse_int s with
  | Some z => Some (SInt z)
  | None => SText <$> parse_text_literal s
  end.

Definition parse_condition (s : string) : option cond :=
  match split_eq (trim sql_space s) with
  | None => None
  | Some (l, r) =>
      let l := trim_right sql_space l in
      let r := trim_left sql_space r in
      if String.eqb l "1" && String.eqb r "1" then Some CTrue
      else if plain_ident l then CEq l <$> parse_literal r
      else None
  end.

(** The row test a condition stands for; a column the table lacks is an
    error of the statement, whatever the rows. *)
Definition resolve_cond (t : table) (c : cond) : outcome (stored_row -> bool) :=
  match c with
  | CTrue => Ret (fun _ => true)
  | CEq col lit =>
      match find_column (tbl_columns t) col with
      | None => sql_error ("no such column: " +:+ col)
      | Some cdef =>
          let lit' := apply_affinity (column_affinity cdef) lit in
          Ret (fun r =>
                 match dict_get (col_name cdef) (read_row t r) with
                 | Some v => negb (is_null v) && sqlval_eqb v lit'
                 | None => false
                 end)
      end
  end.

Definition where_clause (t : table) (condition : option string)
    : outcome (stored_row -> bool) :=
  match condition with
  | None => Ret (fun _ => true)
  | Some text =>
      match parse_condition text with
      | Some c => resolve_cond t c
      | None => sql_error ("near '" +:+ text +:+ "': syntax error")
      end
  end.

(** Split a select list at its commas. *)
Fixpoint split_commas (cur : string) (s : string) : list string :=
  match s with
  | EmptyString => [String.rev cur]
  | String a r =>
      if Nat.eqb (nat_of_ascii a) 44 then String.rev cur :: split_commas EmptyString r
      else split_commas (String a cur) r
  end.

Definition select_list (t : table) (columns : string) : outcome (list string) :=
  if String.eqb (trim sql_space columns) "*" then Ret (map col_name (tbl_columns t))
  else
    omap (fun c =>
            let c := trim sql_space c in
            if negb (plain_ident c) then sql_error ("near '" +:+ c +:+ "': syntax error")
            else
              match find_column (tbl_columns t) c with
              | Some cdef => Ret (col_name cdef)
              | None => sql_error ("no such column: " +:+ c)
              end)
         (split_commas EmptyString columns).

(** [dict(row)] for the selected columns (a name selected twice is one key). *)
Definition project (names : list string) (row : dict sqlval) : dict pyval :=
  fold_left
    (fun d k => match dict_get k row with
                | Some v => dict_set k (py_of_sql v) d
                | None => d
                end)
    names [].

(** [SELECT columns FROM name [WHERE condition]] and [fetchall()]. *)
Definition sql_select (d : db) (name columns : string) (condition : option string)
    : outcome (list (dict pyval)) :=
  let! t := find_table d name in
  let! names := select_list t columns in
  let! test := where_clause t condition in
  Ret (map (fun r => project names (read_row t r)) (List.filter test (tbl_rows t))).

(** ** UPDATE and DELETE *)

(** The cells of a row after [SET col = ?, ...]; [sets] holds the
    assignments from the last to the first, under the column names in
    lower case: of two assignments to one column the last counts. *)
Definition updated_cells (t : table) (sets : dict sqlval) (r : stored_row) : list sqlval :=
  map (fun cv =>
         match dict_get (nocase (col_name (fst cv))) sets with
         | Some v => apply_affinity (column_affinity (fst cv)) v
         | None => snd cv
         end)
      (combine (tbl_columns t) (snd r)).

Definition updated_rowid (name : string) (t : table) (sets : dict sqlval)
    (r : stored_row) (others : list stored_row) : outcome Z :=
  match tbl_pk t with
  | None => Ret (fst r)
  | Some pk =>
      match apply_affinity AffInteger <$> dict_get (nocase pk) sets with
      | None => Ret (fst r)
      | Some (SInt z) =>
          if existsb (Z.eqb z) (map fst others)
          then sql_error ("UNIQUE constraint failed: " +:+ name +:+ "." +:+ pk)
          else Ret z
      | Some _ => sql_error "datatype mismatch"
      end
  end.

(** Rows are visited in scan order; [done] holds the rows already
    visited, in reverse. *)
Fixpoint update_rows (name : string) (t : table) (sets : dict sqlval)
    (test : stored_row -> bool) (todo done : list stored_row)
    : outcome (list stored_row * Z) :=
  match todo with
  | [] => Ret (rev done, 0)
  | r :: rest =>
      if test r then
        let others := rev done ++ rest in
        let cells := updated_cells t sets r in
        let! rowid := updated_rowid name t sets r others in
        let! _ := check_constraints name t cells others in
        let! res := update_rows name t sets test rest ((rowid, cells) :: done) in
        Ret (fst res, 1 + snd res)
      else update_rows name t sets test rest (r :: done)
  end.

(** [cursor.execute("UPDATE name SET c1 = ?, ... WHERE condition", params)]:
    the table after the statement and [cursor.rowcount]. *)
Definition sql_update (name : string) (t : table) (cols : list string)
    (params : list pyval) (condition : string) : outcome (table * Z) :=
  match unknown_column (tbl_columns t) cols with
  | Some c => sql_error ("no such column: " +:+ c)
  | None =>
      let! test := where_clause t (Some condition) in
      let! vals := omap bind_param params in
      let sets := rev (combine (map nocase cols) vals) in
      let! res := update_rows name t sets test (tbl_rows t) [] in
      let rows := fold_right insert_sorted [] (fst res) in
      Ret (with_rows t rows (tbl_seq t), snd res)
  end.

(** [DELETE FROM name WHERE condition]. *)
Definition sql_delete (t : table) (condition : string) : outcome (table * Z) :=
  let! test := where_clause t (Some condition) in
  Ret (with_rows t (List.filter (fun r => negb (test r)) (tbl_rows t)) (tbl_seq t),
       Z.of_nat (length (List.filter test (tbl_rows t)))).

(** ** CREATE TABLE *)

Fixpoint duplicate (l : list string) : option string :=
  match l with
  | [] => None
  | x :: r => if str_in x r then Some x else duplicate r
  end.

Definition new_table (defs : list (string * string)) : table :=
  {| tbl_columns :=
       map (fun d => {| col_name := fst d; col_type := snd d; col_notnull := false;
                        col_unique := false; col_default := SNull |}) defs;
     tbl_pk := None; tbl_autoinc := false; tbl_seq := 0; tbl_rows := [] |}.

(** [CREATE TABLE IF NOT EXISTS name ("c1" type1, ...)], the column
    names between double quotes. *)
Definition sql_create_table_if_not_exists (d : db) (name : string)
    (defs : list (string * string)) : outcome db :=
  if negb (plain_ident name) then sql_error ("near '" +:+ name +:+ "': syntax error")
  else if negb (forallb (quotable double_quote) (map fst defs))
  then sql_error "unrecognized token"
  else
    match defs with
    | [] => sql_error "near ')': syntax error"
    | _ =>
        match lookup_table d name with
        | Some _ => Ret d
        | None =>
            if reserved_name name
            then sql_error ("object name reserved for internal use: " +:+ name)
            else
              match duplicate (map nocase (map fst defs)) with
              | Some c => sql_error ("duplicate column name: " +:+ c)
              | None => Ret (store_table name (new_table defs) d)
              end
        end
    end.

End Sqlite.

(* ================================================================== *)
(** * The host: log, language model, CSV reader, database file          *)
(* ================================================================== *)

Module Host.
Import Py Sqlite.

Inductive log_level : Type := DEBUG | INFO | WARNING | ERROR | CRITICAL.

(** One call of [logging.<level>(f"...")]: the message with [{}] where
    the source interpolates, and the interpolated values in order. *)
Record log_record : Type := {
  lvl : log_level;
  template : string;
  args : list pyval
}.

(** What [generate_content_async] gives: a response with text (possibly
    empty), no usable response, or an exception. *)
Inductive llm_outcome : Type :=
| LlmText (text : string)
| LlmNoText
| LlmRaise (e : exn).

(** What iterating [csv.reader] gives: rows, then the end of the input
    or a [csv.Error]. *)
Inductive csv_stream : Type :=
| CsvEnd
| CsvRow (fields : list string) (rest : csv_stream)
| CsvFail (msg : string).

(** The collaborators of the servers.  [classify_skill s] is the reply
    of the model to the classification prompt built around the skill
    text [s], [classify_jd s] its reply to the prompt built around the
    job description [s]; the other text of both prompts is fixed. *)
Record env : Type := {
  GEMINI_API_KEY : option string;
  classify_skill : string -> llm_outcome;
  classify_jd : string -> llm_outcome;
  csv_reader : string -> csv_stream
}.

(** [if not GEMINI_API_KEY]. *)
Definition api_key_set (e : env) : bool :=
  match GEMINI_API_KEY e with
  | Some k => negb (is_empty k)
  | None => false
  end.

(** What a call can change: the database file, the log, the prompts
    sent to the model (newest first) and the number of connections
    opened on the file. *)
Record world : Type := {
  w_db : db;
  w_log : list log_record;
  w_llm_calls : list string;
  w_conns : nat
}.

Definition logf (l : log_level) (msg : string) (a : list pyval) (w : world) : world :=
  {| w_db := w_db w;
     w_log := w_log w ++ [{| lvl := l; template := msg; args := a |}];
     w_llm_calls := w_llm_calls w; w_conns := w_conns w |}.

(** [get_db_connection()]. *)
Definition connect (w : world) : world :=
  {| w_db := w_db w; w_log := w_log w;
     w_llm_calls := w_llm_calls w; w_conns := S (w_conns w) |}.

(** [conn.commit()] of a connection whose view of the file is [d]. *)
Definition commit (d : db) (w : world) : world :=
  {| w_db := d; w_log := w_log w;
     w_llm_calls := w_llm_calls w; w_conns := w_conns w |}.

Definition llm_called (prompt : string) (w : world) : world :=
  {| w_db := w_db w; w_log := w_log w;
     w_llm_calls := prompt :: w_llm_calls w; w_conns := w_conns w |}.

(** The [{"name": ..., "type": ...}] entries of a schema. *)
Definition column_entry (c : string * string) : pyval :=
  PDict [("name", PStr (fst c)); ("type", PStr (snd c))].

Definition schema_dict (table_name : string) (cols : list (string * string)) : pyval :=
  PDict [("table_name", PStr table_name); ("columns", PList (map column_entry cols))].

Definition rows_value (rows : list (dict pyval)) : pyval := PList (map PDict rows).

(** The text of a [SELECT], as the servers assemble it. *)
Definition query_text (table_name columns : string) (where_ : option string) : string :=
  "SELECT " +:+ columns +:+ " FROM " +:+ table_name
  +:+ match where_ with
      | Some c => " WHERE " +:+ c
      | None => EmptyString
      end
  +:+ ";".

(** ** The dispatcher's view of a tool *)

(** A [FunctionTool]: the parameters without a default and the wrapped
    function applied to keyword arguments. *)
Record tool : Type := {
  mandatory : list string;
  run : dict pyval -> world -> outcome pyval * world
}.

(** [FunctionTool.run_async]: a missing mandatory argument is answered
    with an error dictionary; a falsy result becomes [{}]. *)
Definition run_async (name : string) (t : tool) (arguments : dict pyval) (w : world)
    : outcome pyval * world :=
  match List.filter (fun p => negb (str_in p (dict_keys arguments))) (mandatory t) with
  | _ :: _ as missing =>
      (Ret (PDict [("error",
                    PStr ("Invoking `" +:+ name +:+ "()` failed as the following mandatory input parameters are not present: "
                          +:+ join ", " missing))]), w)
  | [] =>
      match run t arguments w with
      | (Ret v, w') => (Ret (if truthy v then v else PDict []), w')
      | (Raise e, w') => (Raise e, w')
      end
  end.

(** [json.dumps(v)] or [json.dumps(v, indent=2)], kept symbolic. *)
Inductive rendered : Type :=
| JsonDumps (indent : option nat) (v : pyval).

(** [mcp_types.TextContent(type="text", text=...)]. *)
Record text_content : Type := {
  content_type : string;
  text : rendered
}.

(** Arguments are typed by the schema the tool advertises; a value of
    another type is reported as a [TypeError] (what the wrapped function
    would do with it is not modelled). *)
Definition bad_argument {A : Type} (p : string) (w : world) : outcome A * world :=
  (Raise (TypeError ("argument '" +:+ p +:+ "' has the wrong type")), w).

Definition str_arg (p : string) (default : option string) (a : dict pyval)
    : option string :=
  match dict_get p a with
  | Some (PStr s) => Some s
  | Some _ => None
  | None => default
  end.

Fixpoint as_rows (l : list pyval) : option (list (dict pyval)) :=
  match l with
  | [] => Some []
  | PDict d :: r => cons d <$> as_rows r
  | _ :: _ => None
  end.

Definition error_payload (message : string) : list text_content :=
  [ {| content_type := "text";
       text := JsonDumps None (PDict [("success", PBool false); ("message", PStr message)]) |} ].

(** The first line of [call_mcp_tool]: the request is logged. *)
Definition received (name : string) (arguments : dict pyval) (w : world) : world :=
  logf INFO "MCP Server: Received call_tool request for '{}' with args: {}"
       [PStr name; PDict arguments] w.

(** [call_mcp_tool], the same text in the analyzer and the resume-agent
    server, over the registry [ADK_DB_TOOLS] of the server. *)
Definition dispatch (tools : dict tool) (name : string) (arguments : dict pyval) (w : world)
    : list text_content * world :=
  let w := received name arguments w in
  match dict_get name tools with
  | Some adk_tool_instance =>
      match run_async name adk_tool_instance arguments w with
      | (Ret adk_tool_response, w) =>
          ([ {| content_type := "text"; text := JsonDumps (Some 2%nat) adk_tool_response |} ],
           logf INFO "MCP Server: ADK tool '{}' executed. Response: {}"
                [PStr name; adk_tool_response] w)
      | (Raise ex, w) =>
          (error_payload ("Failed to execute tool '" +:+ name +:+ "': " +:+ exn_msg ex),
           logf ERROR "MCP Server: Error executing ADK tool '{}': {}"
                [PStr name; PStr (exn_msg ex)] w)
      end
  | None =>
      (error_payload ("Tool '" +:+ name +:+ "' not implemented by this server."),
       logf WARNING "MCP Server: Tool '{}' not found/exposed by this server." [PStr name] w)
  end.

End Host.

(* ================================================================== *)
(** * local_mcp_analyzer/server.py                                      *)
(* ================================================================== *)

Module Analyzer.
Import Py Sqlite Host.

Definition CATEGORIES : list string :=
  [ "Software Development"; "IT Services"; "Banking"; "Insurance";
    "Healthcare"; "Travel"; "Real Estate" ].

(** [CATEGORIES[0]]. *)
Definition first_category : string :=
  match CATEGORIES with
  | c :: _ => c
  | [] => EmptyString
  end.

(** The columns [PRAGMA table_info] reports, read through a connection
    of its own; an engine error is logged and raised again. *)
Definition schema_columns (table_name : string) (w : world)
    : outcome (list (string * string)) * world :=
  let w := connect w in
  match pragma_table_info (w_db w) table_name with
  | Ret info => (Ret info, w)
  | Raise e =>
      (Raise e,
       logf ERROR "Error getting schema for table '{}': {}"
            [PStr table_name; PStr (exn_msg e)] w)
  end.

Definition get_table_schema (table_name : string) (w : world) : outcome pyval * world :=
  match schema_columns table_name w with
  | (Ret info, w') => (Ret (schema_dict table_name info), w')
  | (Raise e, w') => (Raise e, w')
  end.

Definition query_db_table (table_name columns condition : string) (w : world)
    : outcome pyval * world :=
  let w := connect w in
  let where_ :=
    if negb (is_empty condition) && negb (String.eqb (strip condition) "1=1")
    then Some condition else None in
  let query := query_text table_name columns where_ in
  let w := logf INFO "Executing query_db_table: {}" [PStr query] w in
  match sql_select (w_db w) table_name columns where_ with
  | Ret rows =>
      (Ret (rows_value rows),
       logf INFO "Query returned {} rows from '{}'."
            [PInt (Z.of_nat (length rows)); PStr table_name] w)
  | Raise e =>
      (Raise (ValueError ("Error querying table '" +:+ table_name +:+ "': " +:+ exn_msg e)),
       logf ERROR "Error querying table '{}' with query '{}': {}"
            [PStr table_name; PStr query; PStr (exn_msg e)] w)
  end.

(** ** classify_and_transfer_candidates *)

(** The local state of one run: what the transaction's connection sees,
    [created_tables] and [transferred_counts]. *)
Record batch : Type := {
  b_working : db;
  b_created : list string;
  b_counts : dict Z
}.

Definition set_working (d : db) (b : batch) : batch :=
  {| b_working := d; b_created := b_created b; b_counts := b_counts b |}.

Definition add_created (name : string) (b : batch) : batch :=
  {| b_working := b_working b; b_created := name :: b_created b;
     b_counts := b_counts b |}.

(** [transferred_counts[category] += 1]. *)
Definition count_transfer (category : string) (b : batch) : batch :=
  {| b_working := b_working b; b_created := b_created b;
     b_counts :=
       match dict_get category (b_counts b) with
       | Some n => dict_set category (n + 1) (b_counts b)
       | None => b_counts b
       end |}.

(** [candidate.get('skills', '').strip()]: only a string can be stripped. *)
Definition read_skills (candidate : dict pyval) : outcome string :=
  match dict_get "skills" candidate with
  | None => Ret EmptyString
  | Some (PStr s) => Ret (strip s)
  | Some v =>
      Raise (AttributeError ("'" +:+ type_name v +:+ "' object has no attribute 'strip'"))
  end.

(** [candidate.get('id', f"idx_{i}")]. *)
Definition candidate_identifier (i : nat) (candidate : dict pyval) : pyval :=
  match dict_get "id" candidate with
  | Some v => v
  | None => PStr ("idx_" +:+ pretty i)
  end.

(** [ai_classification.replace(" ", "_").lower() + "_candidates"]. *)
Definition target_table (category : string) : string :=
  lower (replace_char " " "_" category) +:+ "_candidates".

(** The answer of the model as the code reads it: the stripped text, or
    ["Unclassified"] when there is no text. *)
Definition read_answer (ident : pyval) (r : llm_outcome) (w : world) : string * world :=
  match r with
  | LlmText t =>
      if is_empty t then
        ("Unclassified",
         logf WARNING "LLM returned empty or no text for candidate {}. This should not happen with current prompt. Defaulting to 'Unclassified'."
              [ident] w)
      else
        (strip t,
         logf DEBUG "Parsed AI classification for {}: '{}'" [ident; PStr (strip t)]
           (logf DEBUG "LLM raw response for {}: '{}'" [ident; PStr t] w))
  | _ =>
      ("Unclassified",
       logf WARNING "LLM returned empty or no text for candidate {}. This should not happen with current prompt. Defaulting to 'Unclassified'."
            [ident] w)
  end.

(** An answer outside [CATEGORIES] is logged as an error and replaced by
    [CATEGORIES[0]]. *)
Definition valid_category (ident : pyval) (answer : string) (w : world) : string * world :=
  if str_in answer CATEGORIES then (answer, w)
  else
    (first_category,
     logf INFO "Forced candidate {} into '{}' category due to invalid LLM response."
          [ident; PStr first_category]
       (logf ERROR "LLM returned an invalid category '{}' for candidate {}. This should be prevented by the prompt. Attempting to choose a default category or log for review."
             [PStr answer; ident] w)).

(** One column per key of the candidate, typed as the source table
    types it and [TEXT] otherwise. *)
Definition column_definitions (types : dict string) (candidate : dict pyval)
    : list (string * string) :=
  map (fun k => (k, match dict_get k types with
                    | Some ty => ty
                    | None => "TEXT"
                    end))
      (dict_keys candidate).

(** The table is checked and created once per run. *)
Definition ensure_table (types : dict string) (category target : string)
    (candidate : dict pyval) (b : batch) (w : world) : option exn * batch * world :=
  if str_in target (b_created b) then (None, b, w)
  else
    match schema_columns target w with
    | (Raise e, w1) => (Some e, b, w1)
    | (Ret (_ :: _), w1) => (None, add_created target b, w1)
    | (Ret [], w1) =>
        match sql_create_table_if_not_exists (b_working b) target
                (column_definitions types candidate) with
        | Raise e => (Some e, b, w1)
        | Ret d =>
            (None, add_created target (set_working d b),
             logf INFO "Created new table: {} for '{}' category with schema derived from original data types."
                  [PStr target; PStr category] w1)
        end
    end.

(** [INSERT INTO target ("k1", ...) VALUES (?, ...)] with the
    candidate's values, through the transaction's connection. *)
Definition insert_candidate (target : string) (candidate : dict pyval) (d : db)
    : outcome db :=
  if negb (forallb (quotable double_quote) (dict_keys candidate))
  then sql_error "unrecognized token"
  else
    let! t := find_table d target in
    let! res := sql_insert target t (dict_keys candidate) (dict_values candidate) in
    Ret (store_table target (fst res) d).

(** The first half of the [try] body: the model is asked, its answer
    read and checked; the category the candidate goes to. *)
Definition classify_candidate (e : env) (ident : pyval) (skill_description : string)
    (w : world) : outcome string * world :=
  let w := logf DEBUG "Sending prompt to LLM for candidate {}: {}"
                [ident; PStr skill_description] w in
  let w := llm_called skill_description w in
  match classify_skill e skill_description with
  | LlmRaise ex => (Raise ex, w)
  | response =>
      let '(answer, w) := read_answer ident response w in
      let '(category, w) := valid_category ident answer w in
      (Ret category,
       logf INFO "Candidate {} (Skill: '{}') classified as '{}'."
            [ident; PStr skill_description; PStr category] w)
  end.

(** The second half: the table of the category is made ready, the row
    inserted and the counter of the category incremented. *)
Definition transfer_candidate (types : dict string) (category : string)
    (candidate : dict pyval) (b : batch) (w : world) : option exn * batch * world :=
  let target := target_table category in
  match ensure_table types category target candidate b w with
  | (Some ex, b, w) => (Some ex, b, w)
  | (None, b, w) =>
      match insert_candidate target candidate (b_working b) with
      | Raise ex => (Some ex, b, w)
      | Ret d => (None, count_transfer category (set_working d b), w)
      end
  end.

(** The body of the [try] for one candidate with a skill description:
    the exception it ends with, if any, and the state it leaves. *)
Definition try_body (e : env) (types : dict string) (ident : pyval)
    (skill_description : string) (candidate : dict pyval) (b : batch) (w : world)
    : option exn * batch * world :=
  match classify_candidate e ident skill_description w with
  | (Raise ex, w) => (Some ex, b, w)
  | (Ret category, w) => transfer_candidate types category candidate b w
  end.

(** The body of the [for] loop for the candidate at index [i].  An
    exception of the [try] body is logged and swallowed; one raised
    while the skills are read leaves the loop. *)
Definition loop_body (e : env) (types : dict string) (i : nat)
    (candidate : dict pyval) (b : batch) (w : world) : option exn * batch * world :=
  match read_skills candidate with
  | Raise ex => (Some ex, b, w)
  | Ret skill_description =>
      let ident := candidate_identifier i candidate in
      let w := logf DEBUG "Processing candidate ID: {}, Skill: '{}'"
                    [ident; PStr skill_description] w in
      if is_empty skill_description then
        (None, b,
         logf WARNING "Candidate {} has no skill description. Skipping classification."
              [ident] w)
      else
        match try_body e types ident skill_description candidate b w with
        | (None, b', w') => (None, b', w')
        | (Some ex, b', w') =>
            (None, b',
             logf ERROR "Error processing candidate {} (Skill: '{}'): {}"
                  [ident; PStr skill_description; PStr (exn_msg ex)] w')
        end
  end.

(** [for i, candidate in enumerate(candidates_data)]. *)
Fixpoint candidates_loop (e : env) (types : dict string) (i : nat)
    (candidates : list (dict pyval)) (b : batch) (w : world)
    : option exn * batch * world :=
  match candidates with
  | [] => (None, b, w)
  | candidate :: rest =>
      match loop_body e types i candidate b w with
      | (Some ex, b', w') => (Some ex, b', w')
      | (None, b', w') => candidates_loop e types (S i) rest b' w'
      end
  end.

Definition result (success : bool) (message : string) (counts : dict Z) : pyval :=
  PDict [("success", PBool success); ("message", PStr message);
         ("transferred_counts", PDict (map (fun c => (fst c, PInt (snd c))) counts))].

(** The two outer handlers: roll back, log, report empty counts. *)
Definition batch_failure (ex : exn) (w : world) : pyval * world :=
  if is_sqlite_error ex then
    (result false ("Database error during classification and transfer: " +:+ exn_msg ex) [],
     logf ERROR "Database error during classification and transfer: {}" [PStr (exn_msg ex)] w)
  else
    (result false ("An unexpected error occurred during classification and transfer: " +:+ exn_msg ex) [],
     logf CRITICAL "An unexpected critical error occurred in classify_and_transfer_candidates: {}"
          [PStr (exn_msg ex)] w).

Definition classify_and_transfer_candidates (e : env)
    (candidates_data : list (dict pyval)) (w : world) : pyval * world :=
  match candidates_data with
  | [] =>
      (result true "No candidate data provided for classification." [],
       logf INFO "classify_and_transfer_candidates received no data. Returning early." [] w)
  | _ :: _ =>
      if negb (api_key_set e) then
        (result false "AI Classification API key is missing." [],
         logf ERROR "GEMINI_API_KEY is not set. Cannot perform AI classification." [] w)
      else
        let w := connect w in
        let b := {| b_working := w_db w; b_created := [];
                    b_counts := map (fun c => (c, 0)) CATEGORIES |} in
        let w := logf INFO "Starting AI classification and transfer for {} candidates..."
                      [PInt (Z.of_nat (length candidates_data))] w in
        match schema_columns "candidates" w with
        | (Raise ex, w) => batch_failure ex w
        | (Ret types, w) =>
            match candidates_loop e types 0 candidates_data b w with
            | (Some ex, _, w) => batch_failure ex w
            | (None, b, w) =>
                (result true "Candidate classification and transfer completed." (b_counts b),
                 logf INFO "Finished processing all candidates. Transaction committed." []
                      (commit (b_working b) w))
            end
        end
  end.

(** ** The tool registry and the dispatcher *)

Definition tool_query_db_table : tool :=
  {| mandatory := ["table_name"];
     run := fun a w =>
       match str_arg "table_name" None a, str_arg "columns" (Some "*") a,
             str_arg "condition" (Some "1=1") a with
       | Some t, Some c, Some k => query_db_table t c k w
       | None, _, _ => bad_argument "table_name" w
       | _, None, _ => bad_argument "columns" w
       | _, _, None => bad_argument "condition" w
       end |}.

Definition tool_classify (e : env) : tool :=
  {| mandatory := ["candidates_data"];
     run := fun a w =>
       match dict_get "candidates_data" a with
       | Some (PList l) =>
           match as_rows l with
           | Some rows =>
               let '(v, w') := classify_and_transfer_candidates e rows w in (Ret v, w')
           | None => bad_argument "candidates_data" w
           end
       | _ => bad_argument "candidates_data" w
       end |}.

Definition tool_get_table_schema : tool :=
  {| mandatory := ["table_name"];
     run := fun a w =>
       match str_arg "table_name" None a with
       | Some t => get_table_schema t w
       | None => bad_argument "table_name" w
       end |}.

Definition ADK_DB_TOOLS (e : env) : dict tool :=
  [ ("query_db_table", tool_query_db_table);
    ("classify_and_transfer_candidates", tool_classify e);
    ("get_table_schema", tool_get_table_schema) ].

Definition call_mcp_tool (e : env) : string -> dict pyval -> world -> list text_content * world :=
  dispatch (ADK_DB_TOOLS e).

End Analyzer.

(* ================================================================== *)
(** * local_mcp_resume_agent/server.py                                  *)
(* ================================================================== *)

Module ResumeAgent.
Import Py Sqlite Host.

Definition list_db_tables (dummy_param : string) (w : world) : pyval * world :=
  let w := connect w in
  (PDict [("success", PBool true); ("message", PStr "Tables listed successfully.");
          ("tables", PList (map PStr (table_names (w_db w))))], w).

(** The schema of a table; a table the store lacks is a [ValueError]. *)
Definition schema_columns (table_name : string) (w : world)
    : outcome (list (string * string)) * world :=
  let w := connect w in
  match pragma_table_info (w_db w) table_name with
  | Raise e => (Raise e, w)
  | Ret [] =>
      (Raise (ValueError ("Table '" +:+ table_name +:+ "' not found or no schema information.")), w)
  | Ret info => (Ret info, w)
  end.

Definition get_table_schema (table_name : string) (w : world) : outcome pyval * world :=
  match schema_columns table_name w with
  | (Ret info, w') => (Ret (schema_dict table_name info), w')
  | (Raise e, w') => (Raise e, w')
  end.

Definition query_db_table (table_name columns condition : string) (w : world)
    : outcome pyval * world :=
  let w := connect w in
  let where_ := if is_empty condition then None else Some condition in
  match sql_select (w_db w) table_name columns where_ with
  | Ret rows => (Ret (rows_value rows), w)
  | Raise e =>
      (Raise (ValueError ("Error querying table '" +:+ table_name +:+ "': " +:+ exn_msg e)), w)
  end.

Definition failure (message : string) : pyval :=
  PDict [("success", PBool false); ("message", PStr message)].

(** A statement whose column names stand unquoted. *)
Definition plain_columns (cols : list string) : outcome unit :=
  match List.filter (fun c => negb (plain_ident c)) cols with
  | c :: _ => sql_error ("near '" +:+ c +:+ "': syntax error")
  | [] => Ret tt
  end.

Definition insert_data (table_name : string) (data : dict pyval) (w : world)
    : outcome pyval * world :=
  match data with
  | [] => (Ret (failure "No data provided for insertion."), w)
  | _ :: _ =>
      let w := connect w in
      let statement :=
        let! t := find_table (w_db w) table_name in
        let! _ := plain_columns (dict_keys data) in
        sql_insert table_name t (dict_keys data) (dict_values data) in
      match statement with
      | Ret (t', last_row_id) =>
          (Ret (PDict [("success", PBool true);
                       ("message", PStr ("Data inserted successfully. Row ID: " +:+ pretty last_row_id));
                       ("row_id", PInt last_row_id)]),
           commit (store_table table_name t' (w_db w)) w)
      | Raise e =>
          if is_sqlite_error e then
            (Ret (failure ("Error inserting data into table '" +:+ table_name +:+ "': " +:+ exn_msg e)), w)
          else (Raise e, w)
      end
  end.

Definition update_data (table_name : string) (new_values : dict pyval)
    (condition : string) (w : world) : outcome pyval * world :=
  match new_values with
  | [] => (Ret (failure "No new values provided for update."), w)
  | _ :: _ =>
      if is_empty condition || is_empty (strip condition) then
        (Ret (failure "Update condition cannot be empty. This is a safety measure to prevent accidental update of all rows."), w)
      else
        let w := connect w in
        let statement :=
          let! t := find_table (w_db w) table_name in
          let! _ := plain_columns (dict_keys new_values) in
          sql_update table_name t (dict_keys new_values) (dict_values new_values) condition in
        match statement with
        | Ret (t', rows_updated) =>
            (Ret (PDict [("success", PBool true);
                         ("message", PStr (pretty rows_updated +:+ " row(s) updated successfully in table '" +:+ table_name +:+ "'."));
                         ("rows_updated", PInt rows_updated)]),
             commit (store_table table_name t' (w_db w)) w)
        | Raise e =>
            if is_sqlite_error e then
              (Ret (failure ("Error updating data in table '" +:+ table_name +:+ "': " +:+ exn_msg e)), w)
            else (Raise e, w)
        end
  end.

Definition delete_data (table_name condition : string) (w : world)
    : outcome pyval * world :=
  if is_empty condition || is_empty (strip condition) then
    (Ret (failure "Deletion condition cannot be empty. This is a safety measure to prevent accidental deletion of all rows."), w)
  else
    let w := connect w in
    let statement :=
      let! t := find_table (w_db w) table_name in
      sql_delete t condition in
    match statement with
    | Ret (t', rows_deleted) =>
        (Ret (PDict [("success", PBool true);
                     ("message", PStr (pretty rows_deleted +:+ " row(s) deleted successfully from table '" +:+ table_name +:+ "'."));
                     ("rows_deleted", PInt rows_deleted)]),
         commit (store_table table_name t' (w_db w)) w)
    | Raise e =>
        if is_sqlite_error e then
          (Ret (failure ("Error deleting data from table '" +:+ table_name +:+ "': " +:+ exn_msg e)), w)
        else (Raise e, w)
    end.

(** ** insert_data_from_csv *)

(** [dict(zip(fieldnames, row))]: a name met twice keeps its last value. *)
Definition dict_of_pairs {V : Type} (l : list (string * V)) : dict V :=
  fold_left (fun d kv => dict_set (fst kv) (snd kv) d) l [].

(** [[row_data.get(col, None) for col in csv_columns]] for one row of
    [csv.DictReader], which builds [dict(zip(fieldnames, row))] and then
    sets every field name the row does not reach to [None]. *)
Definition row_values (csv_columns row : list string) : list pyval :=
  let row_data :=
    dict_of_pairs (combine csv_columns (map PStr row)
                   ++ map (fun key => (key, PNone)) (drop (length row) csv_columns)) in
  map (fun col => match dict_get col row_data with
                  | Some v => v
                  | None => PNone
                  end)
      csv_columns.

(** The rows [csv.DictReader] yields after the header; it passes over
    empty rows. *)
Fixpoint data_rows (csv_columns : list string) (s : csv_stream)
    : outcome (list (list pyval)) :=
  match s with
  | CsvEnd => Ret []
  | CsvFail m => Raise (CsvError m)
  | CsvRow [] rest => data_rows csv_columns rest
  | CsvRow row rest =>
      let! rows := data_rows csv_columns rest in
      Ret (row_values csv_columns row :: rows)
  end.

(** The first header column the table lacks. *)
Definition missing_column (csv_columns db_column_names : list string) : option string :=
  find (fun col => negb (str_in col db_column_names)) csv_columns.

(** [cursor.executemany(insert_query, data_to_insert)]. *)
Fixpoint executemany (name : string) (t : table) (cols : list string)
    (rows : list (list pyval)) : outcome table :=
  match rows with
  | [] => Ret t
  | r :: rest =>
      let! res := sql_insert name t cols r in
      executemany name (fst res) cols rest
  end.

Definition csv_result (success : bool) (message : string) (rows_inserted : Z) : pyval :=
  PDict [("success", PBool success); ("message", PStr message);
         ("rows_inserted", PInt rows_inserted)].

(** The three handlers of [insert_data_from_csv]; each rolls back. *)
Definition csv_failure (e : exn) : pyval :=
  if is_sqlite_error e then
    csv_result false ("Database error during CSV insert: " +:+ exn_msg e) 0
  else if is_value_error e then
    csv_result false ("CSV data validation error: " +:+ exn_msg e) 0
  else
    csv_result false ("An unexpected error occurred during CSV insert: " +:+ exn_msg e) 0.

Definition insert_data_from_csv (e : env) (table_name csv_content : string) (w : world)
    : pyval * world :=
  if is_empty (strip csv_content) then
    (failure "No CSV content provided for insertion.", w)
  else
    let w := connect w in
    match csv_reader e csv_content with
    | CsvFail m => (csv_failure (CsvError m), w)
    | CsvEnd | CsvRow [] _ =>
        (csv_failure (ValueError "CSV file is empty or missing headers."), w)
    | CsvRow csv_columns rest =>
        match schema_columns table_name w with
        | (Raise ex, w) => (csv_failure ex, w)
        | (Ret info, w) =>
            match missing_column csv_columns (map fst info) with
            | Some col =>
                (csv_failure
                   (ValueError ("CSV column '" +:+ col +:+ "' not found in table '" +:+ table_name
                                +:+ "'. Please ensure CSV headers match database column names.")), w)
            | None =>
                match data_rows csv_columns rest with
                | Raise ex => (csv_failure ex, w)
                | Ret [] =>
                    (csv_result true "CSV content parsed but no rows found to insert." 0, w)
                | Ret data_to_insert =>
                    let statement :=
                      if negb (forallb (quotable double_quote) csv_columns)
                      then sql_error "unrecognized token"
                      else
                        let! t := find_table (w_db w) table_name in
                        executemany table_name t csv_columns data_to_insert in
                    match statement with
                    | Raise ex => (csv_failure ex, w)
                    | Ret t' =>
                        let rows_inserted := Z.of_nat (length data_to_insert) in
                        (csv_result true
                           ("Successfully inserted " +:+ pretty rows_inserted
                            +:+ " row(s) into table '" +:+ table_name +:+ "'.") rows_inserted,
                         commit (store_table table_name t' (w_db w)) w)
                    end
                end
            end
        end
    end.

(** ** The tool registry and the dispatcher *)

Definition tool1 (p : string) (f : string -> world -> outcome pyval * world) : tool :=
  {| mandatory := [p];
     run := fun a w =>
       match str_arg p None a with
       | Some x => f x w
       | None => bad_argument p w
       end |}.

Definition tool2 (p q : string) (f : string -> string -> world -> outcome pyval * world)
    : tool :=
  {| mandatory := [p; q];
     run := fun a w =>
       match str_arg p None a, str_arg q None a with
       | Some x, Some y => f x y w
       | None, _ => bad_argument p w
       | _, None => bad_argument q w
       end |}.

Definition returning (f : world -> pyval * world) (w : world) : outcome pyval * world :=
  let '(v, w') := f w in (Ret v, w').

Definition tool_query_db_table : tool :=
  {| mandatory := ["table_name"; "columns"; "condition"];
     run := fun a w =>
       match str_arg "table_name" None a, str_arg "columns" None a,
             str_arg "condition" None a with
       | Some t, Some c, Some k => query_db_table t c k w
       | None, _, _ => bad_argument "table_name" w
       | _, None, _ => bad_argument "columns" w
       | _, _, None => bad_argument "condition" w
       end |}.

Definition tool_insert_data : tool :=
  {| mandatory := ["table_name"; "data"];
     run := fun a w =>
       match str_arg "table_name" None a, dict_get "data" a with
       | Some t, Some (PDict d) => insert_data t d w
       | None, _ => bad_argument "table_name" w
       | _, _ => bad_argument "data" w
       end |}.

Definition tool_update_data : tool :=
  {| mandatory := ["table_name"; "new_values"; "condition"];
     run := fun a w =>
       match str_arg "table_name" None a, dict_get "new_values" a,
             str_arg "condition" None a with
       | Some t, Some (PDict d), Some c => update_data t d c w
       | None, _, _ => bad_argument "table_name" w
       | _, _, None => bad_argument "condition" w
       | _, _, _ => bad_argument "new_values" w
       end |}.

Definition ADK_DB_TOOLS (e : env) : dict tool :=
  [ ("list_db_tables", tool1 "dummy_param" (fun x => returning (list_db_tables x)));
    ("get_table_schema", tool1 "table_name" get_table_schema);
    ("query_db_table", tool_query_db_table);
    ("insert_data", tool_insert_data);
    ("update_data", tool_update_data);
    ("delete_data", tool2 "table_name" "condition" delete_data);
    ("insert_data_from_csv",
     tool2 "table_name" "csv_content" (fun x y => returning (insert_data_from_csv e x y))) ].

Definition call_mcp_tool (e : env) : string -> dict pyval -> world -> list text_content * world :=
  dispatch (ADK_DB_TOOLS e).

End ResumeAgent.

(* ================================================================== *)
(** * jd_agent_test/sub_agents/server.py                                *)
(* ================================================================== *)

Module JdTools.
Import Py Sqlite Host.

Definition CATEGORIES : list string :=
  [ "Software Development"; "IT Services"; "Banking"; "Insurance";
    "Healthcare"; "Travel"; "Real Estate" ].

Definition first_category : string :=
  match CATEGORIES with
  | c :: _ => c
  | [] => EmptyString
  end.

Definition analyze_jd_industry (e : env) (job_description : string) (w : world)
    : string * world :=
  if is_empty job_description then
    ("Unknown", logf WARNING "analyze_jd_industry received empty job description." [] w)
  else if negb (api_key_set e) then
    ("Error: API Key Missing",
     logf ERROR "GEMINI_API_KEY is not set. Cannot perform AI industry analysis." [] w)
  else
    let w := logf DEBUG "Sending classification prompt to LLM for industry analysis: {}"
                  [PStr job_description] w in
    let w := llm_called job_description w in
    match classify_jd e job_description with
    | LlmRaise ex =>
        ("Error: " +:+ exn_msg ex,
         logf ERROR "Error during AI industry analysis: {}" [PStr (exn_msg ex)] w)
    | response =>
        let '(answer, w) :=
          match response with
          | LlmText t =>
              if is_empty t then
                ("Unknown",
                 logf WARNING "LLM returned empty or no text for industry analysis. Defaulting to 'Unknown'." [] w)
              else
                (strip t,
                 logf DEBUG "Parsed AI industry classification: '{}'" [PStr (strip t)]
                   (logf DEBUG "LLM raw response for industry analysis: '{}'" [PStr t] w))
          | _ =>
              ("Unknown",
               logf WARNING "LLM returned empty or no text for industry analysis. Defaulting to 'Unknown'." [] w)
          end in
        let '(category, w) :=
          if str_in answer CATEGORIES then (answer, w)
          else
            (first_category,
             logf ERROR "LLM returned an invalid category '{}'. Defaulting to '{}'."
                  [PStr answer; PStr first_category] w) in
        (category, logf INFO "Job Description classified as '{}'." [PStr category] w)
    end.

(** The columns [PRAGMA table_info] reports; the text of this server is
    the analyzer's. *)
Definition schema_columns (table_name : string) (w : world)
    : outcome (list (string * string)) * world :=
  let w := connect w in
  match pragma_table_info (w_db w) table_name with
  | Ret info => (Ret info, w)
  | Raise e =>
      (Raise e,
       logf ERROR "Error getting schema for table '{}': {}"
            [PStr table_name; PStr (exn_msg e)] w)
  end.

Definition get_table_schema (table_name : string) (w : world) : outcome pyval * world :=
  match schema_columns table_name w with
  | (Ret info, w') => (Ret (schema_dict table_name info), w')
  | (Raise e, w') => (Raise e, w')
  end.

Definition query_table (table_name columns condition : string) (w : world)
    : outcome pyval * world :=
  let w := connect w in
  let where_ :=
    if negb (is_empty condition) && negb (String.eqb (strip condition) "1=1")
    then Some condition else None in
  let query := query_text table_name columns where_ in
  let w := logf INFO "Executing query_table: {}" [PStr query] w in
  match sql_select (w_db w) table_name columns where_ with
  | Ret rows =>
      (Ret (rows_value rows),
       logf INFO "Query returned {} rows from '{}'."
            [PInt (Z.of_nat (length rows)); PStr table_name] w)
  | Raise e =>
      (Raise (ValueError ("Error querying table '" +:+ table_name +:+ "': " +:+ exn_msg e)),
       logf ERROR "Error querying table '{}' with query '{}': {}"
            [PStr table_name; PStr query; PStr (exn_msg e)] w)
  end.

(** ** The tool registry and the dispatcher *)

Definition tool_analyze_jd_industry (e : env) : tool :=
  {| mandatory := ["job_description"];
     run := fun a w =>
       match str_arg "job_description" None a with
       | Some jd => let '(r, w') := analyze_jd_industry e jd w in (Ret (PStr r), w')
       | None => bad_argument "job_description" w
       end |}.

Definition tool_query_table : tool :=
  {| mandatory := ["table_name"];
     run := fun a w =>
       match str_arg "table_name" None a, str_arg "columns" (Some "*") a,
             str_arg "condition" (Some "1=1") a with
       | Some t, Some c, Some k => query_table t c k w
       | None, _, _ => bad_argument "table_name" w
       | _, None, _ => bad_argument "columns" w
       | _, _, None => bad_argument "condition" w
       end |}.

Definition ADK_ALL_TOOLS (e : env) : dict tool :=
  [ ("analyze_jd_industry", tool_analyze_jd_industry e);
    ("query_table", tool_query_table) ].

(** The text of a response of this server: [json.dumps] of the value,
    or [str] of it. *)
Inductive response_text : Type :=
| Dumped (r : rendered)
| Str (v : pyval).

Definition error_text (message : string) : response_text :=
  Dumped (JsonDumps None (PDict [("success", PBool false); ("message", PStr message)])).

(** [call_mcp_tool] of this server: the result of [query_table] goes
    through [json.dumps], any other result through [str]. *)
Definition call_mcp_tool (e : env) (name : string) (arguments : dict pyval) (w : world)
    : list (string * response_text) * world :=
  let w := logf INFO "MCP Server (JD Agent Tools): Received call_tool request for '{}' with args: {}"
                [PStr name; PDict arguments] w in
  match dict_get name (ADK_ALL_TOOLS e) with
  | Some adk_tool_instance =>
      match run_async name adk_tool_instance arguments w with
      | (Ret adk_tool_response, w) =>
          let response_text :=
            if str_in name ["query_table"]
            then Dumped (JsonDumps (Some 2%nat) adk_tool_response)
            else Str adk_tool_response in
          ([("text", response_text)],
           logf INFO "MCP Server (JD Agent Tools): ADK tool '{}' executed. Response: {}"
                [PStr name; adk_tool_response] w)
      | (Raise ex, w) =>
          ([("text", error_text ("Failed to execute tool '" +:+ name +:+ "': " +:+ exn_msg ex))],
           logf ERROR "MCP Server (JD Agent Tools): Error executing ADK tool '{}': {}"
                [PStr name; PStr (exn_msg ex)] w)
      end
  | None =>
      ([("text", error_text ("Tool '" +:+ name +:+ "' not implemented by this server."))],
       logf WARNING "MCP Server (JD Agent Tools): Tool '{}' not found/exposed by this server."
            [PStr name] w)
  end.

End JdTools.

(* ================================================================== *)
(** * Vocabulary of the properties                                     *)
(* ================================================================== *)

Module Props.
Import Py Sqlite Host.

(** The log records a call appends. *)
Definition new_records (w w' : world) : list log_record :=
  drop (length (w_log w)) (w_log w').

(** The [skills] field is absent, empty or whitespace only. *)
Definition skills_blank (candidate : dict pyval) : bool :=
  match dict_get "skills" candidate with
  | None => true
  | Some (PStr s) => all_space s
  | Some _ => false
  end.

(** The [skills] field holds something that is not a string. *)
Definition skills_not_str (candidate : dict pyval) : bool :=
  match dict_get "skills" candidate with
  | None | Some (PStr _) => false
  | Some _ => true
  end.

(** The model answered, with nothing or with text that is none of the
    categories once stripped. *)
Definition invalid_answer (r : llm_outcome) : Prop :=
  match r with
  | LlmRaise _ => False
  | LlmNoText => True
  | LlmText t => str_in (strip t) Analyzer.CATEGORIES = false
  end.

(** The model answered with one of the categories. *)
Definition clean_answer (r : llm_outcome) : Prop :=
  match r with
  | LlmText t => is_empty t = false /\ str_in (strip t) Analyzer.CATEGORIES = true
  | _ => False
  end.

(** Sum of the counters of [transferred_counts]. *)
Definition total (counts : dict Z) : Z := fold_right Z.add 0 (map snd counts).

(** The record the loop writes when the [try] body of a candidate raised. *)
Definition is_processing_error (r : log_record) : bool :=
  match lvl r with
  | ERROR => String.eqb (template r) "Error processing candidate {} (Skill: '{}'): {}"
  | _ => false
  end.

(** The record that marks the fallback to the first category. *)
Definition is_fallback_record (r : log_record) : bool :=
  match lvl r with
  | ERROR =>
      String.eqb (template r)
        "LLM returned an invalid category '{}' for candidate {}. This should be prevented by the prompt. Attempting to choose a default category or log for review."
  | _ => false
  end.

Definition is_error_level (r : log_record) : bool :=
  match lvl r with
  | ERROR | CRITICAL => true
  | _ => false
  end.

(** The world moved on without a commit: the database file is the same
    and the log only grew. *)
Definition evolves (w w' : world) : Prop :=
  w_db w' = w_db w /\ exists l, w_log w' = w_log w ++ l.

(** The same, with every new record satisfying [P]. *)
Definition appends (P : log_record -> Prop) (w w' : world) : Prop :=
  w_db w' = w_db w /\ exists l, w_log w' = w_log w ++ l /\ Forall P l.

(** The record [r] is among the new ones. *)
Definition logged (r : log_record) (w w' : world) : Prop :=
  exists l1 l2, w_log w' = w_log w ++ l1 ++ r :: l2.

(** Only the log grew. *)
Definition only_logged (w w' : world) : Prop :=
  w_db w' = w_db w /\ w_llm_calls w' = w_llm_calls w /\ w_conns w' = w_conns w
  /\ exists l, w_log w' = w_log w ++ l.

(** The table of a category before a candidate is inserted into it: the
    one the transaction sees, or the one created from the candidate. *)
Definition destination (types : dict string) (target : string)
    (candidate : dict pyval) (d : db) : table :=
  match lookup_table d target with
  | Some t => t
  | None => new_table (Analyzer.column_definitions types candidate)
  end.

(** [id], so spelled, is the INTEGER PRIMARY KEY of the table. *)
Definition id_is_primary_key (t : table) : Prop :=
  tbl_pk t = Some "id"
  /\ exists c, find_column (tbl_columns t) "id" = Some c
               /\ col_name c = "id" /\ column_affinity c = AffInteger.

(** No two columns of the table have the same name, whatever the case
    of the letters (so it is in every table of a store). *)
Definition distinct_columns (t : table) : Prop :=
  NoDup (map (fun c => nocase (col_name c)) (tbl_columns t)).

(** A value of a type the column stores as it is given: [None], text in
    a column of text or of no type, a 64-bit integer in a column of
    integers, of numbers or of no type. *)
Definition stored_as_given (c : column) (v : pyval) : Prop :=
  match v with
  | PNone => True
  | PStr _ => column_affinity c = AffText \/ column_affinity c = AffBlob
  | PInt z =>
      int64_ok z = true
      /\ (column_affinity c = AffInteger \/ column_affinity c = AffNumeric
          \/ column_affinity c = AffBlob)
  | PBool _ | PList _ | PDict _ => False
  end.

(** Two dictionaries that hold the same value under every key. *)
Definition same_mapping (d1 d2 : dict pyval) : Prop :=
  forall k, dict_get k d1 = dict_get k d2.

(** The tables the classification writes to: one per category. *)
Definition category_tables : list string :=
  map Analyzer.target_table Analyzer.CATEGORIES.

(** How many candidates the records show as failed. *)
Definition processing_errors (l : list log_record) : nat :=
  length (List.filter is_processing_error l).

(** The candidates that get classified: those with a skill description. *)
Definition with_skills (candidates : list (dict pyval)) : list (dict pyval) :=
  List.filter (fun c => negb (skills_blank c)) candidates.

(** The skill description of a candidate, as the model receives it. *)
Definition skill_text (candidate : dict pyval) : string :=
  match dict_get "skills" candidate with
  | Some (PStr s) => strip s
  | _ => EmptyString
  end.

(** The call reports [success: True]. *)
Definition succeeded (r : outcome pyval) : bool :=
  match r with
  | Ret (PDict d) =>
      match dict_get "success" d with
      | Some (PBool true) => true
      | _ => false
      end
  | _ => false
  end.

(** The store is as it was, or the named table got other rows (and,
    with them, another counter in [sqlite_sequence]) under the schema
    it had. *)
Definition local_change (name : string) (d d' : db) : Prop :=
  d' = d
  \/ exists t t', lookup_table d name = Some t /\ d' = store_table name t' d
                  /\ tbl_columns t' = tbl_columns t /\ tbl_pk t' = tbl_pk t.

(** The rows of a CSV stream that hold at least one field. *)
Fixpoint nonempty_rows (s : csv_stream) : nat :=
  match s with
  | CsvRow [] rest => nonempty_rows rest
  | CsvRow _ rest => S (nonempty_rows rest)
  | _ => 0
  end.

(** The rows of a table of the store (none when the table is absent). *)
Definition rows_of (d : db) (name : string) : list stored_row :=
  match lookup_table d name with
  | Some t => tbl_rows t
  | None => []
  end.

End Props.

(* ================================================================== *)
(** * Concrete stores and collaborators                                 *)
(* ================================================================== *)

Module Examples.
Import Py Sqlite Host.

Definition col (name type : string) (notnull unique : bool) : column :=
  {| col_name := name; col_type := type; col_notnull := notnull;
     col_unique := unique; col_default := SNull |}.

(** The schema [dbs/create_db.py] gives the candidate tables. *)
Definition candidate_columns : list column :=
  [ col "id" "INTEGER" false false; col "name" "TEXT" true false;
    col "email" "TEXT" true true; col "phone" "TEXT" false false;
    col "current_role" "TEXT" false false; col "experience_years" "INTEGER" false false;
    col "skills" "TEXT" false false; col "education" "TEXT" false false;
    col "location" "TEXT" false false; col "linkedin_profile" "TEXT" false false;
    col "last_updated" "TEXT" false false ].

Definition candidates_table (rows : list stored_row) (seq : Z) : table :=
  {| tbl_columns := candidate_columns; tbl_pk := Some "id"; tbl_autoinc := true;
     tbl_seq := seq; tbl_rows := rows |}.

Definition zoe_row : stored_row :=
  (1, [SNull; SText "Zoe Smith"; SText "zoe.s@example.com"; SText "555-2001";
       SText "Junior Data Analyst"; SInt 1; SText "Excel, SQL, Data Visualization";
       SText "B.Sc. Data Science"; SText "San Diego"; SText "linkedin.com/in/zoes";
       SText "2025-07-22"]).

Definition zoe : dict pyval :=
  [ ("id", PInt 1); ("name", PStr "Zoe Smith"); ("email", PStr "zoe.s@example.com");
    ("phone", PStr "555-2001"); ("current_role", PStr "Junior Data Analyst");
    ("experience_years", PInt 1); ("skills", PStr "Excel, SQL, Data Visualization");
    ("education", PStr "B.Sc. Data Science"); ("location", PStr "San Diego");
    ("linkedin_profile", PStr "linkedin.com/in/zoes"); ("last_updated", PStr "2025-07-22") ].

Definition world_of (d : db) : world :=
  {| w_db := d; w_log := []; w_llm_calls := []; w_conns := 0 |}.

(** A store with the source table only. *)
Definition source_only : world :=
  world_of {[ "candidates" := candidates_table [zoe_row] 1 ]}.

(** The store after Zoe was transferred once: her row is in the
    Software Development table already. *)
Definition already_transferred : world :=
  world_of (<[ "software_development_candidates" := candidates_table [zoe_row] 1 ]>
            {[ "candidates" := candidates_table [zoe_row] 1 ]}).

(** An empty store with the candidates table. *)
Definition fresh : world := world_of {[ "candidates" := candidates_table [] 0 ]}.

(** The [todos] table of [dbs/create_db.py], empty. *)
Definition todos_table : table :=
  {| tbl_columns :=
       [ col "id" "INTEGER" false false; col "user_id" "INTEGER" true false;
         col "task" "TEXT" true false;
         {| col_name := "completed"; col_type := "BOOLEAN"; col_notnull := true;
            col_unique := false; col_default := SInt 0 |} ];
     tbl_pk := Some "id"; tbl_autoinc := true; tbl_seq := 0; tbl_rows := [] |}.

Definition with_todos : world := world_of {[ "todos" := todos_table ]}.

(** A table without a key, as [CREATE TABLE] makes it from column names
    and types alone. *)
Definition notes_table : table := new_table [("id", "INTEGER"); ("body", "TEXT")].

Definition with_notes : world := world_of {[ "notes" := notes_table ]}.

(** A table whose name holds a quote character, as
    [CREATE TABLE "o'brien" (id INTEGER, name TEXT)] makes it. *)
Definition with_quoted_name : world := world_of {[ "o'brien" := new_table [("id", "INTEGER"); ("name", "TEXT")] ]}.

Definition note : dict pyval := [ ("id", PInt 7); ("body", PStr "Call Zoe") ].

(** A task given as a number. *)
Definition numbered_task : dict pyval :=
  [ ("user_id", PInt 1); ("task", PInt 5); ("completed", PInt 0) ].

Definition call_zoe : dict pyval :=
  [ ("user_id", PInt 1); ("task", PStr "Call Zoe"); ("completed", PInt 0) ].

Definition ann : dict pyval :=
  [ ("name", PStr "Ann Lee"); ("email", PStr "ann@example.com") ].

(** A task whose key is not spelled as the table spells the column. *)
Definition capital_task : dict pyval :=
  [ ("user_id", PInt 1); ("Task", PStr "Call Zoe"); ("completed", PInt 0) ].

(** A reader for plain CSV text: rows end at line feeds, fields at commas. *)
Fixpoint split_on (c : ascii) (cur : string) (s : string) : list string :=
  match s with
  | EmptyString => [String.rev cur]
  | String a r =>
      if Ascii.eqb a c then String.rev cur :: split_on c EmptyString r
      else split_on c (String a cur) r
  end.

Definition plain_csv (content : string) : csv_stream :=
  fold_right (fun line rest =>
                CsvRow (if is_empty line then [] else split_on "," EmptyString line) rest)
             CsvEnd (split_on (ascii_of_nat 10) EmptyString content).

(** The model gives no text at all. *)
Definition silent : env :=
  {| GEMINI_API_KEY := Some "key"; classify_skill := fun _ => LlmNoText;
     classify_jd := fun _ => LlmNoText; csv_reader := plain_csv |}.

(** A model that answers every skill text with [answer]. *)
Definition answering (answer : llm_outcome) : env :=
  {| GEMINI_API_KEY := Some "key"; classify_skill := fun _ => answer;
     classify_jd := fun _ => answer; csv_reader := plain_csv |}.

End Examples.
(* ================================================================== *)
(** * Properties                                                       *)
(* ================================================================== *)

Import Py Sqlite Host Props.

(** ** The store *)

Lemma lookup_store_eq (d : gmap string table) (name : string) (t : table) :
  lookup_table (store_table name t d) name = Some t.
Proof. unfold lookup_table, store_table. apply lookup_insert_eq. Qed.

Lemma lookup_store_ne (d : gmap string table) (name other : string) (t : table) :
  nocase other <> nocase name ->
  lookup_table (store_table name t d) other = lookup_table d other.
Proof.
  intros H. unfold lookup_table, store_table. apply lookup_insert_ne. congruence.
Qed.

Lemma store_store (d : gmap string table) (name : string) (t t' : table) :
  store_table name t (store_table name t' d) = store_table name t d.
Proof. unfold store_table. apply insert_insert_eq. Qed.

Lemma str_in_In (x : string) (l : list string) : str_in x l = true -> In x l.
Proof.
  unfold str_in. intros H. apply existsb_exists in H as (y & Hin & Hy).
  apply String.eqb_eq in Hy. subst y. exact Hin.
Qed.


(** ** Stripping *)

Lemma lstrip_unfold (s : string) :
  lstrip s = match drop_space s with
             | Some r => lstrip r
             | None => s
             end.
Proof.
  destruct s as [|a [|b [|c r]]]; cbn [lstrip drop_space]; try reflexivity.
  - destruct (is_space a); reflexivity.
  - destruct (is_space a); [reflexivity|]. destruct (is_space2 a b); reflexivity.
  - destruct (is_space a); [reflexivity|]. destruct (is_space2 a b); [reflexivity|].
    destruct (is_space3 a b c); reflexivity.
Qed.

Lemma drop_space_shorter (s r : string) :
  drop_space s = Some r -> (String.length r < String.length s)%nat.
Proof.
  destruct s as [|a [|b [|c r3]]]; cbn [drop_space String.length].
  - discriminate.
  - destruct (is_space a); [intros [= <-]; cbn; lia | discriminate].
  - destruct (is_space a); [intros [= <-]; cbn; lia|].
    destruct (is_space2 a b); [intros [= <-]; cbn; lia | discriminate].
  - destruct (is_space a); [intros [= <-]; cbn; lia|].
    destruct (is_space2 a b); [intros [= <-]; cbn; lia|].
    destruct (is_space3 a b c); [intros [= <-]; lia | discriminate].
Qed.

(** What [lstrip] leaves starts with no white space. *)
Lemma lstrip_head (s : string) : drop_space (lstrip s) = None.
Proof.
  remember (String.length s) as n eqn:Hn. revert s Hn.
  induction n as [n IH] using lt_wf_ind. intros s ->.
  rewrite lstrip_unfold. destruct (drop_space s) as [r|] eqn:Hd; [|exact Hd].
  apply (IH (String.length r)); [apply drop_space_shorter; exact Hd | reflexivity].
Qed.

Lemma lstrip_idem (s : string) : lstrip (lstrip s) = lstrip s.
Proof. rewrite (lstrip_unfold (lstrip s)), lstrip_head. reflexivity. Qed.

Lemma strip_empty_iff (s : string) : is_empty (strip s) = all_space s.
Proof.
  unfold strip, all_space.
  destruct (lstrip s) as [|a r] eqn:Hl; [reflexivity|].
  cbn [rstrip]. unfold all_space. rewrite <- Hl, lstrip_idem, Hl. reflexivity.
Qed.

Lemma is_empty_true (s : string) : is_empty s = true -> s = EmptyString.
Proof. destruct s; [reflexivity|discriminate]. Qed.

(** ** C2, C5, C10: the short circuits *)

(** C2.  [classify_and_transfer_candidates] on an empty sequence returns
    the success result with an empty [transferred_counts]; it sends
    nothing to the model, opens no connection and leaves the database
    as it was. *)
Theorem C2_empty_batch_short_circuit (e : env) (w : world) :
  fst (Analyzer.classify_and_transfer_candidates e [] w)
  = PDict [("success", PBool true);
           ("message", PStr "No candidate data provided for classification.");
           ("transferred_counts", PDict [])]
  /\ w_llm_calls (snd (Analyzer.classify_and_transfer_candidates e [] w)) = w_llm_calls w
  /\ w_conns (snd (Analyzer.classify_and_transfer_candidates e [] w)) = w_conns w
  /\ w_db (snd (Analyzer.classify_and_transfer_candidates e [] w)) = w_db w.
Proof. repeat split. Qed.

(** C5.  With a non-empty [new_values] and a condition that is empty or
    whitespace only, [update_data] returns the failure carrying the
    safety message, whatever [new_values] holds, and the world is the
    one it started from: no connection opened, no row changed. *)
Theorem C5_update_rejects_blank_condition
    (table_name : string) (new_values : dict pyval) (condition : string) (w : world) :
  new_values <> [] ->
  all_space condition = true ->
  ResumeAgent.update_data table_name new_values condition w
  = (Ret (PDict [("success", PBool false);
                 ("message", PStr "Update condition cannot be empty. This is a safety measure to prevent accidental update of all rows.")]),
     w).
Proof.
  intros Hnv Hc. unfold ResumeAgent.update_data.
  destruct new_values as [|kv rest]; [contradiction|].
  rewrite strip_empty_iff, Hc, orb_true_r. reflexivity.
Qed.

Lemma C5_update_rejects_blank_condition_witness :
  [("name", PStr "Zed")] <> []
  /\ all_space "  " = true
  /\ ResumeAgent.update_data "candidates" [("name", PStr "Zed")] "  " Examples.source_only
  = (Ret (PDict [("success", PBool false);
                 ("message", PStr "Update condition cannot be empty. This is a safety measure to prevent accidental update of all rows.")]),
     Examples.source_only).
Proof.
  assert (Hv : [("name", PStr "Zed")] <> @nil (string * pyval)) by discriminate.
  assert (Hc : all_space "  " = true) by reflexivity.
  split; [exact Hv|]. split; [exact Hc|].
  exact (C5_update_rejects_blank_condition "candidates" _ "  " Examples.source_only Hv Hc).
Defined.

(** C10.  [analyze_jd_industry] on the empty job description returns
    ["Unknown"] without a call to the model; ["Unknown"] is none of the
    seven categories and does not start with ["Error: "]. *)
Theorem C10_empty_job_description_unknown (e : env) (w : world) :
  fst (JdTools.analyze_jd_industry e EmptyString w) = "Unknown"
  /\ w_llm_calls (snd (JdTools.analyze_jd_industry e EmptyString w)) = w_llm_calls w
  /\ str_in "Unknown" JdTools.CATEGORIES = false
  /\ startswith "Error: " "Unknown" = false.
Proof. repeat split. Qed.

(** ** C7: the schema of a table the store lacks *)

Lemma user_name_not_reserved (name : string) :
  reserved_name name = false ->
  str_in (nocase name) schema_table_names = false
  /\ String.eqb (nocase name) "sqlite_sequence" = false.
Proof.
  unfold reserved_name. intros H. split.
  - destruct (str_in (nocase name) schema_table_names) eqn:E; [|reflexivity].
    unfold str_in, schema_table_names in E. cbn [existsb] in E.
    repeat (apply orb_prop in E as [E|E];
            [apply String.eqb_eq in E; rewrite E in H; discriminate H|]).
    discriminate E.
  - destruct (String.eqb (nocase name) "sqlite_sequence") eqn:E; [|reflexivity].
    apply String.eqb_eq in E. rewrite E in H. discriminate H.
Qed.

(** [PRAGMA table_info] for a name of the user's that has no quote
    character and no NUL is the lookup of the table. *)
Lemma pragma_user_table (d : gmap string table) (name : string) :
  quotable apostrophe name = true ->
  reserved_name name = false ->
  pragma_table_info d name
  = Ret match lookup_table d name with
        | Some t => map (fun c => (col_name c, col_type c)) (tbl_columns t)
        | None => []
        end.
Proof.
  intros Hq Hr. unfold pragma_table_info. rewrite Hq.
  destruct (user_name_not_reserved _ Hr) as [-> ->].
  destruct (lookup_table d name); reflexivity.
Qed.

Lemma pragma_absent (d : gmap string table) (name : string) :
  quotable apostrophe name = true ->
  reserved_name name = false ->
  lookup_table d name = None ->
  pragma_table_info d name = Ret [].
Proof. intros Hq Hr Hn. rewrite (pragma_user_table _ _ Hq Hr), Hn. reflexivity. Qed.

Lemma str_in_keys {V : Type} (k : string) (d : dict V) (v : V) :
  dict_get k d = Some v -> str_in k (dict_keys d) = true.
Proof.
  unfold dict_keys, str_in. induction d as [|[k' v'] d IH]; [discriminate|].
  cbn [dict_get map existsb fst]. destruct (String.eqb k k'); [reflexivity|]. exact IH.
Qed.




(** ** C8: the dispatcher *)

Lemma dispatch_unknown (tools : dict tool) (name : string) (arguments : dict pyval) (w : world) :
  dict_get name tools = None ->
  fst (dispatch tools name arguments w)
  = error_payload ("Tool '" +:+ name +:+ "' not implemented by this server.").
Proof. intros H. unfold dispatch. rewrite H. reflexivity. Qed.

Lemma dispatch_raise (tools : dict tool) (name : string) (arguments : dict pyval)
    (w w' : world) (t : tool) (ex : exn) :
  dict_get name tools = Some t ->
  run_async name t arguments (received name arguments w) = (Raise ex, w') ->
  fst (dispatch tools name arguments w)
  = error_payload ("Failed to execute tool '" +:+ name +:+ "': " +:+ exn_msg ex).
Proof. intros H Hr. unfold dispatch. rewrite H, Hr. reflexivity. Qed.

(** Whatever the request, the dispatcher hands back one text content. *)
Lemma dispatch_one_content (tools : dict tool) (name : string) (arguments : dict pyval)
    (w : world) :
  exists c, fst (dispatch tools name arguments w) = [c].
Proof.
  unfold dispatch. destruct (dict_get name tools) as [t|]; [|eexists; reflexivity].
  destruct (run_async _ _ _ _) as [[v|ex] w']; eexists; reflexivity.
Qed.

(** C8 (amended).  In both servers, a request for a name outside the
    registry is answered with [{success: false, message: "Tool '<name>'
    not implemented by this server."}]; a registered tool whose
    invocation raises is answered with [{success: false, message:
    "Failed to execute tool '<name>': <error>"}]; and every request is
    answered with one text content, never with an exception. *)
Theorem C8_dispatcher_contains_faults
    (e : env) (name : string) (arguments : dict pyval) (w : world) :
  (dict_get name (ResumeAgent.ADK_DB_TOOLS e) = None ->
   fst (ResumeAgent.call_mcp_tool e name arguments w)
   = error_payload ("Tool '" +:+ name +:+ "' not implemented by this server."))
  /\ (dict_get name (Analyzer.ADK_DB_TOOLS e) = None ->
      fst (Analyzer.call_mcp_tool e name arguments w)
      = error_payload ("Tool '" +:+ name +:+ "' not implemented by this server."))
  /\ (forall t ex w',
        dict_get name (ResumeAgent.ADK_DB_TOOLS e) = Some t ->
        run_async name t arguments (received name arguments w) = (Raise ex, w') ->
        fst (ResumeAgent.call_mcp_tool e name arguments w)
        = error_payload ("Failed to execute tool '" +:+ name +:+ "': " +:+ exn_msg ex))
  /\ (forall t ex w',
        dict_get name (Analyzer.ADK_DB_TOOLS e) = Some t ->
        run_async name t arguments (received name arguments w) = (Raise ex, w') ->
        fst (Analyzer.call_mcp_tool e name arguments w)
        = error_payload ("Failed to execute tool '" +:+ name +:+ "': " +:+ exn_msg ex))
  /\ (exists c, fst (ResumeAgent.call_mcp_tool e name arguments w) = [c])
  /\ (exists c, fst (Analyzer.call_mcp_tool e name arguments w) = [c]).
Proof.
  repeat split.
  - apply dispatch_unknown.
  - apply dispatch_unknown.
  - intros t ex w'. apply dispatch_raise.
  - intros t ex w'. apply dispatch_raise.
  - apply dispatch_one_content.
  - apply dispatch_one_content.
Qed.

Lemma C8_dispatcher_contains_faults_witness :
  (dict_get "drop_table" (ResumeAgent.ADK_DB_TOOLS Examples.silent) = None
   /\ fst (ResumeAgent.call_mcp_tool Examples.silent "drop_table" [] Examples.source_only)
      = error_payload "Tool 'drop_table' not implemented by this server.")
  /\ fst (ResumeAgent.call_mcp_tool Examples.silent "get_table_schema"
            [("table_name", PStr "todos")] Examples.source_only)
     = error_payload "Failed to execute tool 'get_table_schema': Table 'todos' not found or no schema information.".
Proof.
  split; [split; [reflexivity|]|].
  - apply (C8_dispatcher_contains_faults Examples.silent "drop_table" []
             Examples.source_only). reflexivity.
  - pose proof (C8_dispatcher_contains_faults Examples.silent
                  "get_table_schema" [("table_name", PStr "todos")] Examples.source_only)
      as (_ & _ & H & _).
    eapply (H _ (ValueError "Table 'todos' not found or no schema information.")).
    + reflexivity.
    + vm_compute. reflexivity.
Defined.

(** The message for an unknown tool is not ["Tool '<name>' not implemented"]. *)
Lemma C8_counterexample :
  dict_get "drop_table" (ResumeAgent.ADK_DB_TOOLS Examples.silent) = None
  /\ fst (ResumeAgent.call_mcp_tool Examples.silent "drop_table" [] Examples.source_only)
     <> error_payload "Tool 'drop_table' not implemented"
  /\ fst (ResumeAgent.call_mcp_tool Examples.silent "drop_table" [] Examples.source_only)
     = error_payload "Tool 'drop_table' not implemented by this server.".
Proof.
  split; [reflexivity|]. split; [vm_compute; discriminate | reflexivity].
Qed.

(** ** How a call moves the world *)

Lemma appends_refl (P : log_record -> Prop) (w : world) : appends P w w.
Proof. split; [reflexivity|]. exists []. split; [symmetry; apply app_nil_r | constructor]. Qed.

Lemma appends_trans (P : log_record -> Prop) (w1 w2 w3 : world) :
  appends P w1 w2 -> appends P w2 w3 -> appends P w1 w3.
Proof.
  intros (Hd1 & l1 & Hl1 & HP1) (Hd2 & l2 & Hl2 & HP2). split; [congruence|].
  exists (l1 ++ l2). split.
  - rewrite Hl2, Hl1, app_assoc. reflexivity.
  - apply Forall_app; auto.
Qed.

Lemma appends_logf (P : log_record -> Prop) (w w0 : world)
    (l : log_level) (m : string) (a : list pyval) :
  P {| lvl := l; template := m; args := a |} ->
  appends P w w0 -> appends P w (logf l m a w0).
Proof.
  intros HP H. apply (appends_trans P w w0); [exact H|].
  split; [reflexivity|]. eexists. split; [reflexivity|]. repeat constructor. exact HP.
Qed.

Lemma appends_connect (P : log_record -> Prop) (w w0 : world) :
  appends P w w0 -> appends P w (connect w0).
Proof.
  intros H. apply (appends_trans P w w0); [exact H|].
  split; [reflexivity|]. exists []. split; [symmetry; apply app_nil_r | constructor].
Qed.

Lemma appends_llm (P : log_record -> Prop) (w w0 : world) (p : string) :
  appends P w w0 -> appends P w (llm_called p w0).
Proof.
  intros H. apply (appends_trans P w w0); [exact H|].
  split; [reflexivity|]. exists []. split; [symmetry; apply app_nil_r | constructor].
Qed.

Lemma appends_evolves (P : log_record -> Prop) (w w' : world) :
  appends P w w' -> evolves w w'.
Proof. intros (Hd & l & Hl & _). split; [exact Hd | eauto]. Qed.

Lemma evolves_appends (w w' : world) : evolves w w' -> appends (fun _ => True) w w'.
Proof.
  intros (Hd & l & Hl). split; [exact Hd|]. exists l. split; [exact Hl|].
  apply Forall_forall. auto.
Qed.

Lemma appends_new_records (P : log_record -> Prop) (w w' : world) :
  appends P w w' -> Forall P (new_records w w').
Proof.
  intros (_ & l & Hl & HP). unfold new_records. rewrite Hl, drop_app_length. exact HP.
Qed.

Lemma logged_new_records (r : log_record) (w w' : world) :
  logged r w w' -> In r (new_records w w').
Proof.
  intros (l1 & l2 & Hl). unfold new_records. rewrite Hl, drop_app_length.
  apply in_or_app. right. left. reflexivity.
Qed.

Lemma logged_here (w : world) (l : log_level) (m : string) (a : list pyval) :
  logged {| lvl := l; template := m; args := a |} w (logf l m a w).
Proof. exists [], []. reflexivity. Qed.

Lemma logged_then (r : log_record) (w1 w2 w3 : world) :
  logged r w1 w2 -> evolves w2 w3 -> logged r w1 w3.
Proof.
  intros (l1 & l2 & Hl) (_ & l & Hl'). exists l1, (l2 ++ l).
  rewrite Hl', Hl. rewrite <- !app_assoc. reflexivity.
Qed.

Lemma logged_after (r : log_record) (w1 w2 w3 : world) :
  evolves w1 w2 -> logged r w2 w3 -> logged r w1 w3.
Proof.
  intros (_ & l & Hl) (l1 & l2 & Hl'). exists (l ++ l1), l2.
  rewrite Hl', Hl. rewrite <- !app_assoc. reflexivity.
Qed.

(** Solves [appends P w w'] when [w'] is [w] wrapped in log, connect
    and model-call steps whose records satisfy [P] by computation. *)
Ltac appends_steps :=
  repeat first
    [ apply appends_refl
    | apply appends_logf; [reflexivity|]
    | apply appends_connect
    | apply appends_llm ].

(** ** Dictionaries *)

Lemma dict_get_in_keys {V : Type} (k : string) (d : dict V) :
  str_in k (dict_keys d) = true -> exists v, dict_get k d = Some v.
Proof.
  induction d as [|[k' v'] d IH]; simpl; [discriminate|].
  destruct (String.eqb k k'); simpl; eauto.
Qed.

Lemma dict_get_not_in_keys {V : Type} (k : string) (d : dict V) :
  str_in k (dict_keys d) = false -> dict_get k d = None.
Proof.
  induction d as [|[k' v'] d IH]; simpl; [reflexivity|].
  destruct (String.eqb k k'); simpl; [discriminate | auto].
Qed.

Lemma dict_keys_set {V : Type} (k : string) (v v0 : V) (d : dict V) :
  dict_get k d = Some v0 -> dict_keys (dict_set k v d) = dict_keys d.
Proof.
  induction d as [|[k' v'] d IH]; simpl; [discriminate|].
  destruct (String.eqb k k') eqn:E; simpl; [reflexivity|].
  intros H. f_equal. auto.
Qed.

Lemma dict_get_set_eq {V : Type} (k : string) (v : V) (d : dict V) :
  dict_get k (dict_set k v d) = Some v.
Proof.
  induction d as [|[k' v'] d IH]; simpl.
  - rewrite String.eqb_refl. reflexivity.
  - destruct (String.eqb k k') eqn:E; simpl; rewrite E; auto.
Qed.

Lemma dict_get_set_ne {V : Type} (k k' : string) (v : V) (d : dict V) :
  k <> k' -> dict_get k' (dict_set k v d) = dict_get k' d.
Proof.
  intros Hne. induction d as [|[k0 v0] d IH]; simpl.
  - destruct (String.eqb k' k) eqn:E; [|reflexivity].
    apply String.eqb_eq in E. congruence.
  - destruct (String.eqb k k0) eqn:E; simpl.
    + apply String.eqb_eq in E. subst k0.
      destruct (String.eqb k' k) eqn:E'; [|reflexivity].
      apply String.eqb_eq in E'. congruence.
    + rewrite IH. reflexivity.
Qed.

Lemma total_set (k : string) (v n : Z) (d : dict Z) :
  dict_get k d = Some n -> total (dict_set k v d) = total d - n + v.
Proof.
  unfold total. induction d as [|[k' v'] d IH]; simpl; [discriminate|].
  destruct (String.eqb k k') eqn:E; simpl.
  - intros [= ->]. lia.
  - intros H. rewrite (IH H). lia.
Qed.

(** ** The steps of the classification loop *)

Section LoopRecords.

(** A property of log records that every record below error level has,
    as has the record of a failed schema read. *)
Variable P : log_record -> Prop.
Hypothesis P_below_error : forall r, is_error_level r = false -> P r.
Hypothesis P_schema_error :
  forall a, P {| lvl := ERROR; template := "Error getting schema for table '{}': {}";
                 args := a |}.

Ltac steps :=
  repeat first
    [ apply appends_refl
    | apply appends_logf; [first [apply P_below_error; reflexivity | apply P_schema_error]|]
    | apply appends_connect
    | apply appends_llm ].

Lemma schema_columns_appends (name : string) (w w0 : world) :
  appends P w w0 -> appends P w (snd (Analyzer.schema_columns name w0)).
Proof.
  intros H. unfold Analyzer.schema_columns.
  destruct (pragma_table_info _ _); simpl; steps; exact H.
Qed.

Lemma read_answer_appends (ident : pyval) (r : llm_outcome) (w w0 : world) :
  appends P w w0 -> appends P w (snd (Analyzer.read_answer ident r w0)).
Proof.
  intros H. unfold Analyzer.read_answer.
  destruct r as [t| |ex]; [destruct (is_empty t)| |]; simpl; steps; exact H.
Qed.

Lemma valid_category_appends_clean (ident : pyval) (answer : string) (w w0 : world) :
  str_in answer Analyzer.CATEGORIES = true ->
  appends P w w0 -> appends P w (snd (Analyzer.valid_category ident answer w0)).
Proof. intros Hin H. unfold Analyzer.valid_category. rewrite Hin. exact H. Qed.

Lemma ensure_table_appends (types : dict string) (category target : string)
    (c : dict pyval) (b : Analyzer.batch) (w w0 : world) :
  appends P w w0 ->
  appends P w (snd (Analyzer.ensure_table types category target c b w0)).
Proof.
  intros H. unfold Analyzer.ensure_table.
  destruct (str_in target (Analyzer.b_created b)); [exact H|].
  pose proof (schema_columns_appends target w w0 H) as Hs.
  destruct (Analyzer.schema_columns target w0) as [[[|col cols]|ex] w1]; simpl in *;
    [|exact Hs|exact Hs].
  destruct (sql_create_table_if_not_exists _ _ _); simpl; steps; exact Hs.
Qed.

Lemma transfer_candidate_appends (types : dict string) (category : string)
    (c : dict pyval) (b : Analyzer.batch) (w w0 : world) :
  appends P w w0 ->
  appends P w (snd (Analyzer.transfer_candidate types category c b w0)).
Proof.
  intros H. unfold Analyzer.transfer_candidate.
  pose proof (ensure_table_appends types category (Analyzer.target_table category) c b w w0 H)
    as He.
  destruct (Analyzer.ensure_table _ _ _ _ _ _) as [[[ex|] b1] w1]; simpl in *; [exact He|].
  destruct (Analyzer.insert_candidate _ _ _); exact He.
Qed.

Lemma classify_candidate_appends_clean (e : env) (ident : pyval) (s : string)
    (w w0 : world) :
  clean_answer (classify_skill e s) ->
  appends P w w0 -> appends P w (snd (Analyzer.classify_candidate e ident s w0)).
Proof.
  intros Hc H. unfold Analyzer.classify_candidate.
  destruct (classify_skill e s) as [t| |ex]; unfold clean_answer in Hc; try contradiction.
  destruct Hc as [Ht Hin]. unfold Analyzer.read_answer. rewrite Ht.
  unfold Analyzer.valid_category. rewrite Hin. cbn [snd]. steps. exact H.
Qed.

Hypothesis P_fallback :
  forall a, P {| lvl := ERROR;
                 template := "LLM returned an invalid category '{}' for candidate {}. This should be prevented by the prompt. Attempting to choose a default category or log for review.";
                 args := a |}.

Lemma valid_category_appends (ident : pyval) (answer : string) (w w0 : world) :
  appends P w w0 -> appends P w (snd (Analyzer.valid_category ident answer w0)).
Proof.
  intros H. unfold Analyzer.valid_category.
  destruct (str_in answer Analyzer.CATEGORIES); simpl; [exact H|].
  apply appends_logf; [apply P_below_error; reflexivity|].
  apply appends_logf; [apply P_fallback|]. exact H.
Qed.

Lemma classify_candidate_appends (e : env) (ident : pyval) (s : string) (w w0 : world) :
  appends P w w0 -> appends P w (snd (Analyzer.classify_candidate e ident s w0)).
Proof.
  intros H. unfold Analyzer.classify_candidate.
  set (w1 := llm_called s _).
  assert (H1 : appends P w w1) by (subst w1; steps; exact H).
  clearbody w1.
  assert (Hgen : forall r,
            appends P w (snd (let '(answer, w2) := Analyzer.read_answer ident r w1 in
                              let '(category, w3) := Analyzer.valid_category ident answer w2 in
                              (Ret category,
                               logf INFO "Candidate {} (Skill: '{}') classified as '{}'."
                                    [ident; PStr s; PStr category] w3)))).
  { intros r. pose proof (read_answer_appends ident r w w1 H1) as Hr.
    destruct (Analyzer.read_answer ident r w1) as [answer w2]. simpl in Hr.
    pose proof (valid_category_appends ident answer w w2 Hr) as Hv.
    destruct (Analyzer.valid_category ident answer w2) as [category w3]. simpl in *.
    steps. exact Hv. }
  destruct (classify_skill e s) as [t| |ex]; [apply Hgen | apply Hgen | exact H1].
Qed.

Lemma try_body_appends (e : env) (types : dict string) (ident : pyval) (s : string)
    (c : dict pyval) (b : Analyzer.batch) (w w0 : world) :
  appends P w w0 -> appends P w (snd (Analyzer.try_body e types ident s c b w0)).
Proof.
  intros H. unfold Analyzer.try_body.
  pose proof (classify_candidate_appends e ident s w w0 H) as Hc.
  destruct (Analyzer.classify_candidate e ident s w0) as [[category|ex] w1]; simpl in Hc.
  - apply transfer_candidate_appends. exact Hc.
  - exact Hc.
Qed.

End LoopRecords.

Lemma try_body_appends_clean (P : log_record -> Prop) (e : env) (types : dict string)
    (ident : pyval) (s : string) (c : dict pyval) (b : Analyzer.batch) (w w0 : world) :
  (forall r, is_error_level r = false -> P r) ->
  (forall a, P {| lvl := ERROR; template := "Error getting schema for table '{}': {}";
                  args := a |}) ->
  clean_answer (classify_skill e s) ->
  appends P w w0 -> appends P w (snd (Analyzer.try_body e types ident s c b w0)).
Proof.
  intros HP HPs Hc H. unfold Analyzer.try_body.
  pose proof (classify_candidate_appends_clean P HP e ident s w w0 Hc H) as Hcl.
  destruct (Analyzer.classify_candidate e ident s w0) as [[category|ex] w1]; simpl in Hcl.
  - apply transfer_candidate_appends; assumption.
  - exact Hcl.
Qed.

Lemma try_body_evolves (e : env) (types : dict string) (ident : pyval) (s : string)
    (c : dict pyval) (b : Analyzer.batch) (w : world) :
  appends (fun r => is_processing_error r = false) w
          (snd (Analyzer.try_body e types ident s c b w)).
Proof.
  apply try_body_appends; try (intros; reflexivity); [|apply appends_refl].
  intros [l m a] Hl. destruct l; try discriminate Hl; reflexivity.
Qed.

(** ** What a transfer does to the batch *)

Lemma create_table_ok (d d' : gmap string table) (name : string)
    (defs : list (string * string)) :
  sql_create_table_if_not_exists d name defs = Ret d' ->
  (is_Some (lookup_table d name) /\ d' = d)
  \/ (lookup_table d name = None /\ d' = store_table name (new_table defs) d).
Proof.
  unfold sql_create_table_if_not_exists.
  destruct (negb (plain_ident name)); [discriminate|].
  destruct (negb (forallb _ _)); [discriminate|].
  destruct defs as [|df defs]; [discriminate|].
  destruct (lookup_table d name) as [t|] eqn:Hd.
  - intros [= <-]. left. eauto.
  - destruct (reserved_name name); [discriminate|].
    destruct (duplicate _); [discriminate|]. intros [= <-]. right. auto.
Qed.

Lemma ensure_table_ok (types : dict string) (category target : string)
    (c : dict pyval) (b b1 : Analyzer.batch) (w w1 : world) :
  Analyzer.ensure_table types category target c b w = (None, b1, w1) ->
  Analyzer.b_counts b1 = Analyzer.b_counts b
  /\ (Analyzer.b_working b1 = Analyzer.b_working b
      \/ (lookup_table (Analyzer.b_working b) target = None
          /\ Analyzer.b_working b1
             = store_table target (new_table (Analyzer.column_definitions types c)) (Analyzer.b_working b))).
Proof.
  unfold Analyzer.ensure_table.
  destruct (str_in target (Analyzer.b_created b)).
  { intros [= <- <-]. auto. }
  destruct (Analyzer.schema_columns target w) as [[[|col cols]|ex] w0].
  - destruct (sql_create_table_if_not_exists _ _ _) as [d|ex] eqn:Hc; [|discriminate].
    intros [= <- <-]. simpl. split; [reflexivity|].
    apply create_table_ok in Hc as [[_ ->]|[Hn ->]]; auto.
  - intros [= <- <-]. auto.
  - discriminate.
Qed.

Lemma find_table_ok (d : gmap string table) (name : string) (t : table) :
  find_table d name = Ret t -> lookup_table d name = Some t.
Proof.
  unfold find_table. destruct (plain_ident name); [|discriminate].
  destruct (lookup_table d name); [|discriminate]. intros [= ->]. reflexivity.
Qed.

Lemma insert_candidate_ok (target : string) (c : dict pyval) (d d' : gmap string table) :
  Analyzer.insert_candidate target c d = Ret d' ->
  exists t t' rowid,
    lookup_table d target = Some t
    /\ sql_insert target t (dict_keys c) (dict_values c) = Ret (t', rowid)
    /\ d' = store_table target t' d.
Proof.
  unfold Analyzer.insert_candidate. destruct (negb (forallb _ _)); [discriminate|].
  destruct (find_table d target) as [t|ex] eqn:Ht; [|discriminate]. simpl.
  destruct (sql_insert _ _ _ _) as [[t' rowid]|ex] eqn:Hi; [|discriminate]. simpl.
  intros [= <-]. exists t, t', rowid. auto using find_table_ok.
Qed.

(** A transfer that ends without an exception inserted the candidate
    into the table of its category and incremented that counter. *)
Lemma transfer_candidate_ok (types : dict string) (category : string)
    (c : dict pyval) (b b' : Analyzer.batch) (w w' : world) :
  Analyzer.transfer_candidate types category c b w = (None, b', w') ->
  exists t' rowid,
    sql_insert (Analyzer.target_table category)
               (destination types (Analyzer.target_table category) c (Analyzer.b_working b))
               (dict_keys c) (dict_values c) = Ret (t', rowid)
    /\ Analyzer.b_working b' = store_table (Analyzer.target_table category) t' (Analyzer.b_working b)
    /\ Analyzer.b_counts b'
       = match dict_get category (Analyzer.b_counts b) with
         | Some n => dict_set category (n + 1) (Analyzer.b_counts b)
         | None => Analyzer.b_counts b
         end.
Proof.
  unfold Analyzer.transfer_candidate.
  destruct (Analyzer.ensure_table _ _ _ _ _ _) as [[[ex|] b1] w1] eqn:He; [discriminate|].
  apply ensure_table_ok in He as [Hcounts Hwork].
  destruct (Analyzer.insert_candidate _ _ _) as [d|ex] eqn:Hi; [|discriminate].
  intros [= <- <-]. apply insert_candidate_ok in Hi as (t & t' & rowid & Ht & Hins & ->).
  exists t', rowid. simpl. rewrite Hcounts. unfold destination.
  destruct Hwork as [Hw|[Hn Hw]]; rewrite Hw in *.
  - rewrite Ht. auto.
  - rewrite Hn. rewrite lookup_store_eq in Ht. injection Ht as <-.
    rewrite store_store. auto.
Qed.

Lemma first_category_listed : str_in Analyzer.first_category Analyzer.CATEGORIES = true.
Proof. reflexivity. Qed.

Lemma valid_category_listed (ident : pyval) (answer : string) (w : world) :
  str_in (fst (Analyzer.valid_category ident answer w)) Analyzer.CATEGORIES = true.
Proof.
  unfold Analyzer.valid_category.
  destruct (str_in answer Analyzer.CATEGORIES) eqn:E; [exact E | reflexivity].
Qed.

(** The category a candidate is classified into is one of the seven. *)
Lemma classify_candidate_listed (e : env) (ident : pyval) (s category : string)
    (w w' : world) :
  Analyzer.classify_candidate e ident s w = (Ret category, w') ->
  str_in category Analyzer.CATEGORIES = true.
Proof.
  unfold Analyzer.classify_candidate.
  set (w1 := llm_called s _). clearbody w1.
  assert (Hgen : forall r,
            (let '(answer, w2) := Analyzer.read_answer ident r w1 in
             let '(cat, w3) := Analyzer.valid_category ident answer w2 in
             (Ret cat,
              logf INFO "Candidate {} (Skill: '{}') classified as '{}'."
                   [ident; PStr s; PStr cat] w3)) = (Ret category, w') ->
            str_in category Analyzer.CATEGORIES = true).
  { intros r. destruct (Analyzer.read_answer ident r w1) as [answer w2].
    pose proof (valid_category_listed ident answer w2) as Hv.
    destruct (Analyzer.valid_category ident answer w2) as [cat w3].
    intros [= <- _]. exact Hv. }
  destruct (classify_skill e s) as [t| |ex]; [apply Hgen | apply Hgen | discriminate].
Qed.

(** The answer the code reads from an invalid reply is none of the
    categories. *)
Lemma read_answer_invalid (ident : pyval) (r : llm_outcome) (w : world) :
  invalid_answer r ->
  str_in (fst (Analyzer.read_answer ident r w)) Analyzer.CATEGORIES = false.
Proof.
  unfold invalid_answer, Analyzer.read_answer.
  destruct r as [t| |ex]; [|reflexivity|contradiction].
  destruct (is_empty t); [reflexivity|]. auto.
Qed.

(** On an invalid reply the candidate is classified into the first
    category and the fallback is on record. *)
Lemma classify_candidate_fallback (e : env) (ident : pyval) (s : string) (w : world) :
  invalid_answer (classify_skill e s) ->
  exists w' r,
    Analyzer.classify_candidate e ident s w = (Ret Analyzer.first_category, w')
    /\ is_fallback_record r = true /\ logged r w w'.
Proof.
  intros Hinv. unfold Analyzer.classify_candidate.
  set (w1 := llm_called s _).
  assert (H1 : evolves w w1).
  { subst w1. apply (appends_evolves (fun _ => True)).
    apply appends_llm, appends_logf; [exact I | apply appends_refl]. }
  clearbody w1.
  assert (Hgen : forall r, invalid_answer r ->
            exists w' rec,
              (let '(answer, w2) := Analyzer.read_answer ident r w1 in
               let '(cat, w3) := Analyzer.valid_category ident answer w2 in
               (Ret cat,
                logf INFO "Candidate {} (Skill: '{}') classified as '{}'."
                     [ident; PStr s; PStr cat] w3))
              = (Ret Analyzer.first_category, w')
              /\ is_fallback_record rec = true /\ logged rec w w').
  { intros r Hr. pose proof (read_answer_invalid ident r w1 Hr) as Hans.
    pose proof (read_answer_appends (fun _ => True) (fun _ _ => I) ident r w1 w1
                  (appends_refl _ _)) as Hra.
    destruct (Analyzer.read_answer ident r w1) as [answer w2]. cbn [fst snd] in Hans, Hra.
    unfold Analyzer.valid_category. rewrite Hans.
    eexists.
    exists {| lvl := ERROR;
              template := "LLM returned an invalid category '{}' for candidate {}. This should be prevented by the prompt. Attempting to choose a default category or log for review.";
              args := [PStr answer; ident] |}.
    split; [reflexivity|]. split; [reflexivity|].
    apply (logged_after _ w w1); [exact H1|].
    apply (logged_after _ w1 w2); [exact (appends_evolves _ _ _ Hra)|].
    eapply logged_then; [eapply logged_then; [apply logged_here|]|].
    - apply (appends_evolves (fun _ => True)).
      apply appends_logf; [exact I | apply appends_refl].
    - apply (appends_evolves (fun _ => True)).
      apply appends_logf; [exact I | apply appends_refl]. }
  destruct (classify_skill e s) as [t| |ex]; [apply Hgen | apply Hgen | ]; try exact Hinv.
  contradiction.
Qed.

(** ** The loop *)

Lemma read_skills_ret (c : dict pyval) (s : string) :
  Analyzer.read_skills c = Ret s ->
  is_empty s = skills_blank c /\ skills_not_str c = false.
Proof.
  unfold Analyzer.read_skills, skills_blank, skills_not_str.
  destruct (dict_get "skills" c) as [[| | |s0| |]|]; try discriminate.
  - intros [= <-]. split; [apply strip_empty_iff | reflexivity].
  - intros [= <-]. split; reflexivity.
Qed.

Lemma read_skills_raise (c : dict pyval) (ex : exn) :
  Analyzer.read_skills c = Raise ex ->
  exists v, dict_get "skills" c = Some v /\ (forall s, v <> PStr s)
            /\ ex = AttributeError ("'" +:+ type_name v +:+ "' object has no attribute 'strip'").
Proof.
  unfold Analyzer.read_skills.
  destruct (dict_get "skills" c) as [v|]; [|discriminate].
  destruct v; try discriminate; intros [= <-]; eexists; (split; [reflexivity|]);
    (split; [intros ?; discriminate | reflexivity]).
Qed.

Lemma read_skills_not_str (c : dict pyval) :
  skills_not_str c = true -> exists ex, Analyzer.read_skills c = Raise ex.
Proof.
  unfold Analyzer.read_skills, skills_not_str.
  destruct (dict_get "skills" c) as [[| | |s0| |]|]; try discriminate; eauto.
Qed.

(** The body of the loop for a candidate without a skill description:
    the batch is untouched and only the log grows. *)
Lemma loop_body_blank (e : env) (types : dict string) (i : nat) (c : dict pyval)
    (b : Analyzer.batch) (w : world) :
  skills_blank c = true ->
  exists w', Analyzer.loop_body e types i c b w = (None, b, w') /\ only_logged w w'.
Proof.
  intros Hb. unfold Analyzer.loop_body.
  destruct (Analyzer.read_skills c) as [s|ex] eqn:Hr.
  - apply read_skills_ret in Hr as [He _]. rewrite He, Hb.
    eexists. split; [reflexivity|]. repeat split. simpl. rewrite <- app_assoc. eauto.
  - apply read_skills_raise in Hr as (v & Hv & Hns & _).
    unfold skills_blank in Hb. rewrite Hv in Hb.
    destruct v; try discriminate. exfalso. eapply Hns. reflexivity.
Qed.

Lemma loop_body_evolves (e : env) (types : dict string) (i : nat) (c : dict pyval)
    (b : Analyzer.batch) (w : world) :
  evolves w (snd (Analyzer.loop_body e types i c b w)).
Proof.
  apply (appends_evolves (fun _ => True)). unfold Analyzer.loop_body.
  destruct (Analyzer.read_skills c) as [s|ex]; [|apply appends_refl].
  destruct (is_empty s).
  { simpl. repeat (apply appends_logf; [exact I|]). apply appends_refl. }
  set (w0 := logf DEBUG _ _ w).
  assert (H0 : appends (fun _ => True) w w0)
    by (subst w0; apply appends_logf; [exact I | apply appends_refl]).
  pose proof (try_body_appends (fun _ => True) (fun _ _ => I) (fun _ => I) (fun _ => I)
                e types (Analyzer.candidate_identifier i c) s c b w w0 H0) as Ht.
  destruct (Analyzer.try_body _ _ _ _ _ _ _) as [[[ex|] b1] w1]; simpl in *.
  - apply appends_logf; [exact I | exact Ht].
  - exact Ht.
Qed.

Lemma loop_evolves (e : env) (types : dict string) (cands : list (dict pyval)) :
  forall (i : nat) (b : Analyzer.batch) (w : world),
    evolves w (snd (Analyzer.candidates_loop e types i cands b w)).
Proof.
  induction cands as [|c rest IH]; intros i b w; simpl.
  - apply (appends_evolves (fun _ => True)), appends_refl.
  - pose proof (loop_body_evolves e types i c b w) as Hb.
    destruct (Analyzer.loop_body e types i c b w) as [[[ex|] b1] w1]; simpl in *; [exact Hb|].
    apply evolves_appends in Hb. specialize (IH (S i) b1 w1). apply evolves_appends in IH.
    exact (appends_evolves _ _ _ (appends_trans _ _ _ _ Hb IH)).
Qed.

Lemma evolves_new_records (w1 w2 w3 : world) (P : log_record -> Prop) :
  evolves w1 w2 -> evolves w2 w3 ->
  Forall P (new_records w1 w3) ->
  Forall P (new_records w1 w2) /\ Forall P (new_records w2 w3).
Proof.
  intros (_ & l1 & H1) (_ & l2 & H2). unfold new_records.
  rewrite H2, H1 at 1. rewrite <- app_assoc, drop_app_length.
  rewrite H1 at 1. rewrite drop_app_length.
  rewrite H2, drop_app_length. apply Forall_app.
Qed.

(** A step of the loop that logs no processing error transfers the
    candidate unless it is blank. *)
Lemma loop_body_counts (e : env) (types : dict string) (i : nat) (c : dict pyval)
    (b b' : Analyzer.batch) (w w' : world) :
  dict_keys (Analyzer.b_counts b) = Analyzer.CATEGORIES ->
  Analyzer.loop_body e types i c b w = (None, b', w') ->
  Forall (fun r => is_processing_error r = false) (new_records w w') ->
  dict_keys (Analyzer.b_counts b') = Analyzer.CATEGORIES
  /\ total (Analyzer.b_counts b')
     = total (Analyzer.b_counts b) + (if skills_blank c then 0 else 1).
Proof.
  intros Hk Hl Hlog. unfold Analyzer.loop_body in Hl.
  destruct (Analyzer.read_skills c) as [s|ex] eqn:Hr; [|discriminate].
  apply read_skills_ret in Hr as [He _]. rewrite He in Hl.
  destruct (skills_blank c).
  { injection Hl as <- <-. split; [exact Hk | lia]. }
  set (w0 := logf DEBUG _ _ w) in Hl.
  pose proof (try_body_evolves e types (Analyzer.candidate_identifier i c) s c b w0) as Ht.
  destruct (Analyzer.try_body _ _ _ _ _ _ _) as [[[ex|] b1] w1] eqn:Htry; cbn [snd] in Ht.
  - exfalso. injection Hl as <- <-.
    assert (Hin : In {| lvl := ERROR;
                        template := "Error processing candidate {} (Skill: '{}'): {}";
                        args := [Analyzer.candidate_identifier i c; PStr s; PStr (exn_msg ex)] |}
                     (new_records w (logf ERROR "Error processing candidate {} (Skill: '{}'): {}"
                                          [Analyzer.candidate_identifier i c; PStr s; PStr (exn_msg ex)] w1))).
    { apply logged_new_records. apply (logged_after _ w w0).
      - subst w0. apply (appends_evolves (fun _ => True)).
        apply appends_logf; [exact I | apply appends_refl].
      - apply (logged_after _ w0 w1); [exact (appends_evolves _ _ _ Ht) | apply logged_here]. }
    rewrite Forall_forall in Hlog. apply list_elem_of_In in Hin.
    specialize (Hlog _ Hin). discriminate Hlog.
  - injection Hl as <- <-. unfold Analyzer.try_body in Htry.
    destruct (Analyzer.classify_candidate _ _ _ _) as [[category|ex] w2] eqn:Hc;
      [|discriminate].
    apply classify_candidate_listed in Hc.
    apply transfer_candidate_ok in Htry as (t' & rowid & _ & _ & Hcounts).
    rewrite <- Hk in Hc. apply dict_get_in_keys in Hc as [n Hn].
    rewrite Hn in Hcounts. rewrite Hcounts. split.
    + rewrite (dict_keys_set _ _ n); assumption.
    + rewrite (total_set _ _ n) by assumption. lia.
Qed.

Lemma loop_counts (e : env) (types : dict string) (cands : list (dict pyval)) :
  forall (i : nat) (b b' : Analyzer.batch) (w w' : world),
    dict_keys (Analyzer.b_counts b) = Analyzer.CATEGORIES ->
    Analyzer.candidates_loop e types i cands b w = (None, b', w') ->
    Forall (fun r => is_processing_error r = false) (new_records w w') ->
    dict_keys (Analyzer.b_counts b') = Analyzer.CATEGORIES
    /\ total (Analyzer.b_counts b')
       = total (Analyzer.b_counts b)
         + Z.of_nat (length cands) - Z.of_nat (length (List.filter skills_blank cands)).
Proof.
  induction cands as [|c rest IH]; intros i b b' w w' Hk Hl Hlog.
  - injection Hl as <- <-. split; [exact Hk | simpl; lia].
  - simpl in Hl.
    pose proof (loop_body_evolves e types i c b w) as Hev.
    destruct (Analyzer.loop_body e types i c b w) as [[[ex|] b1] w1] eqn:Hb; [discriminate|].
    cbn [snd] in Hev.
    pose proof (loop_evolves e types rest (S i) b1 w1) as Hev'. rewrite Hl in Hev'.
    cbn [snd] in Hev'.
    destruct (evolves_new_records w w1 w' _ Hev Hev' Hlog) as [Hlog1 Hlog2].
    destruct (loop_body_counts e types i c b b1 w w1 Hk Hb Hlog1) as [Hk1 Ht1].
    destruct (IH (S i) b1 b' w1 w' Hk1 Hl Hlog2) as [Hk' Ht'].
    split; [exact Hk'|]. rewrite Ht', Ht1. simpl.
    destruct (skills_blank c); simpl length; lia.
Qed.

(** With string skills only, no exception leaves the loop. *)
Lemma loop_returns (e : env) (types : dict string) (cands : list (dict pyval)) :
  forall (i : nat) (b : Analyzer.batch) (w : world),
    existsb skills_not_str cands = false ->
    fst (fst (Analyzer.candidates_loop e types i cands b w)) = None.
Proof.
  induction cands as [|c rest IH]; intros i b w Hs; simpl; [reflexivity|].
  simpl in Hs. apply orb_false_iff in Hs as [Hc Hrest].
  destruct (Analyzer.loop_body e types i c b w) as [[[ex|] b1] w1] eqn:Hb; [|auto].
  exfalso. unfold Analyzer.loop_body in Hb.
  destruct (Analyzer.read_skills c) as [s|ex'] eqn:Hr.
  - destruct (is_empty s); [discriminate|].
    destruct (Analyzer.try_body _ _ _ _ _ _ _) as [[[ex''|] b2] w2]; discriminate.
  - apply read_skills_raise in Hr as (v & Hv & Hns & _).
    unfold skills_not_str in Hc. rewrite Hv in Hc.
    destruct v; try discriminate. eapply Hns. reflexivity.
Qed.

(** A skills value that is not a string ends the loop with the
    [AttributeError] of the first such candidate. *)
Lemma loop_raises (e : env) (types : dict string) (cands : list (dict pyval)) :
  forall (i : nat) (b : Analyzer.batch) (w : world),
    existsb skills_not_str cands = true ->
    exists c v,
      In c cands /\ dict_get "skills" c = Some v /\ (forall s, v <> PStr s)
      /\ fst (fst (Analyzer.candidates_loop e types i cands b w))
         = Some (AttributeError ("'" +:+ type_name v +:+ "' object has no attribute 'strip'")).
Proof.
  induction cands as [|c rest IH]; intros i b w Hs; [discriminate|]. simpl.
  destruct (Analyzer.loop_body e types i c b w) as [[[ex|] b1] w1] eqn:Hb.
  - unfold Analyzer.loop_body in Hb.
    destruct (Analyzer.read_skills c) as [s|ex'] eqn:Hr.
    + destruct (is_empty s); [discriminate|].
      destruct (Analyzer.try_body _ _ _ _ _ _ _) as [[[ex''|] b2] w2]; discriminate.
    + injection Hb as <- _ _. apply read_skills_raise in Hr as (v & Hv & Hns & ->).
      exists c, v. simpl. auto.
  - assert (Hc : skills_not_str c = false).
    { unfold Analyzer.loop_body in Hb.
      destruct (Analyzer.read_skills c) as [s|ex'] eqn:Hr; [|discriminate].
      apply read_skills_ret in Hr. tauto. }
    simpl in Hs. rewrite Hc in Hs. simpl in Hs.
    destruct (IH (S i) b1 w1 Hs) as (c' & v & Hin & Hv & Hns & Hres).
    exists c', v. simpl. auto.
Qed.

Lemma schema_columns_candidates (w : world) :
  exists types, Analyzer.schema_columns "candidates" w = (Ret types, connect w).
Proof.
  unfold Analyzer.schema_columns, pragma_table_info.
  replace (quotable apostrophe "candidates") with true by reflexivity.
  destruct (lookup_table (w_db (connect w)) "candidates"); eauto.
Qed.

(** ** C9: a skills value that is not a string *)

(** C9.  With the API key set, a batch in which some candidate carries
    a skills value that is not a string fails as a whole: the result is
    the failure of the outer handler, with the [AttributeError] of such
    a candidate in its message and an empty [transferred_counts], and
    the database is the one the call started from, so that no row
    inserted for an earlier candidate is kept. *)
Theorem C9_non_string_skills_abort_batch
    (e : env) (candidates_data : list (dict pyval)) (w : world) :
  api_key_set e = true ->
  existsb skills_not_str candidates_data = true ->
  exists c v,
    In c candidates_data /\ dict_get "skills" c = Some v /\ (forall s, v <> PStr s)
    /\ fst (Analyzer.classify_and_transfer_candidates e candidates_data w)
       = PDict [("success", PBool false);
                ("message",
                 PStr ("An unexpected error occurred during classification and transfer: '"
                       +:+ type_name v +:+ "' object has no attribute 'strip'"));
                ("transferred_counts", PDict [])]
    /\ w_db (snd (Analyzer.classify_and_transfer_candidates e candidates_data w)) = w_db w.
Proof.
  intros Hkey Hbad. unfold Analyzer.classify_and_transfer_candidates.
  destruct candidates_data as [|c0 rest] eqn:Hcands; [discriminate|]. rewrite <- Hcands in *.
  rewrite Hkey. cbn [negb].
  set (w1 := logf INFO _ _ (connect w)).
  destruct (schema_columns_candidates w1) as [types Hs]. rewrite Hs.
  set (b0 := {| Analyzer.b_working := _ |}).
  destruct (loop_raises e types candidates_data 0 b0 (connect w1) Hbad)
    as (c & v & Hin & Hv & Hns & Hres).
  pose proof (loop_evolves e types candidates_data 0 b0 (connect w1)) as [Hdb _].
  destruct (Analyzer.candidates_loop _ _ _ _ _ _) as [[o b'] w'].
  cbn [fst snd] in Hres, Hdb. subst o.
  exists c, v. repeat (split; [assumption|]). split; [reflexivity|].
  cbn. exact Hdb.
Qed.

Lemma C9_non_string_skills_abort_batch_witness :
  api_key_set (Examples.answering (LlmText "Banking")) = true
  /\ existsb skills_not_str [Examples.zoe; [("id", PInt 2); ("skills", PNone)]] = true
  /\ exists c v,
       In c [Examples.zoe; [("id", PInt 2); ("skills", PNone)]]
       /\ dict_get "skills" c = Some v /\ (forall s, v <> PStr s)
       /\ fst (Analyzer.classify_and_transfer_candidates
                 (Examples.answering (LlmText "Banking"))
                 [Examples.zoe; [("id", PInt 2); ("skills", PNone)]] Examples.source_only)
          = PDict [("success", PBool false);
                   ("message",
                    PStr ("An unexpected error occurred during classification and transfer: '"
                          +:+ type_name v +:+ "' object has no attribute 'strip'"));
                   ("transferred_counts", PDict [])]
       /\ w_db (snd (Analyzer.classify_and_transfer_candidates
                       (Examples.answering (LlmText "Banking"))
                       [Examples.zoe; [("id", PInt 2); ("skills", PNone)]]
                       Examples.source_only))
          = w_db Examples.source_only.
Proof.
  assert (Hk : api_key_set (Examples.answering (LlmText "Banking")) = true) by reflexivity.
  assert (Hb : existsb skills_not_str [Examples.zoe; [("id", PInt 2); ("skills", PNone)]] = true)
    by reflexivity.
  split; [exact Hk|]. split; [exact Hb|].
  exact (C9_non_string_skills_abort_batch _ _ Examples.source_only Hk Hb).
Defined.

(** ** C3: blank skills are skipped *)

(** C3.  A candidate whose skills field is blank leaves the batch and
    the world as they are but for the log: no call to the model, no
    connection, no insert, no counter incremented.  Hence a batch in
    which exactly one candidate is blank, every skills value is a
    string and no candidate is logged as failed ends with counters that
    add up to the number of candidates minus one. *)
Theorem C3_blank_skills_skipped :
  (forall (e : env) (types : dict string) (i : nat) (c : dict pyval)
          (b : Analyzer.batch) (w : world),
      skills_blank c = true ->
      exists w', Analyzer.loop_body e types i c b w = (None, b, w') /\ only_logged w w')
  /\ (forall (e : env) (candidates_data : list (dict pyval)) (w : world),
        api_key_set e = true ->
        length (List.filter skills_blank candidates_data) = 1%nat ->
        existsb skills_not_str candidates_data = false ->
        Forall (fun r => is_processing_error r = false)
               (new_records w (snd (Analyzer.classify_and_transfer_candidates e candidates_data w))) ->
        exists counts,
          fst (Analyzer.classify_and_transfer_candidates e candidates_data w)
          = Analyzer.result true "Candidate classification and transfer completed." counts
          /\ dict_keys counts = Analyzer.CATEGORIES
          /\ total counts = Z.of_nat (length candidates_data) - 1).
Proof.
  split; [exact loop_body_blank|].
  intros e cands w Hkey Hone Hstr Hlog.
  unfold Analyzer.classify_and_transfer_candidates in *.
  destruct cands as [|c0 rest] eqn:Hcands; [discriminate|]. rewrite <- Hcands in *.
  rewrite Hkey in *. cbn [negb] in *.
  set (w1 := logf INFO _ _ (connect w)) in *.
  assert (H1 : evolves w (connect w1)).
  { subst w1. apply (appends_evolves (fun _ => True)).
    apply appends_connect, appends_logf; [exact I|]. apply appends_connect, appends_refl. }
  destruct (schema_columns_candidates w1) as [types Hs]. rewrite Hs in *.
  set (b0 := {| Analyzer.b_working := _ |}) in *.
  pose proof (loop_returns e types cands 0 b0 (connect w1) Hstr) as Hret.
  pose proof (loop_evolves e types cands 0 b0 (connect w1)) as Hev.
  destruct (Analyzer.candidates_loop _ _ _ _ _ _) as [[o b'] w'] eqn:Hloop.
  cbn [fst snd] in Hret, Hev. subst o. cbn [fst snd] in *.
  assert (Hlog' : Forall (fun r => is_processing_error r = false) (new_records (connect w1) w')).
  { destruct H1 as [_ [la Ha]]. destruct Hev as [_ [lb Hb]].
    unfold new_records in *. cbn [w_log logf commit] in Hlog.
    rewrite Hb, Ha in Hlog.
    rewrite <- !app_assoc, drop_app_length in Hlog.
    rewrite Hb, drop_app_length.
    apply Forall_app in Hlog as [_ Hlog]. apply Forall_app in Hlog as [Hlog _]. exact Hlog. }
  destruct (loop_counts e types cands 0 b0 b' (connect w1) w' eq_refl Hloop Hlog')
    as [Hk Ht].
  exists (Analyzer.b_counts b'). split; [reflexivity|]. split; [exact Hk|].
  rewrite Ht, Hone. subst b0. cbn. lia.
Qed.

Lemma C3_blank_skills_skipped_witness :
  (skills_blank [("id", PInt 2); ("name", PStr "Max"); ("skills", PStr "  ")] = true
   /\ exists w',
        Analyzer.loop_body (Examples.answering (LlmText "Banking")) [] 1
          [("id", PInt 2); ("name", PStr "Max"); ("skills", PStr "  ")]
          {| Analyzer.b_working := w_db Examples.fresh; Analyzer.b_created := [];
             Analyzer.b_counts := [("Banking", 0)] |} Examples.fresh
        = (None,
           {| Analyzer.b_working := w_db Examples.fresh; Analyzer.b_created := [];
              Analyzer.b_counts := [("Banking", 0)] |}, w')
        /\ only_logged Examples.fresh w')
  /\ exists counts,
       fst (Analyzer.classify_and_transfer_candidates (Examples.answering (LlmText "Banking"))
              [ [("id", PInt 1); ("name", PStr "Zoe"); ("skills", PStr "Python, SQL")];
                [("id", PInt 2); ("name", PStr "Max"); ("skills", PStr "  ")];
                [("id", PInt 3); ("name", PStr "Ann"); ("skills", PStr "Loans")] ]
              Examples.fresh)
       = Analyzer.result true "Candidate classification and transfer completed." counts
       /\ dict_keys counts = Analyzer.CATEGORIES
       /\ total counts = Z.of_nat 3 - 1.
Proof.
  destruct C3_blank_skills_skipped as [Hskip Htotal]. split.
  - split; [reflexivity|]. apply Hskip. reflexivity.
  - apply (Htotal (Examples.answering (LlmText "Banking"))
                  [ [("id", PInt 1); ("name", PStr "Zoe"); ("skills", PStr "Python, SQL")];
                    [("id", PInt 2); ("name", PStr "Max"); ("skills", PStr "  ")];
                    [("id", PInt 3); ("name", PStr "Ann"); ("skills", PStr "Loans")] ]
                  Examples.fresh).
    + reflexivity.
    + reflexivity.
    + reflexivity.
    + vm_compute. repeat constructor.
Defined.

(** ** C1: the fallback to the first category *)

Lemma logged_existsb (f : log_record -> bool) (r : log_record) (w w' : world) :
  logged r w w' -> f r = true -> existsb f (new_records w w') = true.
Proof.
  intros Hl Hf. apply existsb_exists. exists r. split; [|exact Hf].
  apply logged_new_records. exact Hl.
Qed.

Lemma appends_not_existsb (f : log_record -> bool) (w w' : world) :
  appends (fun r => f r = false) w w' -> existsb f (new_records w w') = false.
Proof.
  intros H. apply appends_new_records in H.
  induction H as [|r l Hr _ IH]; simpl; [reflexivity|]. rewrite Hr, IH. reflexivity.
Qed.

Lemma evolves_trans (w1 w2 w3 : world) : evolves w1 w2 -> evolves w2 w3 -> evolves w1 w3.
Proof.
  intros H1 H2. apply evolves_appends in H1, H2.
  exact (appends_evolves _ _ _ (appends_trans _ _ _ _ H1 H2)).
Qed.

Lemma evolves_logf (w : world) (l : log_level) (m : string) (a : list pyval) :
  evolves w (logf l m a w).
Proof.
  apply (appends_evolves (fun _ => True)). apply appends_logf; [exact I | apply appends_refl].
Qed.

Lemma length_insert_sorted (r : stored_row) (rows : list stored_row) :
  length (insert_sorted r rows) = S (length rows).
Proof.
  induction rows as [|r' rows IH]; simpl; [reflexivity|].
  destruct (fst r <? fst r'); simpl; [reflexivity|]. rewrite IH. reflexivity.
Qed.

(** A row written by [INSERT] joins the rows of the table; nothing else
    of the table changes but the sequence. *)
Lemma sql_insert_rows (name : string) (t t' : table) (cols : list string)
    (params : list pyval) (rowid : Z) :
  sql_insert name t cols params = Ret (t', rowid) ->
  exists vals,
    omap bind_param params = Ret vals
    /\ choose_rowid name t cols vals = Ret rowid
    /\ unknown_column (tbl_columns t) cols = None
    /\ t' = with_rows t (insert_sorted (rowid, map (cell_for cols vals) (tbl_columns t))
                                       (tbl_rows t))
                      (Z.max (tbl_seq t) rowid).
Proof.
  unfold sql_insert. destruct (unknown_column _ _) eqn:Hu; [discriminate|].
  destruct (omap bind_param params) as [vals|ex] eqn:Hv; [|discriminate]. simpl.
  destruct (choose_rowid name t cols vals) as [rid|ex] eqn:Hr; [|discriminate]. simpl.
  destruct (check_constraints _ _ _ _) as [[]|ex]; [|discriminate]. simpl.
  intros [= <- <-]. exists vals. auto.
Qed.

Lemma first_target :
  Analyzer.target_table Analyzer.first_category = "software_development_candidates".
Proof. reflexivity. Qed.




(** ** C4: a CSV header with a column the table lacks *)

Lemma missing_column_found (header names : list string) (col : string) :
  In col header -> str_in col names = false ->
  exists c, ResumeAgent.missing_column header names = Some c.
Proof.
  intros Hin Hno. unfold ResumeAgent.missing_column.
  destruct (find _ header) as [c|] eqn:Hf; [eauto|].
  exfalso. apply (find_none _ _ Hf) in Hin. rewrite Hno in Hin. discriminate.
Qed.




(** ** C6: insert, then query by the assigned id *)

Lemma find_column_some (cols : list column) (k : string) (c : column) :
  find_column cols k = Some c -> In c cols /\ nocase (col_name c) = nocase k.
Proof.
  unfold find_column. intros H. apply find_some in H as [Hin He].
  apply String.eqb_eq in He. auto.
Qed.

(** The column a name reads in a row: the first one so spelled. *)
Lemma find_spelled_some (cols : list column) (k : string) (c : column) :
  find (fun c => String.eqb k (col_name c)) cols = Some c -> In c cols /\ col_name c = k.
Proof.
  intros H. apply find_some in H as [Hin He]. apply String.eqb_eq in He. auto.
Qed.

Lemma find_spelled_none (cols : list column) (k : string) :
  find (fun c => String.eqb k (col_name c)) cols = None ->
  str_in k (map col_name cols) = false.
Proof.
  unfold str_in. induction cols as [|c cols IH]; simpl; [reflexivity|].
  destruct (String.eqb k (col_name c)); [discriminate | auto].
Qed.

Lemma find_spelled_in (cols : list column) (c : column) :
  In c cols ->
  exists c', find (fun c0 => String.eqb (col_name c) (col_name c0)) cols = Some c'.
Proof.
  induction cols as [|c0 cols IH]; simpl; [contradiction|].
  intros [->|Hin].
  - rewrite String.eqb_refl. eauto.
  - destruct (String.eqb (col_name c) (col_name c0)); eauto.
Qed.

Lemma fold_max_ge (z x : Z) (l : list Z) : In z (x :: l) -> z <= fold_right Z.max x l.
Proof.
  induction l as [|y l IH]; simpl.
  - intros [->|[]]. lia.
  - intros [->|[->|Hin]].
    + specialize (IH (or_introl eq_refl)). lia.
    + lia.
    + specialize (IH (or_intror Hin)). lia.
Qed.

Lemma largest_rowid_ge (t : table) (z : Z) : In z (rowids t) -> z <= largest_rowid t.
Proof.
  unfold largest_rowid. destruct (rowids t) as [|x l]; [contradiction|].
  apply fold_max_ge.
Qed.

(** The rowid an [INSERT] settles on belongs to no row of the table. *)
Lemma choose_rowid_fresh (name : string) (t : table) (cols : list string)
    (vals : list sqlval) (rowid : Z) :
  choose_rowid name t cols vals = Ret rowid ->
  forall r, In r (tbl_rows t) -> fst r <> rowid.
Proof.
  intros Hc r Hin.
  assert (Hr : In (fst r) (rowids t)) by (unfold rowids; apply in_map; exact Hin).
  assert (Hnext : fst r <> next_rowid t).
  { apply largest_rowid_ge in Hr. unfold next_rowid. destruct (tbl_autoinc t); lia. }
  unfold choose_rowid in Hc. destruct (tbl_pk t) as [pk|]; [|injection Hc as <-; exact Hnext].
  destruct (apply_affinity AffInteger <$> column_value pk cols vals) as [[|z|s]|];
    try (injection Hc as <-; exact Hnext); try discriminate.
  destruct (existsb (Z.eqb z) (rowids t)) eqn:He; [discriminate|].
  injection Hc as <-. intros Heq.
  assert (existsb (Z.eqb z) (rowids t) = true); [|congruence].
  apply existsb_exists. exists (fst r). split; [exact Hr|]. apply Z.eqb_eq. auto.
Qed.

(** What a row reads under a column name, when it holds one cell per
    column. *)
Lemma read_row_get (t : table) (rowid : Z) (f : column -> sqlval) (k : string) :
  dict_get k (read_row t (rowid, map f (tbl_columns t)))
  = match find (fun c => String.eqb k (col_name c)) (tbl_columns t) with
    | Some c => Some (read_cell t (rowid, map f (tbl_columns t)) c (f c))
    | None => None
    end.
Proof.
  unfold read_row. cbn [snd].
  generalize (read_cell t (rowid, map f (tbl_columns t))). intros g.
  induction (tbl_columns t) as [|c cols IH]; simpl; [reflexivity|].
  destruct (String.eqb k (col_name c)); [reflexivity | exact IH].
Qed.

(** When [id] is the primary key, a row reads its rowid under [id]. *)
Lemma read_row_id (t : table) (r : stored_row) (v : sqlval) :
  tbl_pk t = Some "id" ->
  dict_get "id" (read_row t r) = Some v -> v = SInt (fst r).
Proof.
  intros Hpk. unfold read_row.
  generalize (snd r). induction (tbl_columns t) as [|c cols IH]; intros cells.
  - discriminate.
  - destruct cells as [|x cells]; [discriminate|].
    cbn [combine map dict_get fst snd].
    destruct (String.eqb "id" (col_name c)) eqn:E.
    + unfold read_cell, is_pk. rewrite Hpk, E. intros H. injection H as H.
      symmetry. exact H.
    + apply IH.
Qed.

Lemma filter_insert_sorted (test : stored_row -> bool) (x : stored_row)
    (rows : list stored_row) :
  test x = true -> (forall y, In y rows -> test y = false) ->
  List.filter test (insert_sorted x rows) = [x].
Proof.
  intros Hx. induction rows as [|r rows IH]; intros Hrows; simpl.
  - rewrite Hx. reflexivity.
  - assert (Hnone : List.filter test (r :: rows) = []).
    { clear IH. induction (r :: rows) as [|y l IHl]; simpl; [reflexivity|].
      rewrite (Hrows y (or_introl eq_refl)). apply IHl.
      intros z Hz. apply Hrows. right. exact Hz. }
    destruct (fst x <? fst r); simpl.
    + rewrite Hx. simpl in Hnone. rewrite Hnone. reflexivity.
    + rewrite (Hrows r (or_introl eq_refl)). apply IH.
      intros y Hy. apply Hrows. right. exact Hy.
Qed.

(** [dict(row)] over selected names: a selected name reads the row, any
    other name reads nothing. *)
Lemma project_get (names : list string) (row : dict sqlval) (k : string) :
  dict_get k (project names row)
  = if str_in k names then py_of_sql <$> dict_get k row else None.
Proof.
  unfold project.
  assert (Hgen : forall d,
            dict_get k (fold_left
                          (fun d n => match dict_get n row with
                                      | Some v => dict_set n (py_of_sql v) d
                                      | None => d
                                      end) names d)
            = if str_in k names
              then match dict_get k row with
                   | Some v => Some (py_of_sql v)
                   | None => dict_get k d
                   end
              else dict_get k d).
  { induction names as [|n names IH]; intros d; simpl; [reflexivity|].
    rewrite IH. unfold str_in in *. simpl.
    destruct (String.eqb k n) eqn:E; simpl.
    - apply String.eqb_eq in E. subst n.
      destruct (dict_get k row) as [v|] eqn:Hv.
      + destruct (existsb (String.eqb k) names); [reflexivity | apply dict_get_set_eq].
      + destruct (existsb (String.eqb k) names); reflexivity.
    - assert (Hne : n <> k) by (intros ->; rewrite String.eqb_refl in E; discriminate).
      destruct (dict_get n row) as [vn|]; [rewrite (dict_get_set_ne _ _ _ _ Hne)|];
        reflexivity. }
  rewrite Hgen. destruct (str_in k names); [|reflexivity].
  destruct (dict_get k row); reflexivity.
Qed.

(** The bound parameters, looked up by column name. *)
Lemma bound_get (data : dict pyval) (vals : list sqlval) (k : string) :
  omap bind_param (dict_values data) = Ret vals ->
  dict_get k (combine (dict_keys data) vals)
  = match dict_get k data with
    | Some v => match bind_param v with Ret sv => Some sv | Raise _ => None end
    | None => None
    end
  /\ (forall v, dict_get k data = Some v -> exists sv, bind_param v = Ret sv).
Proof.
  unfold dict_values, dict_keys.
  revert vals. induction data as [|[k0 v0] data IH]; intros vals; cbn [map omap fst snd].
  - intros [= <-]. split; [reflexivity | intros v Hv; discriminate Hv].
  - destruct (bind_param v0) as [sv0|ex] eqn:Hb; [|intros H; discriminate H].
    destruct (omap bind_param (map snd data)) as [vs|ex] eqn:Ho; [|intros H; discriminate H].
    intros [= <-]. cbn [combine dict_get]. destruct (String.eqb k k0).
    + rewrite Hb. split; [reflexivity|]. intros v [= <-]. eauto.
    + apply (IH vs). reflexivity.
Qed.

Lemma dict_get_keys {V : Type} (k : string) (d : dict V) (v : V) :
  dict_get k d = Some v -> str_in k (dict_keys d) = true.
Proof.
  unfold str_in. induction d as [|[k' v'] d IH]; simpl; [discriminate|].
  destruct (String.eqb k k'); simpl; auto.
Qed.

Lemma keys_get {V : Type} (k : string) (d : dict V) :
  str_in k (dict_keys d) = true -> exists v, dict_get k d = Some v.
Proof.
  unfold str_in, dict_keys. induction d as [|[k' v'] d IH]; simpl; [discriminate|].
  destruct (String.eqb k k'); simpl; eauto.
Qed.

(** Among names of which no two differ in case only, a name is looked
    up as it is spelled. *)
Lemma column_value_spelled (k : string) (cols : list string) (vals : list sqlval) :
  (forall k', In k' cols -> nocase k' = nocase k -> k' = k) ->
  column_value k cols vals = dict_get k (combine cols vals).
Proof.
  unfold column_value. revert vals.
  induction cols as [|c cols IH]; intros vals Hsp; [reflexivity|].
  destruct vals as [|v vals]; [reflexivity|].
  cbn [map combine dict_get].
  destruct (String.eqb (nocase k) (nocase c)) eqn:E.
  - apply String.eqb_eq in E. rewrite (Hsp c (or_introl eq_refl) (eq_sym E)).
    rewrite String.eqb_refl. reflexivity.
  - destruct (String.eqb k c) eqn:E'.
    + apply String.eqb_eq in E'. subst c. rewrite String.eqb_refl in E. discriminate E.
    + apply IH. intros k' Hin. apply Hsp. right. exact Hin.
Qed.

Lemma distinct_columns_spelled (t : table) (c c' : column) :
  distinct_columns t -> In c (tbl_columns t) -> In c' (tbl_columns t) ->
  nocase (col_name c') = nocase (col_name c) -> col_name c' = col_name c.
Proof.
  unfold distinct_columns. induction (tbl_columns t) as [|c0 cols IH]; [contradiction|].
  cbn [map]. intros Hnd Hc Hc' Heq. apply NoDup_cons in Hnd as [Hnot Hnd].
  assert (Hmem : forall x, In x cols ->
            nocase (col_name x) ∈ map (fun c => nocase (col_name c)) cols).
  { intros x Hx. apply list_elem_of_In. apply (in_map (fun c => nocase (col_name c))).
    exact Hx. }
  destruct Hc as [->|Hc], Hc' as [->|Hc'].
  - reflexivity.
  - exfalso. apply Hnot. rewrite <- Heq. apply Hmem. exact Hc'.
  - exfalso. apply Hnot. rewrite Heq. apply Hmem. exact Hc.
  - apply IH; assumption.
Qed.

Lemma in_names (cols : list column) (k : string) :
  str_in k (map col_name cols) = true -> exists c, In c cols /\ col_name c = k.
Proof.
  intros H. apply str_in_In in H. apply in_map_iff in H as (c & Hn & Hin). eauto.
Qed.

(** A value of a type the column stores as given comes back as given. *)
Lemma stored_as_given_back (c : column) (v : pyval) (sv : sqlval) :
  stored_as_given c v -> bind_param v = Ret sv ->
  py_of_sql (apply_affinity (column_affinity c) sv) = v.
Proof.
  destruct v as [|b|z|s|l|d]; cbn [stored_as_given bind_param].
  - intros _ [= <-]. destruct (column_affinity c); reflexivity.
  - contradiction.
  - intros [Hz Ha]. rewrite Hz. intros [= <-].
    destruct Ha as [->|[->| ->]]; reflexivity.
  - intros Ha [= <-]. destruct Ha as [->| ->]; reflexivity.
  - contradiction.
  - contradiction.
Qed.

Lemma insert_data_ok (table_name : string) (data : dict pyval) (w w' : world)
    (msg : string) (row_id : Z) :
  ResumeAgent.insert_data table_name data w
  = (Ret (PDict [("success", PBool true); ("message", PStr msg); ("row_id", PInt row_id)]),
     w') ->
  exists t t',
    lookup_table (w_db w) table_name = Some t
    /\ plain_ident table_name = true
    /\ sql_insert table_name t (dict_keys data) (dict_values data) = Ret (t', row_id)
    /\ w' = commit (store_table table_name t' (w_db w)) (connect w).
Proof.
  unfold ResumeAgent.insert_data, ResumeAgent.failure.
  destruct data as [|kv data]; [intros H; discriminate H|].
  set (d := kv :: data). cbn [w_db connect].
  unfold find_table. destruct (plain_ident table_name) eqn:Hp;
    [|cbn [obind is_sqlite_error sql_error]; intros H; discriminate H].
  destruct (lookup_table (w_db w) table_name) as [t|] eqn:Ht;
    [|cbn [obind is_sqlite_error sql_error]; intros H; discriminate H].
  cbn [obind].
  destruct (ResumeAgent.plain_columns (dict_keys d)) as [[]|ex] eqn:Hc; cbn [obind].
  - destruct (sql_insert table_name t (dict_keys d) (dict_values d)) as [[t' rid]|ex] eqn:Hi.
    + intros H. injection H as _ Hrid Hw. subst rid w'. exists t, t'. auto.
    + destruct (is_sqlite_error ex); intros H; discriminate H.
  - destruct (is_sqlite_error ex); intros H; discriminate H.
Qed.

(** C6 (amended).  Let [id], so spelled, be the INTEGER PRIMARY KEY of
    the table, and let the keys of the data mapping be names of columns
    as the table spells them, every column but [id] among them, with
    values of a type the column stores as given.  If [insert_data]
    reports success with a row id, the query of the same table for all
    columns with an exact-match condition on that id returns exactly
    one row, and the row holds under every key what the data mapping
    extended with the assigned id holds. *)
Theorem C6_insert_then_query_by_id
    (table_name : string) (data : dict pyval) (w w' : world) (t : table)
    (condition : string) (row_id : Z) :
  lookup_table (w_db w) table_name = Some t ->
  id_is_primary_key t ->
  distinct_columns t ->
  (forall c, In c (tbl_columns t) -> col_name c <> "id" ->
             str_in (col_name c) (dict_keys data) = true) ->
  (forall k, str_in k (dict_keys data) = true ->
             str_in k (map col_name (tbl_columns t)) = true) ->
  (forall k v c, dict_get k data = Some v -> In c (tbl_columns t) -> col_name c = k ->
                 k <> "id" -> stored_as_given c v) ->
  ResumeAgent.insert_data table_name data w
  = (Ret (PDict [("success", PBool true);
                 ("message", PStr ("Data inserted successfully. Row ID: " +:+ pretty row_id));
                 ("row_id", PInt row_id)]),
     w') ->
  parse_condition condition = Some (CEq "id" (SInt row_id)) ->
  exists row,
    fst (ResumeAgent.query_db_table table_name "*" condition w') = Ret (PList [PDict row])
    /\ same_mapping row (dict_set "id" (PInt row_id) data).
Proof.
  intros Ht [Hpk (cid & Hcid & Hidname & Haff)] Hdist Hcover Hkeys Hgiven Hins Hcond.
  apply insert_data_ok in Hins as (t0 & t' & Ht0 & Hplain & Hinsert & ->).
  rewrite Ht in Ht0. injection Ht0 as <-.
  apply sql_insert_rows in Hinsert as (vals & Hvals & Hrowid & Hunknown & ->).
  set (cells := map (cell_for (dict_keys data) vals) (tbl_columns t)).
  set (t' := with_rows t _ _).
  assert (Hfresh := choose_rowid_fresh _ _ _ _ _ Hrowid).
  pose proof (find_column_some _ _ _ Hcid) as [Hcin _].
  assert (Hnew : forall k,
            dict_get k (read_row t' (row_id, cells))
            = match find (fun c => String.eqb k (col_name c)) (tbl_columns t) with
              | Some c => Some (if String.eqb "id" (col_name c) then SInt row_id
                                else cell_for (dict_keys data) vals c)
              | None => None
              end).
  { intros k. pose proof (read_row_get t' row_id (cell_for (dict_keys data) vals) k) as H.
    change (tbl_columns t') with (tbl_columns t) in H. fold cells in H. rewrite H.
    destruct (find _ (tbl_columns t)) as [c|]; [|reflexivity].
    unfold read_cell, is_pk. change (tbl_pk t') with (tbl_pk t). rewrite Hpk. reflexivity. }
  assert (Hidrow : dict_get "id" (read_row t' (row_id, cells)) = Some (SInt row_id)).
  { rewrite Hnew. destruct (find_spelled_in _ _ Hcin) as [c0 Hc0]. rewrite Hidname in Hc0.
    rewrite Hc0. apply find_spelled_some in Hc0 as [_ ->]. reflexivity. }
  exists (project (map col_name (tbl_columns t)) (read_row t' (row_id, cells))).
  split.
  - unfold ResumeAgent.query_db_table.
    destruct condition as [|a condition']; [discriminate Hcond|].
    remember (String a condition') as condition eqn:Heqc.
    replace (is_empty condition) with false by (subst condition; reflexivity).
    unfold sql_select, find_table. rewrite Hplain. cbn [w_db connect commit].
    rewrite lookup_store_eq. cbn [obind].
    unfold select_list.
    replace (String.eqb (trim sql_space "*") "*") with true by reflexivity.
    cbn [obind]. unfold where_clause. rewrite Hcond. unfold resolve_cond.
    change (tbl_columns t') with (tbl_columns t). rewrite Hcid, Haff, Hidname.
    replace (apply_affinity AffInteger (SInt row_id)) with (SInt row_id) by reflexivity.
    cbn [obind fst]. change (tbl_rows t') with (insert_sorted (row_id, cells) (tbl_rows t)).
    rewrite filter_insert_sorted.
    + reflexivity.
    + rewrite Hidrow. cbn. rewrite Z.eqb_refl. reflexivity.
    + intros y Hy. destruct (dict_get "id" (read_row t' y)) as [v|] eqn:Hv; [|reflexivity].
      apply read_row_id in Hv; [|exact Hpk]. subst v. cbn.
      apply Z.eqb_neq. apply Hfresh. exact Hy.
  - intros k. rewrite project_get, Hnew.
    destruct (find (fun c => String.eqb k (col_name c)) (tbl_columns t)) as [c|] eqn:Hc.
    + apply find_spelled_some in Hc as [Hin Hname].
      assert (Hk : str_in k (map col_name (tbl_columns t)) = true).
      { unfold str_in. apply existsb_exists. exists (col_name c). split.
        - apply in_map. exact Hin.
        - apply String.eqb_eq. auto. }
      rewrite Hk. cbn [fmap option_fmap option_map]. rewrite Hname.
      destruct (String.eqb "id" k) eqn:Ek.
      { apply String.eqb_eq in Ek. rewrite <- Ek. rewrite dict_get_set_eq. reflexivity. }
      assert (Hne : "id" <> k) by (intros <-; discriminate Ek).
      rewrite (dict_get_set_ne _ _ _ _ Hne).
      assert (Hcn : col_name c <> "id") by congruence.
      destruct (keys_get _ _ (Hcover c Hin Hcn)) as [v Hv]. rewrite Hname in Hv.
      destruct (bound_get data vals k Hvals) as [Hb Hsv].
      destruct (Hsv v Hv) as [sv Hbind].
      unfold cell_for. rewrite Hname.
      rewrite (column_value_spelled k (dict_keys data) vals).
      2: { intros k' Hk' Hfold.
           assert (Hk'in : str_in k' (dict_keys data) = true).
           { unfold str_in. apply existsb_exists. exists k'. split;
               [exact Hk' | apply String.eqb_refl]. }
           destruct (in_names _ _ (Hkeys k' Hk'in)) as (c' & Hc'in & Hc'name).
           rewrite <- Hc'name, <- Hname.
           apply (distinct_columns_spelled t c c' Hdist Hin Hc'in). congruence. }
      rewrite Hb, Hv, Hbind. f_equal.
      apply stored_as_given_back; [|exact Hbind].
      apply (Hgiven k v c Hv Hin Hname). congruence.
    + apply find_spelled_none in Hc. rewrite Hc.
      assert (Hne : "id" <> k).
      { intros <-. destruct (find_spelled_in _ _ Hcin) as [c0 Hc0]. rewrite Hidname in Hc0.
        apply find_spelled_some in Hc0 as [Hc0in Hc0name].
        assert (str_in "id" (map col_name (tbl_columns t)) = true); [|congruence].
        unfold str_in. apply existsb_exists. exists (col_name c0). split;
          [apply in_map; exact Hc0in | apply String.eqb_eq; auto]. }
      rewrite (dict_get_set_ne _ _ _ _ Hne).
      destruct (dict_get k data) as [v|] eqn:Hv; [|reflexivity].
      apply dict_get_keys, Hkeys in Hv. congruence.
Qed.

Lemma C6_insert_then_query_by_id_witness :
  exists row,
    fst (ResumeAgent.query_db_table "todos" "*" "id = 1"
           (snd (ResumeAgent.insert_data "todos" Examples.call_zoe Examples.with_todos)))
    = Ret (PList [PDict row])
    /\ same_mapping row (dict_set "id" (PInt 1) Examples.call_zoe).
Proof.
  assert (Ht : lookup_table (w_db Examples.with_todos) "todos" = Some Examples.todos_table)
    by (vm_compute; reflexivity).
  assert (Hid : id_is_primary_key Examples.todos_table).
  { split; [reflexivity|]. eexists. split; [reflexivity|]. split; reflexivity. }
  assert (Hdist : distinct_columns Examples.todos_table).
  { unfold distinct_columns. cbn.
    repeat (apply NoDup_cons; split;
            [intros H; repeat (apply elem_of_cons in H as [H|H]; [discriminate H|]);
             inversion H|]).
    constructor. }
  assert (Hins : ResumeAgent.insert_data "todos" Examples.call_zoe Examples.with_todos
                 = (Ret (PDict [("success", PBool true);
                                ("message", PStr ("Data inserted successfully. Row ID: "
                                                  +:+ pretty 1));
                                ("row_id", PInt 1)]),
                    snd (ResumeAgent.insert_data "todos" Examples.call_zoe Examples.with_todos)))
    by (vm_compute; reflexivity).
  assert (Hc : parse_condition "id = 1" = Some (CEq "id" (SInt 1))) by reflexivity.
  apply (C6_insert_then_query_by_id "todos" Examples.call_zoe Examples.with_todos _
           Examples.todos_table "id = 1" 1 Ht Hid Hdist); [| | |exact Hins|exact Hc].
  - intros c Hin Hne. simpl in Hin.
    destruct Hin as [<-|[<-|[<-|[<-|[]]]]]; try reflexivity. contradiction Hne. reflexivity.
  - intros k Hk. unfold Examples.call_zoe, dict_keys, str_in in Hk. cbn [map fst existsb] in Hk.
    repeat (apply orb_prop in Hk as [Hk|Hk]; [apply String.eqb_eq in Hk; subst k; reflexivity|]).
    discriminate Hk.
  - intros k v c Hk Hin Hname Hne. unfold Examples.call_zoe in Hk. cbn [dict_get] in Hk.
    simpl in Hin.
    destruct Hin as [<-|[<-|[<-|[<-|[]]]]]; cbn [col_name Examples.col] in Hname; subst k;
      cbn in Hk; try discriminate Hk; try (contradiction Hne; reflexivity);
      injection Hk as <-; cbn; auto.
Defined.

(** Four ways in which the row queried back is not the mapping extended
    with the id.  Ann is inserted with a name and an email only: the
    row carries all eleven columns, the ones left out reading [None].
    A note is inserted into a table without a key: the row id is the
    rowid, not the [id] of the note, and the query finds no row.  A
    task is given as the number 5: the column of text stores ['5'].  A
    task is given under the key [Task]: the row has it under [task],
    as the table spells the column. *)
Lemma C6_counterexample :
  (fst (ResumeAgent.insert_data "candidates" Examples.ann Examples.fresh)
   = Ret (PDict [("success", PBool true);
                 ("message", PStr "Data inserted successfully. Row ID: 1");
                 ("row_id", PInt 1)])
   /\ parse_condition "id = 1" = Some (CEq "id" (SInt 1))
   /\ fst (ResumeAgent.query_db_table "candidates" "*" "id = 1"
             (snd (ResumeAgent.insert_data "candidates" Examples.ann Examples.fresh)))
      = Ret (PList [PDict [ ("id", PInt 1); ("name", PStr "Ann Lee");
                            ("email", PStr "ann@example.com"); ("phone", PNone);
                            ("current_role", PNone); ("experience_years", PNone);
                            ("skills", PNone); ("education", PNone); ("location", PNone);
                            ("linkedin_profile", PNone); ("last_updated", PNone) ]])
   /\ ~ same_mapping
          [ ("id", PInt 1); ("name", PStr "Ann Lee");
            ("email", PStr "ann@example.com"); ("phone", PNone);
            ("current_role", PNone); ("experience_years", PNone);
            ("skills", PNone); ("education", PNone); ("location", PNone);
            ("linkedin_profile", PNone); ("last_updated", PNone) ]
          (dict_set "id" (PInt 1) Examples.ann))
  /\ (fst (ResumeAgent.insert_data "notes" Examples.note Examples.with_notes)
      = Ret (PDict [("success", PBool true);
                    ("message", PStr "Data inserted successfully. Row ID: 1");
                    ("row_id", PInt 1)])
      /\ fst (ResumeAgent.query_db_table "notes" "*" "id = 1"
                (snd (ResumeAgent.insert_data "notes" Examples.note Examples.with_notes)))
         = Ret (PList []))
  /\ (fst (ResumeAgent.insert_data "todos" Examples.numbered_task Examples.with_todos)
      = Ret (PDict [("success", PBool true);
                    ("message", PStr "Data inserted successfully. Row ID: 1");
                    ("row_id", PInt 1)])
      /\ fst (ResumeAgent.query_db_table "todos" "*" "id = 1"
                (snd (ResumeAgent.insert_data "todos" Examples.numbered_task
                        Examples.with_todos)))
         = Ret (PList [PDict [ ("id", PInt 1); ("user_id", PInt 1); ("task", PStr "5");
                               ("completed", PInt 0) ]])
      /\ ~ same_mapping
             [ ("id", PInt 1); ("user_id", PInt 1); ("task", PStr "5");
               ("completed", PInt 0) ]
             (dict_set "id" (PInt 1) Examples.numbered_task))
  /\ (fst (ResumeAgent.insert_data "todos" Examples.capital_task Examples.with_todos)
      = Ret (PDict [("success", PBool true);
                    ("message", PStr "Data inserted successfully. Row ID: 1");
                    ("row_id", PInt 1)])
      /\ fst (ResumeAgent.query_db_table "todos" "*" "id = 1"
                (snd (ResumeAgent.insert_data "todos" Examples.capital_task
                        Examples.with_todos)))
         = Ret (PList [PDict [ ("id", PInt 1); ("user_id", PInt 1);
                               ("task", PStr "Call Zoe"); ("completed", PInt 0) ]])
      /\ ~ same_mapping
             [ ("id", PInt 1); ("user_id", PInt 1); ("task", PStr "Call Zoe");
               ("completed", PInt 0) ]
             (dict_set "id" (PInt 1) Examples.capital_task)).
Proof.
  split; [|split; [|split]].
  - split; [vm_compute; reflexivity|]. split; [reflexivity|].
    split; [vm_compute; reflexivity|].
    intros H. specialize (H "phone"). vm_compute in H. discriminate H.
  - split; vm_compute; reflexivity.
  - split; [vm_compute; reflexivity|]. split; [vm_compute; reflexivity|].
    intros H. specialize (H "task"). vm_compute in H. discriminate H.
  - split; [vm_compute; reflexivity|]. split; [vm_compute; reflexivity|].
    intros H. specialize (H "task"). vm_compute in H. discriminate H.
Qed.

(* ================================================================== *)
(** * Further properties of the servers                                 *)
(* ================================================================== *)

(** ** The mutations of the resume-agent server *)

(** X1.  [delete_data] with a condition that is empty or whitespace only
    returns the failure carrying the safety message and leaves the world
    as it was: no connection is opened and no row is deleted. *)
Theorem X1_delete_rejects_blank_condition (table_name condition : string) (w : world) :
  all_space condition = true ->
  ResumeAgent.delete_data table_name condition w
  = (Ret (PDict [("success", PBool false);
                 ("message", PStr "Deletion condition cannot be empty. This is a safety measure to prevent accidental deletion of all rows.")]),
     w).
Proof.
  intros Hc. unfold ResumeAgent.delete_data.
  rewrite strip_empty_iff, Hc, orb_true_r. reflexivity.
Qed.

Lemma X1_delete_rejects_blank_condition_witness :
  all_space "   " = true
  /\ ResumeAgent.delete_data "candidates" "   " Examples.source_only
     = (Ret (PDict [("success", PBool false);
                    ("message", PStr "Deletion condition cannot be empty. This is a safety measure to prevent accidental deletion of all rows.")]),
        Examples.source_only).
Proof.
  assert (Hc : all_space "   " = true) by reflexivity.
  split; [exact Hc|].
  exact (X1_delete_rejects_blank_condition "candidates" "   " Examples.source_only Hc).
Defined.

Lemma local_change_refl (name : string) (d : gmap string table) : local_change name d d.
Proof. left. reflexivity. Qed.

Lemma sql_insert_schema (name : string) (t t' : table) (cols : list string)
    (params : list pyval) (rowid : Z) :
  sql_insert name t cols params = Ret (t', rowid) ->
  tbl_columns t' = tbl_columns t /\ tbl_pk t' = tbl_pk t.
Proof. intros H. apply sql_insert_rows in H as (vals & _ & _ & _ & ->). split; reflexivity. Qed.

Lemma sql_update_schema (name : string) (t t' : table) (cols : list string)
    (params : list pyval) (condition : string) (n : Z) :
  sql_update name t cols params condition = Ret (t', n) ->
  tbl_columns t' = tbl_columns t /\ tbl_pk t' = tbl_pk t.
Proof.
  unfold sql_update. destruct (unknown_column _ _); [intros H; discriminate H|].
  destruct (where_clause t (Some condition)) as [test|ex]; [|intros H; discriminate H].
  cbn [obind]. destruct (omap bind_param params) as [vals|ex]; [|intros H; discriminate H].
  cbn [obind]. destruct (update_rows _ _ _ _ _ _) as [res|ex]; [|intros H; discriminate H].
  cbn [obind]. intros H. injection H as <- _. split; reflexivity.
Qed.

Lemma sql_delete_ok (t t' : table) (condition : string) (n : Z) :
  sql_delete t condition = Ret (t', n) ->
  exists test,
    where_clause t (Some condition) = Ret test
    /\ t' = with_rows t (List.filter (fun r => negb (test r)) (tbl_rows t)) (tbl_seq t)
    /\ n = Z.of_nat (length (List.filter test (tbl_rows t))).
Proof.
  unfold sql_delete. destruct (where_clause t (Some condition)) as [test|ex];
    [|intros H; discriminate H].
  cbn [obind]. intros H. injection H as <- <-. eauto.
Qed.

(** X2.  Called for a table of the user's (a name that is none of the
    engine's [sqlite_] names), [insert_data], [update_data] and
    [delete_data] change at most the table they name, which keeps its
    columns and its key, and with it the counter the table has in
    [sqlite_sequence]; and a call that does not report success leaves
    the whole database as it was.  (Statements are read in the
    modelled fragment: plain identifiers for the table and the columns,
    conditions [1=1] or [column = literal].) *)
Theorem X2_mutations_are_local_and_atomic :
  (forall (table_name : string) (data : dict pyval) (w : world),
      reserved_name table_name = false ->
      local_change table_name (w_db w)
        (w_db (snd (ResumeAgent.insert_data table_name data w)))
      /\ (succeeded (fst (ResumeAgent.insert_data table_name data w)) = false ->
          w_db (snd (ResumeAgent.insert_data table_name data w)) = w_db w))
  /\ (forall (table_name : string) (new_values : dict pyval) (condition : string) (w : world),
        reserved_name table_name = false ->
        local_change table_name (w_db w)
          (w_db (snd (ResumeAgent.update_data table_name new_values condition w)))
        /\ (succeeded (fst (ResumeAgent.update_data table_name new_values condition w)) = false ->
            w_db (snd (ResumeAgent.update_data table_name new_values condition w)) = w_db w))
  /\ (forall (table_name condition : string) (w : world),
        reserved_name table_name = false ->
        local_change table_name (w_db w)
          (w_db (snd (ResumeAgent.delete_data table_name condition w)))
        /\ (succeeded (fst (ResumeAgent.delete_data table_name condition w)) = false ->
            w_db (snd (ResumeAgent.delete_data table_name condition w)) = w_db w)).
Proof.
  split; [|split].
  - intros table_name data w _. unfold ResumeAgent.insert_data.
    destruct data as [|kv data]; [split; [apply local_change_refl | reflexivity]|].
    set (d := kv :: data). cbn [w_db connect].
    destruct (find_table (w_db w) table_name) as [t|ex] eqn:Ht; cbn [obind].
    + apply find_table_ok in Ht.
      destruct (ResumeAgent.plain_columns (dict_keys d)) as [[]|ex]; cbn [obind].
      * destruct (sql_insert table_name t (dict_keys d) (dict_values d))
          as [[t' rid]|ex] eqn:Hi.
        -- apply sql_insert_schema in Hi as [Hc Hp]. cbn [fst snd w_db commit]. split.
           ++ right. exists t, t'. auto.
           ++ intros H. discriminate H.
        -- destruct (is_sqlite_error ex); (split; [apply local_change_refl | reflexivity]).
      * destruct (is_sqlite_error ex); (split; [apply local_change_refl | reflexivity]).
    + destruct (is_sqlite_error ex); (split; [apply local_change_refl | reflexivity]).
  - intros table_name new_values condition w _. unfold ResumeAgent.update_data.
    destruct new_values as [|kv nv]; [split; [apply local_change_refl | reflexivity]|].
    set (d := kv :: nv).
    destruct (is_empty condition || is_empty (strip condition));
      [split; [apply local_change_refl | reflexivity]|].
    cbn [w_db connect].
    destruct (find_table (w_db w) table_name) as [t|ex] eqn:Ht; cbn [obind].
    + apply find_table_ok in Ht.
      destruct (ResumeAgent.plain_columns (dict_keys d)) as [[]|ex]; cbn [obind].
      * destruct (sql_update table_name t (dict_keys d) (dict_values d) condition)
          as [[t' n]|ex] eqn:Hu.
        -- apply sql_update_schema in Hu as [Hc Hp]. cbn [fst snd w_db commit]. split.
           ++ right. exists t, t'. auto.
           ++ intros H. discriminate H.
        -- destruct (is_sqlite_error ex); (split; [apply local_change_refl | reflexivity]).
      * destruct (is_sqlite_error ex); (split; [apply local_change_refl | reflexivity]).
    + destruct (is_sqlite_error ex); (split; [apply local_change_refl | reflexivity]).
  - intros table_name condition w _. unfold ResumeAgent.delete_data.
    destruct (is_empty condition || is_empty (strip condition));
      [split; [apply local_change_refl | reflexivity]|].
    cbn [w_db connect].
    destruct (find_table (w_db w) table_name) as [t|ex] eqn:Ht; cbn [obind].
    + apply find_table_ok in Ht.
      destruct (sql_delete t condition) as [[t' n]|ex] eqn:Hd.
      * apply sql_delete_ok in Hd as (test & _ & -> & _). cbn [fst snd w_db commit]. split.
        -- right. eexists t, _. split; [exact Ht|]. split; [reflexivity|].
           split; reflexivity.
        -- intros H. discriminate H.
      * destruct (is_sqlite_error ex); (split; [apply local_change_refl | reflexivity]).
    + destruct (is_sqlite_error ex); (split; [apply local_change_refl | reflexivity]).
Qed.

Lemma insert_sorted_perm (r : stored_row) (rows : list stored_row) :
  Permutation (insert_sorted r rows) (r :: rows).
Proof.
  induction rows as [|r' rows IH]; simpl; [reflexivity|].
  destruct (fst r <? fst r'); [reflexivity|].
  rewrite IH. apply perm_swap.
Qed.



Lemma delete_data_ok (table_name condition : string) (w w' : world)
    (msg : string) (n : Z) :
  ResumeAgent.delete_data table_name condition w
  = (Ret (PDict [("success", PBool true); ("message", PStr msg); ("rows_deleted", PInt n)]),
     w') ->
  exists t test,
    is_empty condition = false
    /\ plain_ident table_name = true
    /\ lookup_table (w_db w) table_name = Some t
    /\ where_clause t (Some condition) = Ret test
    /\ n = Z.of_nat (length (List.filter test (tbl_rows t)))
    /\ w' = commit (store_table table_name
                       (with_rows t (List.filter (fun r => negb (test r)) (tbl_rows t))
                                  (tbl_seq t)) (w_db w))
                   (connect w).
Proof.
  unfold ResumeAgent.delete_data, ResumeAgent.failure.
  destruct (is_empty condition) eqn:He; [intros H; discriminate H|]. cbn [orb].
  destruct (is_empty (strip condition)); [intros H; discriminate H|].
  cbn [w_db connect]. unfold find_table.
  destruct (plain_ident table_name) eqn:Hp;
    [|cbn [obind is_sqlite_error sql_error]; intros H; discriminate H].
  destruct (lookup_table (w_db w) table_name) as [t|] eqn:Ht;
    [|cbn [obind is_sqlite_error sql_error]; intros H; discriminate H].
  cbn [obind].
  destruct (sql_delete t condition) as [[t' n']|ex] eqn:Hd.
  - apply sql_delete_ok in Hd as (test & Hw & -> & ->).
    intros H. injection H as _ Hn Hw'. subst n w'. exists t, test.
    split; [reflexivity|]. split; [reflexivity|]. split; [reflexivity|].
    split; [exact Hw|]. split; reflexivity.
  - destruct (is_sqlite_error ex); intros H; discriminate H.
Qed.

Lemma filter_split_length {A : Type} (f : A -> bool) (l : list A) :
  length l = (length (List.filter f l) + length (List.filter (fun x => negb (f x)) l))%nat.
Proof.
  induction l as [|x l IH]; simpl; [reflexivity|].
  destruct (f x); simpl; lia.
Qed.

Lemma filter_filter_negb {A : Type} (f : A -> bool) (l : list A) :
  List.filter f (List.filter (fun x => negb (f x)) l) = [].
Proof.
  induction l as [|x l IH]; simpl; [reflexivity|].
  destruct (f x) eqn:E; simpl; [exact IH|]. rewrite E. exact IH.
Qed.



(** ** The CSV import *)

Lemma executemany_rows (name : string) (cols : list string) (rows : list (list pyval)) :
  forall t t',
    ResumeAgent.executemany name t cols rows = Ret t' ->
    length (tbl_rows t') = (length (tbl_rows t) + length rows)%nat
    /\ tbl_columns t' = tbl_columns t /\ tbl_pk t' = tbl_pk t.
Proof.
  induction rows as [|r rows IH]; intros t t'; simpl.
  - intros H. injection H as <-. repeat split. lia.
  - destruct (sql_insert name t cols r) as [[t1 rid]|ex] eqn:Hi; [|intros H; discriminate H].
    cbn [obind fst]. intros H. apply IH in H as (Hlen & Hc & Hp).
    pose proof (sql_insert_schema _ _ _ _ _ _ Hi) as [Hc1 Hp1].
    apply sql_insert_rows in Hi as (vals & _ & _ & _ & ->).
    cbn [tbl_rows with_rows] in Hlen. rewrite length_insert_sorted in Hlen.
    repeat split; [lia | congruence | congruence].
Qed.

Lemma data_rows_length (cols : list string) (s : csv_stream) :
  forall rows, ResumeAgent.data_rows cols s = Ret rows -> length rows = nonempty_rows s.
Proof.
  induction s as [|fields rest IH|m]; intros rows; simpl.
  - intros H. injection H as <-. reflexivity.
  - destruct fields as [|f fields]; [apply IH|].
    destruct (ResumeAgent.data_rows cols rest) as [rs|ex]; [|intros H; discriminate H].
    cbn [obind]. intros H. injection H as <-. simpl. f_equal. apply IH. reflexivity.
  - intros H. discriminate H.
Qed.

(** The import, as a case analysis: it fails without a commit, finds no
    data row, or commits the table with every data row inserted. *)
Lemma insert_data_from_csv_cases (e : env) (table_name csv_content : string) (w : world) :
  (succeeded (Ret (fst (ResumeAgent.insert_data_from_csv e table_name csv_content w))) = false
   /\ w_db (snd (ResumeAgent.insert_data_from_csv e table_name csv_content w)) = w_db w)
  \/ (exists header rest,
         csv_reader e csv_content = CsvRow header rest /\ nonempty_rows rest = 0%nat
         /\ fst (ResumeAgent.insert_data_from_csv e table_name csv_content w)
            = ResumeAgent.csv_result true "CSV content parsed but no rows found to insert." 0
         /\ w_db (snd (ResumeAgent.insert_data_from_csv e table_name csv_content w)) = w_db w)
  \/ (exists header rest t t',
         csv_reader e csv_content = CsvRow header rest
         /\ lookup_table (w_db w) table_name = Some t
         /\ length (tbl_rows t') = (length (tbl_rows t) + nonempty_rows rest)%nat
         /\ tbl_columns t' = tbl_columns t /\ tbl_pk t' = tbl_pk t
         /\ fst (ResumeAgent.insert_data_from_csv e table_name csv_content w)
            = ResumeAgent.csv_result true
                ("Successfully inserted " +:+ pretty (Z.of_nat (nonempty_rows rest))
                 +:+ " row(s) into table '" +:+ table_name +:+ "'.")
                (Z.of_nat (nonempty_rows rest))
         /\ w_db (snd (ResumeAgent.insert_data_from_csv e table_name csv_content w))
            = store_table table_name t' (w_db w)).
Proof.
  assert (Hfail : forall ex, succeeded (Ret (ResumeAgent.csv_failure ex)) = false).
  { intros ex. unfold ResumeAgent.csv_failure.
    destruct (is_sqlite_error ex); [reflexivity|]. destruct (is_value_error ex); reflexivity. }
  unfold ResumeAgent.insert_data_from_csv.
  destruct (is_empty (strip csv_content)); [left; split; reflexivity|].
  destruct (csv_reader e csv_content) as [|header rest|m] eqn:Hr;
    [left; split; [apply Hfail | reflexivity]| |left; split; [apply Hfail | reflexivity]].
  destruct header as [|h header']; [left; split; [apply Hfail | reflexivity]|].
  set (header := h :: header') in *.
  destruct (ResumeAgent.schema_columns table_name (connect w)) as [[info|ex] w1] eqn:Hs.
  2: { left. split; [apply Hfail|].
       unfold ResumeAgent.schema_columns in Hs.
       destruct (pragma_table_info _ _) as [[|i0 info]|ex']; injection Hs as _ <-; reflexivity. }
  assert (Hw1 : w_db w1 = w_db w).
  { unfold ResumeAgent.schema_columns in Hs.
    destruct (pragma_table_info _ _) as [[|i0 info']|ex']; injection Hs as _ <-; reflexivity. }
  destruct (ResumeAgent.missing_column header (map fst info));
    [left; split; [apply Hfail | exact Hw1]|].
  destruct (ResumeAgent.data_rows header rest) as [rows|ex] eqn:Hd;
    [|left; split; [apply Hfail | exact Hw1]].
  apply data_rows_length in Hd.
  destruct rows as [|r rows].
  { right. left. exists header, rest. auto. }
  set (data := r :: rows) in *.
  destruct (negb (forallb (quotable double_quote) header));
    [left; split; [apply Hfail | exact Hw1]|].
  destruct (find_table (w_db w1) table_name) as [t|ex] eqn:Ht;
    [|left; split; [apply Hfail | exact Hw1]].
  cbn [obind]. apply find_table_ok in Ht. rewrite Hw1 in Ht.
  destruct (ResumeAgent.executemany table_name t header data) as [t'|ex] eqn:He;
    [|left; split; [apply Hfail | exact Hw1]].
  apply executemany_rows in He as (Hlen & Hc & Hp).
  right. right. exists header, rest, t, t'. rewrite Hd in Hlen.
  split; [reflexivity|]. split; [exact Ht|]. split; [exact Hlen|].
  split; [exact Hc|]. split; [exact Hp|]. rewrite <- Hd.
  split; [reflexivity|]. cbn [snd w_db commit]. rewrite Hw1. reflexivity.
Qed.

(** X5.  [insert_data_from_csv] into a table of the user's (the name
    is none of the engine's [sqlite_] names) is all or nothing: a call
    that does not report success leaves the database as it was, and a
    call that reports success with [rows_inserted = n] has added
    exactly [n] rows to the named table, [n] being the number of
    non-empty rows below the header; the table keeps its schema, and
    nothing else changes but the counter the table has in
    [sqlite_sequence].  (The [INSERT] statement is read in the modelled
    fragment: a plain identifier for the table.) *)
Theorem X5_csv_import_all_or_nothing
    (e : env) (table_name csv_content : string) (w : world) :
  reserved_name table_name = false ->
  local_change table_name (w_db w)
    (w_db (snd (ResumeAgent.insert_data_from_csv e table_name csv_content w)))
  /\ (succeeded (Ret (fst (ResumeAgent.insert_data_from_csv e table_name csv_content w)))
      = false ->
      w_db (snd (ResumeAgent.insert_data_from_csv e table_name csv_content w)) = w_db w)
  /\ (forall msg n,
        fst (ResumeAgent.insert_data_from_csv e table_name csv_content w)
        = ResumeAgent.csv_result true msg n ->
        (exists header rest,
            csv_reader e csv_content = CsvRow header rest
            /\ n = Z.of_nat (nonempty_rows rest))
        /\ Z.of_nat (length (rows_of (w_db (snd (ResumeAgent.insert_data_from_csv
                                                   e table_name csv_content w))) table_name))
           = Z.of_nat (length (rows_of (w_db w) table_name)) + n).
Proof.
  intros _.
  destruct (insert_data_from_csv_cases e table_name csv_content w)
    as [[Hf Hdb]|[(header & rest & Hr & Hn & Hres & Hdb)
                 |(header & rest & t & t' & Hr & Ht & Hlen & Hc & Hp & Hres & Hdb)]].
  - split; [left; exact Hdb|]. split; [intros _; exact Hdb|].
    intros msg n Hres. rewrite Hres in Hf. discriminate Hf.
  - split; [left; exact Hdb|]. split; [intros _; exact Hdb|].
    intros msg n Hres'. rewrite Hres in Hres'. injection Hres' as _ <-.
    split; [exists header, rest; rewrite Hn; auto|]. rewrite Hdb. lia.
  - split; [right; exists t, t'; auto|]. split.
    + intros Hf. rewrite Hres in Hf. discriminate Hf.
    + intros msg n Hres'. rewrite Hres in Hres'. injection Hres' as _ <-.
      split; [exists header, rest; auto|].
      unfold rows_of. rewrite Hdb, lookup_store_eq, Ht. lia.
Qed.

Lemma X2_mutations_are_local_and_atomic_witness :
  succeeded (fst (ResumeAgent.insert_data "candidates" Examples.zoe Examples.source_only))
  = false
  /\ w_db (snd (ResumeAgent.insert_data "candidates" Examples.zoe Examples.source_only))
     = w_db Examples.source_only.
Proof.
  assert (H : succeeded (fst (ResumeAgent.insert_data "candidates" Examples.zoe
                                Examples.source_only)) = false) by (vm_compute; reflexivity).
  split; [exact H|].
  destruct X2_mutations_are_local_and_atomic as [Hins _].
  exact (proj2 (Hins "candidates" Examples.zoe Examples.source_only eq_refl) H).
Defined.

Lemma X5_csv_import_all_or_nothing_witness :
  fst (ResumeAgent.insert_data_from_csv Examples.silent "candidates"
         "name,email
Ann Lee,ann@example.com" Examples.source_only)
  = ResumeAgent.csv_result true "Successfully inserted 1 row(s) into table 'candidates'." 1
  /\ Z.of_nat (length (rows_of (w_db (snd (ResumeAgent.insert_data_from_csv Examples.silent
                                             "candidates" "name,email
Ann Lee,ann@example.com" Examples.source_only))) "candidates"))
     = Z.of_nat (length (rows_of (w_db Examples.source_only) "candidates")) + 1.
Proof.
  assert (H : fst (ResumeAgent.insert_data_from_csv Examples.silent "candidates"
                     "name,email
Ann Lee,ann@example.com" Examples.source_only)
              = ResumeAgent.csv_result true
                  "Successfully inserted 1 row(s) into table 'candidates'." 1)
    by (vm_compute; reflexivity).
  split; [exact H|].
  destruct (X5_csv_import_all_or_nothing Examples.silent "candidates" "name,email
Ann Lee,ann@example.com" Examples.source_only eq_refl) as (_ & _ & Hok).
  exact (proj2 (Hok _ _ H)).
Defined.

(** X6.  Let [PRAGMA table_info] answer for the table name (the name
    holds no quote character and no NUL) with columns that include every column
    of the header, as it is spelled.  A CSV text that holds this header
    and nothing else is then a success with zero rows inserted, and the
    database is as it was. *)
Theorem X6_csv_header_only
    (e : env) (table_name csv_content : string) (w : world)
    (header : list string) (info : list (string * string)) :
  all_space csv_content = false ->
  csv_reader e csv_content = CsvRow header CsvEnd ->
  header <> [] ->
  pragma_table_info (w_db w) table_name = Ret info ->
  forallb (fun col => str_in col (map fst info)) header = true ->
  fst (ResumeAgent.insert_data_from_csv e table_name csv_content w)
  = PDict [("success", PBool true);
           ("message", PStr "CSV content parsed but no rows found to insert.");
           ("rows_inserted", PInt 0)]
  /\ w_db (snd (ResumeAgent.insert_data_from_csv e table_name csv_content w)) = w_db w.
Proof.
  intros Hc Hr Hh Hinfo Hall. unfold ResumeAgent.insert_data_from_csv.
  rewrite strip_empty_iff, Hc, Hr.
  destruct header as [|h header']; [contradiction|].
  set (header := h :: header') in *.
  unfold ResumeAgent.schema_columns. cbn [w_db connect]. rewrite Hinfo.
  assert (Hmiss : ResumeAgent.missing_column header (map fst info) = None).
  { unfold ResumeAgent.missing_column. clear -Hall.
    induction header as [|col header IH]; [reflexivity|].
    cbn [forallb] in Hall. apply andb_true_iff in Hall as [Hcol Hrest].
    cbn [find]. rewrite Hcol. cbn [negb]. apply IH. exact Hrest. }
  destruct info as [|i0 info']; [discriminate Hall|].
  rewrite Hmiss. cbn. split; reflexivity.
Qed.

Lemma X6_csv_header_only_witness :
  fst (ResumeAgent.insert_data_from_csv Examples.silent "candidates" "name,email"
         Examples.source_only)
  = PDict [("success", PBool true);
           ("message", PStr "CSV content parsed but no rows found to insert.");
           ("rows_inserted", PInt 0)]
  /\ w_db (snd (ResumeAgent.insert_data_from_csv Examples.silent "candidates" "name,email"
                  Examples.source_only))
     = w_db Examples.source_only.
Proof.
  apply (X6_csv_header_only Examples.silent "candidates" "name,email" Examples.source_only
           ["name"; "email"]
           (map (fun c => (col_name c, col_type c)) Examples.candidate_columns)).
  - reflexivity.
  - reflexivity.
  - discriminate.
  - vm_compute. reflexivity.
  - reflexivity.
Defined.

Lemma dict_of_pairs_get {V : Type} (k : string) (l : list (string * V)) :
  NoDup (map fst l) ->
  dict_get k (ResumeAgent.dict_of_pairs l) = dict_get k l.
Proof.
  unfold ResumeAgent.dict_of_pairs.
  assert (Hgen : forall acc,
            NoDup (map fst l) ->
            dict_get k (fold_left (fun d kv => dict_set (fst kv) (snd kv) d) l acc)
            = match dict_get k l with
              | Some v => Some v
              | None => dict_get k acc
              end).
  { induction l as [|[k0 v0] l IH]; intros acc Hnd; [reflexivity|].
    cbn [map fst] in Hnd. apply NoDup_cons in Hnd as [Hnot Hnd].
    cbn [fold_left fst snd dict_get]. rewrite (IH _ Hnd).
    destruct (String.eqb k k0) eqn:E.
    - apply String.eqb_eq in E. subst k0.
      rewrite (dict_get_not_in_keys k l), dict_get_set_eq; [reflexivity|].
      unfold str_in, dict_keys. destruct (existsb _ _) eqn:Hex; [|reflexivity].
      exfalso. apply existsb_exists in Hex as (x & Hin & Hx).
      apply String.eqb_eq in Hx. subst x. apply Hnot. apply list_elem_of_In. exact Hin.
    - assert (Hne : k0 <> k) by (intros ->; rewrite String.eqb_refl in E; discriminate E).
      rewrite (dict_get_set_ne _ _ _ _ Hne). reflexivity. }
  intros Hnd. rewrite (Hgen [] Hnd). destruct (dict_get k l); reflexivity.
Qed.

Lemma padded_keys (cols row : list string) :
  map fst (combine cols (map PStr row)
           ++ map (fun key => (key, PNone)) (drop (length row) cols))
  = cols.
Proof.
  revert row. induction cols as [|c cols IH]; intros row.
  - destruct row; reflexivity.
  - destruct row as [|v row].
    + cbn [map combine app length drop fst]. f_equal.
      clear. induction cols as [|x l IHl]; [reflexivity|].
      cbn [map fst]. f_equal. exact IHl.
    + cbn [map combine app length drop fst]. f_equal. apply IH.
Qed.

Lemma padding_reads_none (keys cols : list string) :
  map (fun col => match dict_get col (map (fun key => (key, PNone)) keys) with
                  | Some v => v
                  | None => PNone
                  end) cols
  = replicate (length cols) PNone.
Proof.
  induction cols as [|c cols IH]; [reflexivity|].
  cbn [map length replicate]. f_equal; [|exact IH].
  clear. induction keys as [|k keys IHk]; [reflexivity|].
  cbn [map dict_get]. destruct (String.eqb c k); [reflexivity | exact IHk].
Qed.

(** X7.  With distinct header names, the values [insert_data_from_csv]
    binds for a data row are the fields of the row as text, cut to the
    number of header columns, and [None] for every header column the
    row is too short to reach. *)
Theorem X7_csv_short_rows_padded (csv_columns row : list string) :
  NoDup csv_columns ->
  ResumeAgent.row_values csv_columns row
  = map PStr (take (length csv_columns) row)
    ++ replicate (length csv_columns - length row) PNone.
Proof.
  intros Hnd. unfold ResumeAgent.row_values.
  transitivity
    (map (fun col =>
            match dict_get col (combine csv_columns (map PStr row)
                                ++ map (fun key => (key, PNone))
                                       (drop (length row) csv_columns)) with
            | Some v => v
            | None => PNone
            end) csv_columns).
  { apply map_ext. intros col.
    rewrite dict_of_pairs_get by (rewrite padded_keys; exact Hnd). reflexivity. }
  revert row. induction csv_columns as [|c cols IH]; intros row; [reflexivity|].
  apply NoDup_cons in Hnd as [Hnot Hnd].
  destruct row as [|v row].
  - exact (padding_reads_none (c :: cols) (c :: cols)).
  - cbn [combine length take map app Nat.sub drop]. cbn [map dict_get].
    rewrite String.eqb_refl.
    cbn [app]. f_equal. rewrite <- (IH Hnd row). apply map_ext_in. intros col Hin.
    destruct (String.eqb col c) eqn:E; [|reflexivity].
    apply String.eqb_eq in E. subst col. exfalso. apply Hnot. apply list_elem_of_In. exact Hin.
Qed.

Lemma X7_csv_short_rows_padded_witness :
  NoDup ["name"; "email"; "phone"]
  /\ ResumeAgent.row_values ["name"; "email"; "phone"] ["Ann Lee"]
     = [PStr "Ann Lee"; PNone; PNone].
Proof.
  assert (Hnd : NoDup ["name"; "email"; "phone"]).
  { repeat (apply NoDup_cons; split; [intros H; repeat (apply elem_of_cons in H as [H|H];
                                                         [discriminate H|]); inversion H|]).
    constructor. }
  split; [exact Hnd|].
  exact (X7_csv_short_rows_padded ["name"; "email"; "phone"] ["Ann Lee"] Hnd).
Defined.

(** ** The classification run as a whole *)

Lemma processing_errors_app (l1 l2 : list log_record) :
  processing_errors (l1 ++ l2) = (processing_errors l1 + processing_errors l2)%nat.
Proof. unfold processing_errors. rewrite List.filter_app, length_app. reflexivity. Qed.

Lemma processing_errors_none (l : list log_record) :
  Forall (fun r => is_processing_error r = false) l -> processing_errors l = 0%nat.
Proof.
  unfold processing_errors. induction 1 as [|r l Hr _ IH]; simpl; [reflexivity|].
  rewrite Hr. exact IH.
Qed.

(** One step of the loop accounts for its candidate: blank, transferred
    or logged as failed. *)
Lemma loop_body_account (e : env) (types : dict string) (i : nat) (c : dict pyval)
    (b b' : Analyzer.batch) (w w' : world) :
  dict_keys (Analyzer.b_counts b) = Analyzer.CATEGORIES ->
  Analyzer.loop_body e types i c b w = (None, b', w') ->
  exists l,
    w_log w' = w_log w ++ l
    /\ dict_keys (Analyzer.b_counts b') = Analyzer.CATEGORIES
    /\ total (Analyzer.b_counts b') + Z.of_nat (processing_errors l)
       = total (Analyzer.b_counts b) + (if skills_blank c then 0 else 1).
Proof.
  intros Hk Hl. unfold Analyzer.loop_body in Hl.
  destruct (Analyzer.read_skills c) as [s|ex] eqn:Hr; [|discriminate Hl].
  apply read_skills_ret in Hr as [He _]. rewrite He in Hl.
  destruct (skills_blank c).
  { injection Hl as <- <-. eexists. cbn [w_log logf]. rewrite <- app_assoc.
    split; [reflexivity|]. split; [exact Hk|]. cbn. lia. }
  set (w0 := logf DEBUG _ _ w) in Hl.
  pose proof (try_body_evolves e types (Analyzer.candidate_identifier i c) s c b w0)
    as (_ & l & Hlog & Hl0).
  apply processing_errors_none in Hl0.
  destruct (Analyzer.try_body _ _ _ _ _ _ _) as [[[ex|] b1] w1] eqn:Htry; cbn [snd] in Hlog.
  - injection Hl as <- <-. unfold Analyzer.try_body in Htry.
    assert (Hb1 : Analyzer.b_counts b1 = Analyzer.b_counts b).
    { destruct (Analyzer.classify_candidate _ _ _ _) as [[category|ex'] w2];
        [|injection Htry as _ <- _; reflexivity].
      unfold Analyzer.transfer_candidate in Htry.
      destruct (Analyzer.ensure_table _ _ _ _ _ _) as [[[ex'|] b2] w3] eqn:Hen.
      - injection Htry as _ <- _. unfold Analyzer.ensure_table in Hen.
        destruct (str_in _ (Analyzer.b_created b)); [discriminate Hen|].
        destruct (Analyzer.schema_columns _ _) as [[[|col cols]|ex''] w4];
          [|discriminate Hen|injection Hen as _ <- _; reflexivity].
        destruct (sql_create_table_if_not_exists _ _ _);
          [discriminate Hen | injection Hen as _ <- _; reflexivity].
      - apply ensure_table_ok in Hen as [Hc _].
        destruct (Analyzer.insert_candidate _ _ _); [discriminate Htry|].
        injection Htry as _ <- _. exact Hc. }
    eexists. cbn [w_log logf]. rewrite Hlog. subst w0. cbn [w_log logf].
    rewrite <- !app_assoc. split; [reflexivity|]. rewrite Hb1. split; [exact Hk|].
    cbn [app]. change (?x :: l ++ ?y) with ([x] ++ l ++ y).
    rewrite !processing_errors_app, Hl0. cbn. lia.
  - injection Hl as <- <-. unfold Analyzer.try_body in Htry.
    destruct (Analyzer.classify_candidate _ _ _ _) as [[category|ex] w2] eqn:Hc;
      [|discriminate Htry].
    apply classify_candidate_listed in Hc.
    apply transfer_candidate_ok in Htry as (t' & rowid & _ & _ & Hcounts).
    rewrite <- Hk in Hc. apply dict_get_in_keys in Hc as [n Hn].
    rewrite Hn in Hcounts. rewrite Hcounts.
    eexists. rewrite Hlog. subst w0. cbn [w_log logf]. rewrite <- !app_assoc.
    split; [reflexivity|]. split.
    + rewrite (dict_keys_set _ _ n); assumption.
    + rewrite (total_set _ _ n) by assumption.
      cbn [app]. change (?x :: l) with ([x] ++ l).
      rewrite processing_errors_app, Hl0. cbn. lia.
Qed.

Lemma loop_account (e : env) (types : dict string) (cands : list (dict pyval)) :
  forall (i : nat) (b b' : Analyzer.batch) (w w' : world),
    dict_keys (Analyzer.b_counts b) = Analyzer.CATEGORIES ->
    Analyzer.candidates_loop e types i cands b w = (None, b', w') ->
    exists l,
      w_log w' = w_log w ++ l
      /\ dict_keys (Analyzer.b_counts b') = Analyzer.CATEGORIES
      /\ total (Analyzer.b_counts b') + Z.of_nat (processing_errors l)
         + Z.of_nat (length (List.filter skills_blank cands))
         = total (Analyzer.b_counts b) + Z.of_nat (length cands).
Proof.
  induction cands as [|c rest IH]; intros i b b' w w' Hk Hl.
  - injection Hl as <- <-. exists []. rewrite app_nil_r. repeat split; [exact Hk|].
    cbn. lia.
  - simpl in Hl.
    destruct (Analyzer.loop_body e types i c b w) as [[[ex|] b1] w1] eqn:Hb; [discriminate Hl|].
    destruct (loop_body_account e types i c b b1 w w1 Hk Hb) as (l1 & Hl1 & Hk1 & Ht1).
    destruct (IH (S i) b1 b' w1 w' Hk1 Hl) as (l2 & Hl2 & Hk2 & Ht2).
    exists (l1 ++ l2). rewrite Hl2, Hl1, <- app_assoc. split; [reflexivity|].
    split; [exact Hk2|]. rewrite processing_errors_app. cbn [List.filter length].
    destruct (skills_blank c); cbn [length]; lia.
Qed.

(** X8.  With the API key set and every skills value a string, the run
    succeeds and accounts for every candidate: the counters, the
    candidates skipped as blank and the candidates logged as failed add
    up to the size of the batch. *)
Theorem X8_classification_accounts_for_every_candidate
    (e : env) (candidates_data : list (dict pyval)) (w : world) :
  api_key_set e = true ->
  existsb skills_not_str candidates_data = false ->
  exists msg counts,
    fst (Analyzer.classify_and_transfer_candidates e candidates_data w)
    = Analyzer.result true msg counts
    /\ total counts
       + Z.of_nat (length (List.filter skills_blank candidates_data))
       + Z.of_nat (processing_errors
                     (new_records w (snd (Analyzer.classify_and_transfer_candidates
                                            e candidates_data w))))
       = Z.of_nat (length candidates_data).
Proof.
  intros Hkey Hstr. unfold Analyzer.classify_and_transfer_candidates.
  destruct candidates_data as [|c0 rest] eqn:Hcands.
  { eexists. exists []. split; [reflexivity|]. unfold new_records. cbn [snd w_log logf].
    rewrite drop_app_length. reflexivity. }
  rewrite <- Hcands in *. rewrite Hkey. cbn [negb].
  set (w1 := logf INFO _ _ (connect w)).
  destruct (schema_columns_candidates w1) as [types Hs]. rewrite Hs.
  set (b0 := {| Analyzer.b_working := _ |}).
  pose proof (loop_returns e types candidates_data 0 b0 (connect w1) Hstr) as Hret.
  destruct (Analyzer.candidates_loop _ _ _ _ _ _) as [[o b'] w'] eqn:Hloop.
  cbn [fst] in Hret. subst o.
  destruct (loop_account e types candidates_data 0 b0 b' (connect w1) w' eq_refl Hloop)
    as (l & Hl & _ & Ht).
  eexists. exists (Analyzer.b_counts b'). split; [reflexivity|].
  unfold new_records. cbn [snd w_log logf commit]. rewrite Hl. subst w1.
  cbn [w_log logf connect]. rewrite <- !app_assoc, drop_app_length.
  cbn [app]. change (?x :: l ++ ?y) with ([x] ++ l ++ y).
  rewrite !processing_errors_app. subst b0. cbn in Ht |- *. lia.
Qed.

Lemma X8_classification_accounts_for_every_candidate_witness :
  api_key_set (Examples.answering (LlmText "Software Development")) = true
  /\ existsb skills_not_str
       [Examples.zoe; [("id", PInt 2); ("skills", PStr " ")];
        [("id", PInt 3); ("name", PStr "Al"); ("email", PStr "al@example.com");
         ("skills", PStr "Java")]] = false
  /\ exists msg counts,
       fst (Analyzer.classify_and_transfer_candidates
              (Examples.answering (LlmText "Software Development"))
              [Examples.zoe; [("id", PInt 2); ("skills", PStr " ")];
               [("id", PInt 3); ("name", PStr "Al"); ("email", PStr "al@example.com");
                ("skills", PStr "Java")]]
              Examples.already_transferred)
       = Analyzer.result true msg counts
       /\ total counts
          + Z.of_nat (length (List.filter skills_blank
               [Examples.zoe; [("id", PInt 2); ("skills", PStr " ")];
                [("id", PInt 3); ("name", PStr "Al"); ("email", PStr "al@example.com");
                 ("skills", PStr "Java")]]))
          + Z.of_nat (processing_errors
               (new_records Examples.already_transferred
                  (snd (Analyzer.classify_and_transfer_candidates
                          (Examples.answering (LlmText "Software Development"))
                          [Examples.zoe; [("id", PInt 2); ("skills", PStr " ")];
                           [("id", PInt 3); ("name", PStr "Al");
                            ("email", PStr "al@example.com"); ("skills", PStr "Java")]]
                          Examples.already_transferred))))
          = Z.of_nat 3.
Proof.
  assert (Hk : api_key_set (Examples.answering (LlmText "Software Development")) = true)
    by reflexivity.
  assert (Hs : existsb skills_not_str
                 [Examples.zoe; [("id", PInt 2); ("skills", PStr " ")];
                  [("id", PInt 3); ("name", PStr "Al"); ("email", PStr "al@example.com");
                   ("skills", PStr "Java")]] = false) by reflexivity.
  split; [exact Hk|]. split; [exact Hs|].
  exact (X8_classification_accounts_for_every_candidate _ _ Examples.already_transferred
           Hk Hs).
Defined.

Lemma target_is_category_table (category : string) :
  str_in category Analyzer.CATEGORIES = true ->
  str_in (Analyzer.target_table category) category_tables = true.
Proof.
  unfold str_in, category_tables. intros H.
  apply existsb_exists in H as (x & Hin & Hx). apply String.eqb_eq in Hx. subst x.
  apply existsb_exists. exists (Analyzer.target_table category). split.
  - apply in_map. exact Hin.
  - apply String.eqb_refl.
Qed.

(** The category tables have names in lower case. *)
Lemma category_table_folded (target : string) :
  str_in target category_tables = true -> nocase target = target.
Proof.
  intros H. apply str_in_In in H. unfold category_tables, Analyzer.CATEGORIES in H.
  cbn [map In] in H. repeat (destruct H as [<-|H]; [reflexivity|]). contradiction.
Qed.

Lemma lookup_other_table (d : gmap string table) (target name : string) (t : table) :
  str_in target category_tables = true ->
  str_in (nocase name) category_tables = false ->
  lookup_table (store_table target t d) name = lookup_table d name.
Proof.
  intros Ht Hn. apply lookup_store_ne. rewrite (category_table_folded _ Ht).
  intros Heq. congruence.
Qed.

(** A transfer, whatever its end, leaves every table that is not a
    category table as the transaction saw it. *)
Lemma transfer_candidate_elsewhere (types : dict string) (category : string)
    (c : dict pyval) (b : Analyzer.batch) (w : world) (name : string) :
  str_in category Analyzer.CATEGORIES = true ->
  str_in (nocase name) category_tables = false ->
  lookup_table
    (Analyzer.b_working (snd (fst (Analyzer.transfer_candidate types category c b w)))) name
  = lookup_table (Analyzer.b_working b) name.
Proof.
  intros Hcat Hname. apply target_is_category_table in Hcat.
  unfold Analyzer.transfer_candidate.
  set (target := Analyzer.target_table category) in *.
  assert (He : lookup_table
                 (Analyzer.b_working
                    (snd (fst (Analyzer.ensure_table types category target c b w)))) name
               = lookup_table (Analyzer.b_working b) name).
  { unfold Analyzer.ensure_table.
    destruct (str_in target (Analyzer.b_created b)); [reflexivity|].
    destruct (Analyzer.schema_columns target w) as [[[|col cols]|ex] w0];
      [|reflexivity|reflexivity].
    destruct (sql_create_table_if_not_exists _ _ _) as [d|ex] eqn:Hc; [|reflexivity].
    cbn. apply create_table_ok in Hc as [[_ ->]|[_ ->]]; [reflexivity|].
    apply lookup_other_table; assumption. }
  destruct (Analyzer.ensure_table _ _ _ _ _ _) as [[[ex|] b1] w1]; cbn [fst snd] in *;
    [exact He|].
  destruct (Analyzer.insert_candidate target c (Analyzer.b_working b1)) as [d|ex] eqn:Hi;
    cbn [fst snd]; [|exact He].
  apply insert_candidate_ok in Hi as (t & t' & rowid & _ & _ & ->).
  cbn. rewrite lookup_other_table by assumption. exact He.
Qed.

Lemma loop_body_elsewhere (e : env) (types : dict string) (i : nat) (c : dict pyval)
    (b : Analyzer.batch) (w : world) (name : string) :
  str_in (nocase name) category_tables = false ->
  lookup_table (Analyzer.b_working (snd (fst (Analyzer.loop_body e types i c b w)))) name
  = lookup_table (Analyzer.b_working b) name.
Proof.
  intros Hname. unfold Analyzer.loop_body.
  destruct (Analyzer.read_skills c) as [s|ex]; [|reflexivity].
  destruct (is_empty s); [reflexivity|].
  set (w0 := logf DEBUG _ _ w).
  assert (Ht : lookup_table
                 (Analyzer.b_working
                    (snd (fst (Analyzer.try_body e types (Analyzer.candidate_identifier i c)
                                 s c b w0)))) name
               = lookup_table (Analyzer.b_working b) name).
  { unfold Analyzer.try_body.
    destruct (Analyzer.classify_candidate _ _ _ _) as [[category|ex] w1] eqn:Hc;
      [|reflexivity].
    apply classify_candidate_listed in Hc.
    apply transfer_candidate_elsewhere; assumption. }
  destruct (Analyzer.try_body _ _ _ _ _ _ _) as [[[ex|] b1] w1]; exact Ht.
Qed.

Lemma loop_elsewhere (e : env) (types : dict string) (cands : list (dict pyval))
    (name : string) :
  str_in (nocase name) category_tables = false ->
  forall (i : nat) (b : Analyzer.batch) (w : world),
    lookup_table
      (Analyzer.b_working (snd (fst (Analyzer.candidates_loop e types i cands b w)))) name
    = lookup_table (Analyzer.b_working b) name.
Proof.
  intros Hname. induction cands as [|c rest IH]; intros i b w; [reflexivity|].
  simpl. pose proof (loop_body_elsewhere e types i c b w name Hname) as Hb.
  destruct (Analyzer.loop_body e types i c b w) as [[[ex|] b1] w1]; cbn [fst snd] in *;
    [exact Hb|].
  rewrite IH. exact Hb.
Qed.

(** X9.  [classify_and_transfer_candidates] writes to the seven category
    tables only (and, with their rows, to the counters they have in
    [sqlite_sequence]): every other table of the user's, the source
    table [candidates] among them, is after the call what it was
    before, whatever the candidates and the answers of the model. *)
Theorem X9_classification_writes_category_tables_only
    (e : env) (candidates_data : list (dict pyval)) (w : world) (name : string) :
  str_in (nocase name) category_tables = false ->
  reserved_name name = false ->
  lookup_table (w_db (snd (Analyzer.classify_and_transfer_candidates e candidates_data w)))
               name
  = lookup_table (w_db w) name.
Proof.
  intros Hname _. unfold Analyzer.classify_and_transfer_candidates.
  destruct candidates_data as [|c0 rest] eqn:Hcands; [reflexivity|].
  rewrite <- Hcands. destruct (negb (api_key_set e)); [reflexivity|].
  set (w1 := logf INFO _ _ (connect w)).
  assert (Hfail : forall ex w2, w_db w2 = w_db w ->
            lookup_table (w_db (snd (Analyzer.batch_failure ex w2))) name
            = lookup_table (w_db w) name).
  { intros ex w2 H2. unfold Analyzer.batch_failure.
    destruct (is_sqlite_error ex); cbn; rewrite H2; reflexivity. }
  pose proof (schema_columns_appends (fun _ => True) (fun _ => I)
                "candidates" w1 w1 (appends_refl _ _)) as [Hdb1 _].
  destruct (Analyzer.schema_columns "candidates" w1) as [[types|ex] w2]; cbn [snd] in Hdb1.
  2: { apply Hfail. exact Hdb1. }
  set (b0 := {| Analyzer.b_working := _ |}).
  pose proof (loop_evolves e types candidates_data 0 b0 w2) as [Hdb2 _].
  pose proof (loop_elsewhere e types candidates_data name Hname 0 b0 w2) as Hel.
  destruct (Analyzer.candidates_loop _ _ _ _ _ _) as [[[ex|] b'] w']; cbn [fst snd] in *.
  - apply Hfail. rewrite Hdb2. exact Hdb1.
  - cbn. exact Hel.
Qed.

Lemma X9_classification_writes_category_tables_only_witness :
  lookup_table (w_db (snd (Analyzer.classify_and_transfer_candidates
                             (Examples.answering (LlmText "Banking")) [Examples.zoe]
                             Examples.source_only))) "Candidates"
  = lookup_table (w_db Examples.source_only) "Candidates".
Proof.
  assert (H : str_in (nocase "Candidates") category_tables = false) by reflexivity.
  exact (X9_classification_writes_category_tables_only
           (Examples.answering (LlmText "Banking")) [Examples.zoe] Examples.source_only
           "Candidates" H eq_refl).
Defined.

(** ** The calls of the model *)

Lemma schema_columns_calls (name : string) (w : world) :
  w_llm_calls (snd (Analyzer.schema_columns name w)) = w_llm_calls w.
Proof.
  unfold Analyzer.schema_columns. destruct (pragma_table_info _ _); reflexivity.
Qed.

Lemma classify_candidate_calls (e : env) (ident : pyval) (s : string) (w : world) :
  w_llm_calls (snd (Analyzer.classify_candidate e ident s w)) = s :: w_llm_calls w.
Proof.
  unfold Analyzer.classify_candidate, Analyzer.read_answer, Analyzer.valid_category.
  destruct (classify_skill e s) as [t| |ex]; [destruct (is_empty t)| |];
    cbn [fst snd]; try reflexivity;
    match goal with |- context [str_in ?a Analyzer.CATEGORIES] =>
      destruct (str_in a Analyzer.CATEGORIES) end; reflexivity.
Qed.

Lemma transfer_candidate_calls (types : dict string) (category : string)
    (c : dict pyval) (b : Analyzer.batch) (w : world) :
  w_llm_calls (snd (Analyzer.transfer_candidate types category c b w)) = w_llm_calls w.
Proof.
  unfold Analyzer.transfer_candidate.
  set (target := Analyzer.target_table category).
  assert (He : w_llm_calls (snd (Analyzer.ensure_table types category target c b w))
               = w_llm_calls w).
  { unfold Analyzer.ensure_table.
    destruct (str_in target (Analyzer.b_created b)); [reflexivity|].
    pose proof (schema_columns_calls target w) as Hs.
    destruct (Analyzer.schema_columns target w) as [[[|col cols]|ex] w0];
      cbn [snd] in *; [|exact Hs|exact Hs].
    destruct (sql_create_table_if_not_exists _ _ _); exact Hs. }
  destruct (Analyzer.ensure_table _ _ _ _ _ _) as [[[ex|] b1] w1]; cbn [snd] in *;
    [exact He|].
  destruct (Analyzer.insert_candidate _ _ _); exact He.
Qed.

(** A step of the loop asks the model once, with the stripped skill
    text, unless the candidate is blank or its skills cannot be read. *)
Lemma loop_body_calls (e : env) (types : dict string) (i : nat) (c : dict pyval)
    (b : Analyzer.batch) (w : world) :
  skills_not_str c = false ->
  w_llm_calls (snd (Analyzer.loop_body e types i c b w))
  = (if skills_blank c then [] else [skill_text c]) ++ w_llm_calls w.
Proof.
  intros Hs. unfold Analyzer.loop_body.
  destruct (Analyzer.read_skills c) as [s|ex] eqn:Hr.
  2: { apply read_skills_raise in Hr as (v & Hv & Hns & _).
       unfold skills_not_str in Hs. rewrite Hv in Hs.
       destruct v; try discriminate Hs. exfalso. eapply Hns. reflexivity. }
  pose proof (read_skills_ret c s Hr) as [He _]. rewrite <- He.
  destruct (is_empty s) eqn:Hemp; [reflexivity|].
  assert (Htext : skill_text c = s).
  { unfold Analyzer.read_skills in Hr. unfold skill_text.
    destruct (dict_get "skills" c) as [[| | |s0| |]|]; try discriminate Hr.
    - injection Hr as <-. reflexivity.
    - injection Hr as <-. discriminate Hemp. }
  set (w0 := logf DEBUG _ _ w). set (ident := Analyzer.candidate_identifier i c).
  assert (Ht : w_llm_calls (snd (Analyzer.try_body e types ident s c b w0))
               = s :: w_llm_calls w).
  { unfold Analyzer.try_body.
    pose proof (classify_candidate_calls e ident s w0) as Hc.
    destruct (Analyzer.classify_candidate e ident s w0) as [[category|ex] w1];
      cbn [snd] in Hc; [|exact Hc].
    rewrite transfer_candidate_calls. exact Hc. }
  rewrite Htext.
  destruct (Analyzer.try_body _ _ _ _ _ _ _) as [[[ex|] b1] w1]; exact Ht.
Qed.

Lemma loop_calls (e : env) (types : dict string) (cands : list (dict pyval)) :
  forall (i : nat) (b : Analyzer.batch) (w : world),
    existsb skills_not_str cands = false ->
    w_llm_calls (snd (Analyzer.candidates_loop e types i cands b w))
    = rev (map skill_text (with_skills cands)) ++ w_llm_calls w.
Proof.
  induction cands as [|c rest IH]; intros i b w Hs; [reflexivity|].
  cbn [existsb] in Hs. apply orb_false_iff in Hs as [Hc Hrest].
  pose proof (loop_body_calls e types i c b w Hc) as Hb.
  pose proof (loop_returns e types [c] i b w) as Hret.
  cbn [Analyzer.candidates_loop].
  cbn [Analyzer.candidates_loop existsb] in Hret. rewrite Hc in Hret.
  specialize (Hret eq_refl).
  destruct (Analyzer.loop_body e types i c b w) as [[[ex|] b1] w1]; cbn [fst snd] in *;
    [discriminate Hret|].
  rewrite (IH (S i) b1 w1 Hrest), Hb.
  unfold with_skills. cbn [List.filter].
  destruct (skills_blank c); cbn [negb map rev app]; [reflexivity|].
  rewrite <- app_assoc. reflexivity.
Qed.

(** X10.  With the API key set and every skills value a string, the
    model is asked exactly once for each candidate that has a skill
    description, in the order of the batch and with the stripped skill
    text, and never for a candidate without one. *)
Theorem X10_one_model_call_per_described_candidate
    (e : env) (candidates_data : list (dict pyval)) (w : world) :
  api_key_set e = true ->
  existsb skills_not_str candidates_data = false ->
  w_llm_calls (snd (Analyzer.classify_and_transfer_candidates e candidates_data w))
  = rev (map skill_text (with_skills candidates_data)) ++ w_llm_calls w.
Proof.
  intros Hkey Hs. unfold Analyzer.classify_and_transfer_candidates.
  destruct candidates_data as [|c0 rest] eqn:Hcands; [reflexivity|].
  rewrite <- Hcands in *. rewrite Hkey. cbn [negb].
  set (w1 := logf INFO _ _ (connect w)).
  destruct (schema_columns_candidates w1) as [types ->].
  set (b0 := {| Analyzer.b_working := _ |}).
  pose proof (loop_calls e types candidates_data 0 b0 (connect w1) Hs) as Hl.
  pose proof (loop_returns e types candidates_data 0 b0 (connect w1) Hs) as Hret.
  destruct (Analyzer.candidates_loop _ _ _ _ _ _) as [[[ex|] b'] w']; cbn [fst snd] in *;
    [discriminate Hret|].
  exact Hl.
Qed.

Lemma X10_one_model_call_per_described_candidate_witness :
  w_llm_calls (snd (Analyzer.classify_and_transfer_candidates
                      (Examples.answering (LlmText "Banking"))
                      [Examples.zoe; [("id", PInt 8); ("skills", PStr "  ")]]
                      Examples.source_only))
  = rev (map skill_text (with_skills [Examples.zoe; [("id", PInt 8); ("skills", PStr "  ")]]))
    ++ w_llm_calls Examples.source_only.
Proof.
  assert (Hs : existsb skills_not_str
                 [Examples.zoe; [("id", PInt 8); ("skills", PStr "  ")]] = false)
    by reflexivity.
  exact (X10_one_model_call_per_described_candidate
           (Examples.answering (LlmText "Banking")) _ Examples.source_only eq_refl Hs).
Defined.

(** ** The job-description server *)

(** What [analyze_jd_industry] returns for a description that is not
    empty, by the cases of the key and of the model. *)
Lemma analyze_jd_industry_cases (e : env) (jd : string) (w : world) :
  is_empty jd = false ->
  (api_key_set e = false
   /\ fst (JdTools.analyze_jd_industry e jd w) = "Error: API Key Missing"
   /\ w_llm_calls (snd (JdTools.analyze_jd_industry e jd w)) = w_llm_calls w)
  \/ (api_key_set e = true
      /\ w_llm_calls (snd (JdTools.analyze_jd_industry e jd w)) = jd :: w_llm_calls w
      /\ ((exists ex, classify_jd e jd = LlmRaise ex
                      /\ fst (JdTools.analyze_jd_industry e jd w) = "Error: " +:+ exn_msg ex)
          \/ ((forall ex, classify_jd e jd <> LlmRaise ex)
              /\ str_in (fst (JdTools.analyze_jd_industry e jd w)) JdTools.CATEGORIES = true
              /\ (forall t, classify_jd e jd = LlmText t ->
                            str_in (strip t) JdTools.CATEGORIES = true ->
                            is_empty t = false ->
                            fst (JdTools.analyze_jd_industry e jd w) = strip t)))).
Proof.
  intros Hjd. unfold JdTools.analyze_jd_industry. rewrite Hjd.
  destruct (api_key_set e); cbn [negb]; [right|left; auto].
  split; [reflexivity|].
  assert (Hfirst : str_in JdTools.first_category JdTools.CATEGORIES = true) by reflexivity.
  destruct (classify_jd e jd) as [t| |ex].
  - destruct (is_empty t) eqn:Ht.
    + replace (str_in "Unknown" JdTools.CATEGORIES) with false by reflexivity.
      cbn [fst snd]. split; [reflexivity|]. right.
      split; [intros ex H; discriminate H|]. split; [exact Hfirst|].
      intros t0 [= <-] _ H. congruence.
    + destruct (str_in (strip t) JdTools.CATEGORIES) eqn:Hin; cbn [fst snd].
      * split; [reflexivity|]. right.
        split; [intros ex H; discriminate H|]. split; [exact Hin|].
        intros t0 [= <-] _ _. reflexivity.
      * split; [reflexivity|]. right.
        split; [intros ex H; discriminate H|]. split; [exact Hfirst|].
        intros t0 [= <-] H. congruence.
  - replace (str_in "Unknown" JdTools.CATEGORIES) with false by reflexivity.
    cbn [fst snd]. split; [reflexivity|]. right.
    split; [intros ex H; discriminate H|]. split; [exact Hfirst|].
    intros t0 H. discriminate H.
  - cbn [fst snd]. split; [reflexivity|]. left. exists ex. split; reflexivity.
Qed.

(** X11.  For a job description that is not empty, with the API key
    set and a model that does not raise, [analyze_jd_industry] returns
    one of the seven categories (the literal ["Unknown"] of an empty
    answer never leaves the function), and it is the stripped answer of
    the model when that is a category; the model is asked exactly once,
    with this description, and the database is not touched. *)
Theorem X11_industry_is_one_of_the_categories
    (e : env) (job_description : string) (w : world) :
  is_empty job_description = false ->
  api_key_set e = true ->
  (forall ex, classify_jd e job_description <> LlmRaise ex) ->
  str_in (fst (JdTools.analyze_jd_industry e job_description w)) JdTools.CATEGORIES = true
  /\ fst (JdTools.analyze_jd_industry e job_description w) <> "Unknown"
  /\ (forall t, classify_jd e job_description = LlmText t ->
                str_in (strip t) JdTools.CATEGORIES = true ->
                fst (JdTools.analyze_jd_industry e job_description w) = strip t)
  /\ w_llm_calls (snd (JdTools.analyze_jd_industry e job_description w))
     = job_description :: w_llm_calls w
  /\ w_db (snd (JdTools.analyze_jd_industry e job_description w)) = w_db w.
Proof.
  intros Hjd Hkey Hno.
  destruct (analyze_jd_industry_cases e job_description w Hjd)
    as [(Hk & _)|(_ & Hcalls & [(ex & Hex & _)|(_ & Hin & Hsame)])].
  - congruence.
  - destruct (Hno ex Hex).
  - split; [exact Hin|]. split.
    { intros Heq. rewrite Heq in Hin. discriminate Hin. }
    split.
    { intros t Ht Hcat. apply (Hsame t Ht Hcat).
      destruct (is_empty t) eqn:Hemp; [|reflexivity].
      destruct t; [|discriminate Hemp]. discriminate Hcat. }
    split; [exact Hcalls|].
    unfold JdTools.analyze_jd_industry. rewrite Hjd, Hkey. cbn [negb].
    destruct (classify_jd e job_description) as [t| |ex]; [destruct (is_empty t)| |];
      try reflexivity;
      match goal with |- context [str_in ?a JdTools.CATEGORIES] =>
        destruct (str_in a JdTools.CATEGORIES) end; reflexivity.
Qed.

Lemma X11_industry_is_one_of_the_categories_witness :
  str_in (fst (JdTools.analyze_jd_industry (Examples.answering (LlmText " Finance "))
                 "Teller at a retail bank" Examples.fresh)) JdTools.CATEGORIES = true
  /\ fst (JdTools.analyze_jd_industry (Examples.answering (LlmText " Finance "))
            "Teller at a retail bank" Examples.fresh) <> "Unknown".
Proof.
  assert (Hno : forall ex, classify_jd (Examples.answering (LlmText " Finance "))
                             "Teller at a retail bank" <> LlmRaise ex)
    by (intros ex H; discriminate H).
  pose proof (X11_industry_is_one_of_the_categories
                (Examples.answering (LlmText " Finance ")) "Teller at a retail bank"
                Examples.fresh eq_refl eq_refl Hno) as (H1 & H2 & _).
  split; [exact H1 | exact H2].
Defined.

Lemma category_not_empty (a : string) :
  str_in a JdTools.CATEGORIES = true -> a <> EmptyString.
Proof. intros H ->. discriminate H. Qed.

(** The answer of [analyze_jd_industry] is never the empty text. *)
Lemma analyze_jd_industry_not_empty (e : env) (jd : string) (w : world) :
  fst (JdTools.analyze_jd_industry e jd w) <> EmptyString.
Proof.
  destruct (is_empty jd) eqn:Hjd.
  { unfold JdTools.analyze_jd_industry. rewrite Hjd. intros H. discriminate H. }
  destruct (analyze_jd_industry_cases e jd w Hjd)
    as [(_ & -> & _)|(_ & _ & [(ex & _ & ->)|(_ & Hin & _)])].
  - intros H. discriminate H.
  - intros H. discriminate H.
  - apply category_not_empty, Hin.
Qed.

(** The answer does not depend on the world the call starts in. *)
Lemma analyze_jd_industry_answer (e : env) (jd : string) (w w0 : world) :
  fst (JdTools.analyze_jd_industry e jd w) = fst (JdTools.analyze_jd_industry e jd w0).
Proof.
  unfold JdTools.analyze_jd_industry.
  destruct (is_empty jd); [reflexivity|].
  destruct (negb (api_key_set e)); [reflexivity|].
  destruct (classify_jd e jd) as [t| |ex]; [destruct (is_empty t)| |];
    try reflexivity;
    match goal with |- context [str_in ?a JdTools.CATEGORIES] =>
      destruct (str_in a JdTools.CATEGORIES) end; reflexivity.
Qed.

(** X12.  The dispatcher of the job-description server: a name outside
    the registry and a tool that raises are answered with the failure
    payload; [analyze_jd_industry] called with a text is answered with
    the text the function returns, as it is, also when the key is
    missing or the model raises, so that these errors never take the
    failure payload; and every request is answered with one content. *)
Theorem X12_jd_dispatcher_answers
    (e : env) (name : string) (arguments : dict pyval) (w : world) :
  (dict_get name (JdTools.ADK_ALL_TOOLS e) = None ->
   fst (JdTools.call_mcp_tool e name arguments w)
   = [("text", JdTools.error_text ("Tool '" +:+ name +:+ "' not implemented by this server."))])
  /\ (forall jd,
        name = "analyze_jd_industry" ->
        dict_get "job_description" arguments = Some (PStr jd) ->
        fst (JdTools.call_mcp_tool e name arguments w)
        = [("text", JdTools.Str (PStr (fst (JdTools.analyze_jd_industry e jd w))))])
  /\ (forall table_name columns condition ex w',
        name = "query_table" ->
        dict_get "table_name" arguments = Some (PStr table_name) ->
        dict_get "columns" arguments = Some (PStr columns) ->
        dict_get "condition" arguments = Some (PStr condition) ->
        JdTools.query_table table_name columns condition
          (logf INFO "MCP Server (JD Agent Tools): Received call_tool request for '{}' with args: {}"
                [PStr name; PDict arguments] w) = (Raise ex, w') ->
        fst (JdTools.call_mcp_tool e name arguments w)
        = [("text", JdTools.error_text
                      ("Failed to execute tool 'query_table': " +:+ exn_msg ex))])
  /\ (exists c, fst (JdTools.call_mcp_tool e name arguments w) = [c]).
Proof.
  split; [|split; [|split]].
  - intros Hn. unfold JdTools.call_mcp_tool. rewrite Hn. reflexivity.
  - intros jd -> Harg. unfold JdTools.call_mcp_tool.
    replace (dict_get "analyze_jd_industry" (JdTools.ADK_ALL_TOOLS e))
      with (Some (JdTools.tool_analyze_jd_industry e)) by reflexivity.
    set (w0 := logf INFO _ _ w).
    unfold run_async. cbn [mandatory JdTools.tool_analyze_jd_industry List.filter].
    assert (Hk : str_in "job_description" (dict_keys arguments) = true).
    { clear -Harg. unfold dict_keys, str_in.
      induction arguments as [|[k v] a IH]; [discriminate Harg|].
      cbn [dict_get] in Harg. cbn [map existsb fst].
      destruct (String.eqb "job_description" k); [reflexivity|]. cbn [orb]. auto. }
    rewrite Hk. cbn [negb]. unfold JdTools.tool_analyze_jd_industry. cbn [run].
    unfold str_arg. rewrite Harg.
    pose proof (analyze_jd_industry_not_empty e jd w0) as Hne.
    rewrite (analyze_jd_industry_answer e jd w w0).
    destruct (JdTools.analyze_jd_industry e jd w0) as [r w1]. cbn [fst] in *.
    assert (Ht : truthy (PStr r) = true).
    { cbn [truthy]. destruct (String.eqb r EmptyString) eqn:E; [|reflexivity].
      apply String.eqb_eq in E. contradiction. }
    rewrite Ht. reflexivity.
  - intros table_name columns condition ex w' -> Ht Hc Hk Hq.
    unfold JdTools.call_mcp_tool.
    replace (dict_get "query_table" (JdTools.ADK_ALL_TOOLS e))
      with (Some JdTools.tool_query_table) by reflexivity.
    unfold run_async. cbn [mandatory JdTools.tool_query_table List.filter].
    assert (Hin : str_in "table_name" (dict_keys arguments) = true).
    { clear -Ht. unfold dict_keys, str_in.
      induction arguments as [|[k v] a IH]; [discriminate Ht|].
      cbn [dict_get] in Ht. cbn [map existsb fst].
      destruct (String.eqb "table_name" k); [reflexivity|]. cbn [orb]. auto. }
    rewrite Hin. cbn [negb]. unfold JdTools.tool_query_table. cbn [run].
    unfold str_arg. rewrite Ht, Hc, Hk, Hq. reflexivity.
  - unfold JdTools.call_mcp_tool.
    destruct (dict_get name (JdTools.ADK_ALL_TOOLS e)) as [t|]; [|eauto].
    destruct (run_async _ _ _ _) as [[v|ex] w1]; eauto.
Qed.

Lemma X12_jd_dispatcher_answers_witness :
  fst (JdTools.call_mcp_tool (Examples.answering (LlmRaise (ValueError "quota exceeded")))
         "analyze_jd_industry" [("job_description", PStr "Teller")] Examples.fresh)
  = [("text", JdTools.Str (PStr "Error: quota exceeded"))]
  /\ fst (JdTools.call_mcp_tool Examples.silent "rank_candidates" [] Examples.fresh)
     = [("text", JdTools.error_text "Tool 'rank_candidates' not implemented by this server.")]
  /\ fst (JdTools.call_mcp_tool Examples.silent "query_table"
            [("table_name", PStr "todos"); ("columns", PStr "*"); ("condition", PStr "1=1")]
            Examples.fresh)
     = [("text", JdTools.error_text
                   "Failed to execute tool 'query_table': Error querying table 'todos': no such table: todos")].
Proof.
  split; [|split].
  - pose proof (X12_jd_dispatcher_answers
                  (Examples.answering (LlmRaise (ValueError "quota exceeded")))
                  "analyze_jd_industry" [("job_description", PStr "Teller")] Examples.fresh)
      as (_ & H & _).
    exact (H "Teller" eq_refl eq_refl).
  - pose proof (X12_jd_dispatcher_answers Examples.silent "rank_candidates" []
                  Examples.fresh) as (H & _).
    exact (H eq_refl).
  - pose proof (X12_jd_dispatcher_answers Examples.silent "query_table"
                  [("table_name", PStr "todos"); ("columns", PStr "*");
                   ("condition", PStr "1=1")] Examples.fresh) as (_ & _ & H & _).
    eapply (H "todos" "*" "1=1" (ValueError "Error querying table 'todos': no such table: todos")).
    + reflexivity.
    + reflexivity.
    + reflexivity.
    + reflexivity.
    + vm_compute. reflexivity.
Defined.

(** ** The counters and the rows *)

(** Two categories have two tables. *)
Lemma target_table_inj (c k : string) :
  In c Analyzer.CATEGORIES -> In k Analyzer.CATEGORIES ->
  Analyzer.target_table c = Analyzer.target_table k -> c = k.
Proof.
  unfold Analyzer.CATEGORIES. cbn [In]. intros Hc Hk.
  repeat (destruct Hc as [<-|Hc]); try contradiction;
    repeat (destruct Hk as [<-|Hk]); try contradiction;
    intros H; first [reflexivity | vm_compute in H; discriminate H].
Qed.

Lemma rows_of_insert_eq (d : gmap string table) (name : string) (t : table) :
  rows_of (store_table name t d) name = tbl_rows t.
Proof. unfold rows_of. rewrite lookup_store_eq. reflexivity. Qed.

Lemma rows_of_insert_ne (d : gmap string table) (name other : string) (t : table) :
  nocase other <> nocase name -> rows_of (store_table name t d) other = rows_of d other.
Proof. intros H. unfold rows_of. rewrite lookup_store_ne by exact H. reflexivity. Qed.

Lemma rows_of_nocase (d : gmap string table) (name other : string) :
  nocase other = nocase name -> rows_of d other = rows_of d name.
Proof. intros H. unfold rows_of, lookup_table. rewrite H. reflexivity. Qed.

Lemma target_table_folded (k : string) :
  In k Analyzer.CATEGORIES -> nocase (Analyzer.target_table k) = Analyzer.target_table k.
Proof.
  unfold Analyzer.CATEGORIES. cbn [In]. intros H.
  repeat (destruct H as [<-|H]; [reflexivity|]). contradiction.
Qed.

(** Creating a table adds no row anywhere. *)
Lemma ensure_table_rows (types : dict string) (category target : string)
    (c : dict pyval) (b : Analyzer.batch) (w : world) (name : string) :
  rows_of (Analyzer.b_working (snd (fst (Analyzer.ensure_table types category target c b w))))
          name
  = rows_of (Analyzer.b_working b) name
  /\ Analyzer.b_counts (snd (fst (Analyzer.ensure_table types category target c b w)))
     = Analyzer.b_counts b.
Proof.
  unfold Analyzer.ensure_table.
  destruct (str_in target (Analyzer.b_created b)); [split; reflexivity|].
  destruct (Analyzer.schema_columns target w) as [[[|col cols]|ex] w0];
    [|split; reflexivity|split; reflexivity].
  destruct (sql_create_table_if_not_exists _ _ _) as [d|ex] eqn:Hc; [|split; reflexivity].
  cbn. split; [|reflexivity].
  apply create_table_ok in Hc as [[_ ->]|[Hn ->]]; [reflexivity|].
  destruct (decide (nocase name = nocase target)) as [Heq|Hne].
  - rewrite !(rows_of_nocase _ _ _ Heq), rows_of_insert_eq.
    unfold rows_of. rewrite Hn. reflexivity.
  - apply rows_of_insert_ne. exact Hne.
Qed.

(** A transfer adds one row to the table of the category and one to its
    counter, or it adds no row and leaves the counters. *)
Lemma transfer_candidate_rows (types : dict string) (category : string)
    (c : dict pyval) (b b' : Analyzer.batch) (w w' : world) (r : option exn) :
  Analyzer.transfer_candidate types category c b w = (r, b', w') ->
  match r with
  | Some _ =>
      Analyzer.b_counts b' = Analyzer.b_counts b
      /\ forall name, rows_of (Analyzer.b_working b') name
                      = rows_of (Analyzer.b_working b) name
  | None =>
      Analyzer.b_counts b'
      = match dict_get category (Analyzer.b_counts b) with
        | Some n => dict_set category (n + 1) (Analyzer.b_counts b)
        | None => Analyzer.b_counts b
        end
      /\ length (rows_of (Analyzer.b_working b') (Analyzer.target_table category))
         = S (length (rows_of (Analyzer.b_working b) (Analyzer.target_table category)))
      /\ forall name, nocase name <> nocase (Analyzer.target_table category) ->
                      rows_of (Analyzer.b_working b') name
                      = rows_of (Analyzer.b_working b) name
  end.
Proof.
  unfold Analyzer.transfer_candidate.
  set (target := Analyzer.target_table category).
  pose proof (ensure_table_rows types category target c b w) as He.
  destruct (Analyzer.ensure_table _ _ _ _ _ _) as [[[ex|] b1] w1]; cbn [fst snd] in He.
  { intros [= <- <- <-]. split; [apply (He target) | intros name; apply (He name)]. }
  destruct (Analyzer.insert_candidate target c (Analyzer.b_working b1)) as [d|ex] eqn:Hi.
  2: { intros [= <- <- <-]. split; [apply (He target) | intros name; apply (He name)]. }
  intros [= <- <- <-]. cbn.
  apply insert_candidate_ok in Hi as (t & t' & rowid & Ht & Hins & ->).
  destruct (He target) as [Hrows Hcounts]. rewrite Hcounts. split; [reflexivity|]. split.
  - rewrite rows_of_insert_eq, <- Hrows. unfold rows_of. rewrite Ht.
    apply sql_insert_rows in Hins as (vals & _ & _ & _ & ->). cbn.
    rewrite (Permutation_length (insert_sorted_perm _ _)). reflexivity.
  - intros name Hne. rewrite rows_of_insert_ne by exact Hne. apply (He name).
Qed.

Lemma loop_body_rows (e : env) (types : dict string) (i : nat) (c : dict pyval)
    (b b' : Analyzer.batch) (w w' : world) (d0 : gmap string table) :
  (forall k n, In k Analyzer.CATEGORIES -> dict_get k (Analyzer.b_counts b) = Some n ->
     Z.of_nat (length (rows_of (Analyzer.b_working b) (Analyzer.target_table k)))
     = Z.of_nat (length (rows_of d0 (Analyzer.target_table k))) + n) ->
  Analyzer.loop_body e types i c b w = (None, b', w') ->
  forall k n, In k Analyzer.CATEGORIES -> dict_get k (Analyzer.b_counts b') = Some n ->
    Z.of_nat (length (rows_of (Analyzer.b_working b') (Analyzer.target_table k)))
    = Z.of_nat (length (rows_of d0 (Analyzer.target_table k))) + n.
Proof.
  intros Hinv Hl. unfold Analyzer.loop_body in Hl.
  destruct (Analyzer.read_skills c) as [s|ex]; [|discriminate Hl].
  destruct (is_empty s).
  { injection Hl as <- <-. exact Hinv. }
  set (w0 := logf DEBUG _ _ w) in Hl.
  assert (Ht : forall r b1 w1,
             Analyzer.try_body e types (Analyzer.candidate_identifier i c) s c b w0
             = (r, b1, w1) ->
             forall k n, In k Analyzer.CATEGORIES ->
               dict_get k (Analyzer.b_counts b1) = Some n ->
               Z.of_nat (length (rows_of (Analyzer.b_working b1) (Analyzer.target_table k)))
               = Z.of_nat (length (rows_of d0 (Analyzer.target_table k))) + n).
  { intros r b1 w1. unfold Analyzer.try_body.
    destruct (Analyzer.classify_candidate _ _ _ _) as [[category|ex] w2] eqn:Hc.
    2: { intros [= <- <- <-]. exact Hinv. }
    apply classify_candidate_listed, str_in_In in Hc. intros Htr.
    apply transfer_candidate_rows in Htr. destruct r as [ex|].
    - destruct Htr as [Hcounts Hrows]. intros k n Hk Hn.
      rewrite Hrows. rewrite Hcounts in Hn. apply Hinv; assumption.
    - destruct Htr as (Hcounts & Hone & Hother). intros k n Hk Hn.
      rewrite Hcounts in Hn. destruct (decide (k = category)) as [->|Hne].
      + destruct (dict_get category (Analyzer.b_counts b)) as [n0|] eqn:Hg.
        * rewrite dict_get_set_eq in Hn. injection Hn as <-.
          rewrite Hone. specialize (Hinv category n0 Hk Hg). lia.
        * congruence.
      + rewrite Hother.
        2: { rewrite !target_table_folded by assumption.
             intros Heq. apply Hne. apply target_table_inj; assumption. }
        apply Hinv; [exact Hk|].
        destruct (dict_get category (Analyzer.b_counts b)) as [n0|]; [|exact Hn].
        rewrite dict_get_set_ne in Hn by congruence. exact Hn. }
  destruct (Analyzer.try_body _ _ _ _ _ _ _) as [[[ex|] b1] w1] eqn:Htry;
    injection Hl as <- <-; eapply Ht; reflexivity.
Qed.

Lemma loop_rows (e : env) (types : dict string) (cands : list (dict pyval))
    (d0 : gmap string table) :
  forall (i : nat) (b b' : Analyzer.batch) (w w' : world),
    (forall k n, In k Analyzer.CATEGORIES -> dict_get k (Analyzer.b_counts b) = Some n ->
       Z.of_nat (length (rows_of (Analyzer.b_working b) (Analyzer.target_table k)))
       = Z.of_nat (length (rows_of d0 (Analyzer.target_table k))) + n) ->
    Analyzer.candidates_loop e types i cands b w = (None, b', w') ->
    forall k n, In k Analyzer.CATEGORIES -> dict_get k (Analyzer.b_counts b') = Some n ->
      Z.of_nat (length (rows_of (Analyzer.b_working b') (Analyzer.target_table k)))
      = Z.of_nat (length (rows_of d0 (Analyzer.target_table k))) + n.
Proof.
  induction cands as [|c rest IH]; intros i b b' w w' Hinv Hl.
  - injection Hl as <- <-. exact Hinv.
  - cbn [Analyzer.candidates_loop] in Hl.
    destruct (Analyzer.loop_body e types i c b w) as [[[ex|] b1] w1] eqn:Hb;
      [discriminate Hl|].
    eapply IH; [|exact Hl]. eapply loop_body_rows; eassumption.
Qed.

Lemma zero_counts (l : list string) (k : string) (n : Z) :
  dict_get k (map (fun c => (c, 0)) l) = Some n -> n = 0.
Proof.
  induction l as [|c l IH]; cbn [map dict_get]; [intros H; discriminate H|].
  destruct (String.eqb k c); [intros [= <-]; reflexivity | exact IH].
Qed.



(** ** UPDATE *)

Lemma update_rows_count (name : string) (t : table) (sets : dict sqlval)
    (test : stored_row -> bool) (todo : list stored_row) :
  forall (done rows : list stored_row) (k : Z),
    update_rows name t sets test todo done = Ret (rows, k) ->
    length rows = (length todo + length done)%nat
    /\ k = Z.of_nat (length (List.filter test todo)).
Proof.
  induction todo as [|r rest IH]; intros done rows k; cbn [update_rows].
  - intros [= <- <-]. rewrite length_rev. split; reflexivity.
  - cbn [List.filter]. destruct (test r).
    + destruct (updated_rowid _ _ _ _ _) as [rowid|ex]; [|intros H; discriminate H].
      cbn [obind].
      destruct (check_constraints _ _ _ _) as [[]|ex]; [|intros H; discriminate H].
      cbn [obind].
      destruct (update_rows name t sets test rest ((rowid, updated_cells t sets r) :: done))
        as [[rows' k']|ex] eqn:Hu; [|intros H; discriminate H].
      cbn [obind fst snd]. intros [= <- <-].
      apply IH in Hu as [Hlen ->]. cbn [length] in *. split; lia.
    + intros Hu. apply IH in Hu as [Hlen ->]. cbn [length] in *. split; [lia | reflexivity].
Qed.

Lemma fold_insert_sorted_length (l : list stored_row) :
  length (fold_right insert_sorted [] l) = length l.
Proof.
  induction l as [|r l IH]; cbn [fold_right length]; [reflexivity|].
  rewrite (Permutation_length (insert_sorted_perm _ _)). cbn [length]. rewrite IH.
  reflexivity.
Qed.

Lemma sql_update_ok (name : string) (t t' : table) (cols : list string)
    (params : list pyval) (condition : string) (n : Z) :
  sql_update name t cols params condition = Ret (t', n) ->
  exists test,
    where_clause t (Some condition) = Ret test
    /\ n = Z.of_nat (length (List.filter test (tbl_rows t)))
    /\ length (tbl_rows t') = length (tbl_rows t).
Proof.
  unfold sql_update. destruct (unknown_column _ _); [intros H; discriminate H|].
  destruct (where_clause t (Some condition)) as [test|ex]; [|intros H; discriminate H].
  cbn [obind].
  destruct (omap bind_param params) as [vals|ex]; [|intros H; discriminate H].
  cbn [obind].
  destruct (update_rows _ _ _ _ _ _) as [[rows k]|ex] eqn:Hu; [|intros H; discriminate H].
  cbn [obind fst snd]. intros [= <- <-]. exists test.
  apply update_rows_count in Hu as [Hlen ->].
  split; [reflexivity|]. split; [reflexivity|].
  cbn [tbl_rows with_rows]. rewrite fold_insert_sorted_length, Hlen. cbn [length]. lia.
Qed.

Lemma update_data_ok (table_name : string) (new_values : dict pyval)
    (condition : string) (w w' : world) (msg : string) (n : Z) :
  ResumeAgent.update_data table_name new_values condition w
  = (Ret (PDict [("success", PBool true); ("message", PStr msg); ("rows_updated", PInt n)]),
     w') ->
  exists t t',
    is_empty condition = false
    /\ plain_ident table_name = true
    /\ lookup_table (w_db w) table_name = Some t
    /\ sql_update table_name t (dict_keys new_values) (dict_values new_values) condition
       = Ret (t', n)
    /\ w' = commit (store_table table_name t' (w_db w)) (connect w).
Proof.
  unfold ResumeAgent.update_data, ResumeAgent.failure.
  destruct new_values as [|kv rest] eqn:Hnv; [intros H; discriminate H|]. rewrite <- Hnv.
  destruct (is_empty condition) eqn:He; [intros H; discriminate H|]. cbn [orb].
  destruct (is_empty (strip condition)); [intros H; discriminate H|].
  cbn [w_db connect]. unfold find_table.
  destruct (plain_ident table_name) eqn:Hp;
    [|cbn [obind is_sqlite_error sql_error]; intros H; discriminate H].
  destruct (lookup_table (w_db w) table_name) as [t|] eqn:Ht;
    [|cbn [obind is_sqlite_error sql_error]; intros H; discriminate H].
  cbn [obind].
  destruct (ResumeAgent.plain_columns (dict_keys new_values)) as [[]|ex] eqn:Hpc.
  2: { unfold ResumeAgent.plain_columns in Hpc.
       destruct (List.filter _ _); [discriminate Hpc|]. injection Hpc as <-.
       cbn [obind is_sqlite_error sql_error]. intros H. discriminate H. }
  cbn [obind].
  destruct (sql_update _ _ _ _ _) as [[t' n']|ex] eqn:Hu.
  - intros H. injection H as _ Hn Hw'. subst n' w'. exists t, t'. auto.
  - destruct (is_sqlite_error ex); intros H; discriminate H.
Qed.



(** ** Insert, then delete *)

Lemma filter_out_insert_sorted (test : stored_row -> bool) (x : stored_row)
    (rows : list stored_row) :
  test x = true -> (forall y, In y rows -> test y = false) ->
  List.filter (fun r => negb (test r)) (insert_sorted x rows) = rows.
Proof.
  intros Hx. induction rows as [|r rows IH]; intros Hrows; cbn [insert_sorted List.filter].
  - rewrite Hx. reflexivity.
  - assert (Hall : List.filter (fun r => negb (test r)) (r :: rows) = r :: rows).
    { clear IH. induction (r :: rows) as [|y l IHl]; cbn [List.filter]; [reflexivity|].
      rewrite (Hrows y (or_introl eq_refl)). cbn [negb]. f_equal. apply IHl.
      intros z Hz. apply Hrows. right. exact Hz. }
    destruct (fst x <? fst r); cbn [List.filter].
    + rewrite Hx. cbn [negb]. exact Hall.
    + rewrite (Hrows r (or_introl eq_refl)). cbn [negb]. f_equal. apply IH.
      intros y Hy. apply Hrows. right. exact Hy.
Qed.

Lemma not_equals_sign (a : ascii) :
  nat_of_ascii a <> 61%nat -> Ascii.eqb a equals_sign = false.
Proof.
  intros H. destruct (Ascii.eqb_spec a equals_sign) as [->|]; [|reflexivity].
  exfalso. apply H. reflexivity.
Qed.

Ltac byte_facts H :=
  unfold is_space, is_space2, is_space3, byte_is in H;
  repeat rewrite ?andb_true_iff, ?orb_true_iff, ?Nat.leb_le, ?Nat.eqb_eq in H.

(** The white space a text starts with holds no [=]. *)
Lemma drop_space_equals (s r : string) :
  drop_space s = Some r -> has_char equals_sign s = has_char equals_sign r.
Proof.
  destruct s as [|a [|b [|c r3]]]; cbn [drop_space].
  - discriminate.
  - destruct (is_space a) eqn:Ha; [|discriminate]. intros [= <-].
    byte_facts Ha. cbn [has_char]. rewrite not_equals_sign by lia. reflexivity.
  - destruct (is_space a) eqn:Ha.
    { intros [= <-]. byte_facts Ha. cbn [has_char].
      rewrite (not_equals_sign a) by lia. reflexivity. }
    destruct (is_space2 a b) eqn:Hab; [|discriminate]. intros [= <-].
    byte_facts Hab. cbn [has_char].
    rewrite (not_equals_sign a), (not_equals_sign b) by lia. reflexivity.
  - destruct (is_space a) eqn:Ha.
    { intros [= <-]. byte_facts Ha. cbn [has_char].
      rewrite (not_equals_sign a) by lia. reflexivity. }
    destruct (is_space2 a b) eqn:Hab.
    { intros [= <-]. byte_facts Hab. cbn [has_char].
      rewrite (not_equals_sign a), (not_equals_sign b) by lia. reflexivity. }
    destruct (is_space3 a b c) eqn:Habc; [|discriminate]. intros [= <-].
    byte_facts Habc. cbn [has_char].
    rewrite (not_equals_sign a), (not_equals_sign b), (not_equals_sign c) by lia.
    reflexivity.
Qed.

Lemma all_space_equals (s : string) :
  all_space s = true -> has_char equals_sign s = false.
Proof.
  remember (String.length s) as n eqn:Hn. revert s Hn.
  induction n as [n IH] using lt_wf_ind. intros s -> Hs.
  unfold all_space in Hs. rewrite lstrip_unfold in Hs.
  destruct (drop_space s) as [r|] eqn:Hd.
  - rewrite (drop_space_equals _ _ Hd).
    apply (IH (String.length r)); [apply drop_space_shorter; exact Hd | reflexivity|].
    unfold all_space. exact Hs.
  - destruct s; [reflexivity | discriminate Hs].
Qed.

Lemma split_eq_equals (s : string) (p : string * string) :
  split_eq s = Some p -> has_char equals_sign s = true.
Proof.
  revert p. induction s as [|a r IH]; intros p; cbn [split_eq has_char]; [discriminate|].
  destruct (Nat.eqb (nat_of_ascii a) 61) eqn:E.
  - intros _. apply Nat.eqb_eq in E.
    assert (Ha : a = equals_sign).
    { rewrite <- (ascii_nat_embedding a), E. reflexivity. }
    rewrite Ha. reflexivity.
  - destruct (split_eq r) as [[l r']|]; [|discriminate].
    intros _. rewrite (IH _ eq_refl). apply orb_true_r.
Qed.

Lemma trim_left_has (p : ascii -> bool) (c : ascii) (s : string) :
  has_char c (trim_left p s) = true -> has_char c s = true.
Proof.
  induction s as [|a r IH]; cbn [trim_left has_char]; [auto|].
  destruct (p a); [|auto]. intros H. rewrite (IH H). apply orb_true_r.
Qed.

Lemma trim_right_has (p : ascii -> bool) (c : ascii) (s : string) :
  has_char c (trim_right p s) = true -> has_char c s = true.
Proof.
  induction s as [|a r IH]; cbn [trim_right has_char]; [auto|].
  destruct (trim_right p r) as [|b r'] eqn:Hr.
  - destruct (p a); cbn [has_char]; [discriminate|].
    rewrite orb_false_r. intros ->. reflexivity.
  - cbn [has_char] in *. destruct (Ascii.eqb a c); [reflexivity|]. cbn [orb]. exact IH.
Qed.

(** A condition the fragment reads holds an [=], so that it is neither
    empty nor white space only. *)
Lemma parsed_condition_not_blank (condition : string) (c : cond) :
  parse_condition condition = Some c ->
  is_empty condition = false /\ is_empty (strip condition) = false.
Proof.
  intros H. split.
  - destruct condition; [discriminate H | reflexivity].
  - rewrite strip_empty_iff. destruct (all_space condition) eqn:Hs; [|reflexivity].
    apply all_space_equals in Hs. unfold parse_condition in H.
    destruct (split_eq (trim sql_space condition)) as [p|] eqn:Hp; [|discriminate H].
    apply split_eq_equals in Hp. unfold trim in Hp.
    apply trim_right_has, trim_left_has in Hp. congruence.
Qed.



(** ** Queries without a condition *)

Lemma parse_condition_true (condition : string) :
  trim sql_space condition = "1=1" -> parse_condition condition = Some CTrue.
Proof. intros H. unfold parse_condition. rewrite H. reflexivity. Qed.

Lemma where_clause_true (t : table) (condition : string) :
  trim sql_space condition = "1=1" ->
  where_clause t (Some condition) = where_clause t None.
Proof.
  intros H. unfold where_clause. rewrite (parse_condition_true _ H). reflexivity.
Qed.

Lemma sql_select_true (d : gmap string table) (table_name columns condition : string) :
  trim sql_space condition = "1=1" ->
  sql_select d table_name columns (Some condition) = sql_select d table_name columns None.
Proof.
  intros H. unfold sql_select.
  destruct (find_table d table_name) as [t|ex]; [|reflexivity]. cbn [obind].
  destruct (select_list t columns) as [names|ex]; [|reflexivity]. cbn [obind].
  rewrite (where_clause_true t _ H). reflexivity.
Qed.

Lemma filter_all {A : Type} (l : list A) : List.filter (fun _ => true) l = l.
Proof. induction l as [|x l IH]; cbn [List.filter]; [reflexivity | f_equal; exact IH]. Qed.

(** With such a condition each server's query is the scan. *)
Lemma scan_of_select (table_name columns condition : string) (d : gmap string table)
    (where_ : option string) :
  is_empty condition = true \/ trim sql_space condition = "1=1" ->
  where_ = None \/ (where_ = Some condition /\ is_empty condition = false) ->
  sql_select d table_name columns where_ = sql_select d table_name columns None.
Proof.
  intros Hc [->|[-> He]]; [reflexivity|].
  destruct Hc as [Hc|Hc]; [congruence|]. apply sql_select_true. exact Hc.
Qed.


